(** * AskMe: the record store of the question-and-answer program

    A shallow embedding of [src/ask-me/AskMe.cpp]: the two entity classes
    [User] and [Question] with their line encoders, the line tokenizer and
    the loaders of [FileManager], and the two repositories [UserManager] and
    [QuestionManager].

    Conventions of the embedding.
    - A C++ [int] is a [Z]; arithmetic that can leave the 32-bit range goes
      through [int_wrap] (two's complement wrap-around).
    - A [std::string] is a [string] of 8-bit characters.
    - An [unordered_map<int, T>] is a [gmap Z T]; iterating over it is
      iterating over [map_to_list], one fixed order among those the C++
      container may choose.
    - The file system is a finite map from paths to file contents together
      with a flag saying whether files can be opened for writing.
    - A method that mutates its manager and returns [bool] becomes a
      function from the state to the result and the new state. *)

From Stdlib Require Import ZArith Ascii String List Lia Bool.
From stdpp Require Import base option list gmap fin_maps strings.

Local Open Scope string_scope.
Local Open Scope Z_scope.

(** ** Machine integers *)

Definition INT_MIN : Z := -2147483648.
Definition INT_MAX : Z := 2147483647.

Definition is_int (z : Z) : Prop := INT_MIN <= z <= INT_MAX.

Definition is_intb (z : Z) : bool := (INT_MIN <=? z) && (z <=? INT_MAX).

Definition int_wrap (z : Z) : Z := (z + 2147483648) mod 4294967296 - 2147483648.

(** ** Characters and the [std::string] operations the program uses *)

Definition comma : ascii := ","%char.
Definition dquote : ascii := ascii_of_nat 34.
Definition newline : ascii := ascii_of_nat 10.

(** The string written by [<< "\n"]. *)
Definition nl : string := String newline EmptyString.

(** [str.find(c) != string::npos] *)
Fixpoint contains (c : ascii) (str : string) : bool :=
  match str with
  | EmptyString => false
  | String d rest => Ascii.eqb d c || contains c rest
  end.

(** [currentToken += c] *)
Definition push_back_char (s : string) (c : ascii) : string :=
  s ++ String c EmptyString.

(** *** [std::to_string(int)] *)

Definition digit_char (d : Z) : ascii := ascii_of_nat (48 + Z.to_nat d).

Fixpoint to_string_digits (fuel : nat) (n : Z) (acc : string) : string :=
  match fuel with
  | O => acc
  | S fuel' =>
      let acc' := String (digit_char (n mod 10)) acc in
      if n / 10 =? 0 then acc' else to_string_digits fuel' (n / 10) acc'
  end.

(** The fuel is the binary size of the number, which is at least the
    number of its decimal digits. *)
Definition to_string (n : Z) : string :=
  let a := Z.abs n in
  let digits := to_string_digits (S (Z.to_nat (Z.log2 a))) a EmptyString in
  if n <? 0 then String "-"%char digits else digits.

(** *** [std::stoi(str)]

    As [strtol] in base 10 does: leading white space is skipped, one
    optional sign is read, then the longest run of decimal digits; what
    follows the digits is ignored.  [None] stands for the two exceptions
    [stoi] throws: [invalid_argument] when there is no digit, and
    [out_of_range] when the value is not an [int]. *)

Definition isspace (c : ascii) : bool :=
  let n := nat_of_ascii c in
  Nat.eqb n 32 || (Nat.leb 9 n && Nat.leb n 13).

Definition isdigit (c : ascii) : bool :=
  let n := nat_of_ascii c in
  Nat.leb 48 n && Nat.leb n 57.

Definition digit_value (c : ascii) : Z := Z.of_nat (nat_of_ascii c) - 48.

Fixpoint skip_spaces (s : string) : string :=
  match s with
  | String c rest => if isspace c then skip_spaces rest else s
  | EmptyString => EmptyString
  end.

(** Value of the leading run of digits; [seen] records whether at least one
    digit was consumed. *)
Fixpoint read_digits (s : string) (acc : Z) (seen : bool) : option Z :=
  match s with
  | String c rest =>
      if isdigit c then read_digits rest (10 * acc + digit_value c) true
      else if seen then Some acc else None
  | EmptyString => if seen then Some acc else None
  end.

Definition stoi (str : string) : option Z :=
  let s := skip_spaces str in
  let '(negative, s) :=
    match s with
    | String "-"%char rest => (true, rest)
    | String "+"%char rest => (false, rest)
    | _ => (false, s)
    end in
  match read_digits s 0 false with
  | None => None
  | Some v =>
      let v := if negative then - v else v in
      if is_intb v then Some v else None
  end.

(** ** class User *)

Module User.

Inductive Role := ADMIN | REGULAR_USER.

(** The enumerators' values, as [to_string(role)] prints them. *)
Definition Role_to_int (r : Role) : Z :=
  match r with ADMIN => 0 | REGULAR_USER => 1 end.

Record t := mk {
  id : Z;
  name : string;
  password : string;
  username : string;
  email : string;
  allow_anonymous_questions : bool;
  role : Role
}.

(** [User()] *)
Definition default : t := mk 0 "" "" "" "" false REGULAR_USER.

Definition verifyPassword (u : t) (inputPassword : string) : bool :=
  String.eqb (password u) inputPassword.

Definition toString (u : t) : string :=
  to_string (id u) ++ "," ++ name u ++ "," ++ password u ++ "," ++
  username u ++ "," ++ email u ++ "," ++
  (if allow_anonymous_questions u then "1" else "0") ++ "," ++
  to_string (Role_to_int (role u)).

End User.

(** ** class Question *)

Module Question.

Record t := mk {
  id : Z;
  parent_id : Z;
  from_user_id : Z;
  to_user_id : Z;
  is_anonymous : bool;
  text : string;
  answer : string
}.

(** [Question()] *)
Definition default : t := mk 0 (-1) 0 0 false "" "".

Definition setAnswer (q : t) (newAnswer : string) : t :=
  mk (id q) (parent_id q) (from_user_id q) (to_user_id q)
     (is_anonymous q) (text q) newAnswer.

(** The [while] loop of [escapeCommas]: every double quote found from
    [pos] on is replaced by two, and the scan resumes after them. *)
Fixpoint double_quotes (escaped : string) : string :=
  match escaped with
  | EmptyString => EmptyString
  | String c rest =>
      if Ascii.eqb c dquote
      then String dquote (String dquote (double_quotes rest))
      else String c (double_quotes rest)
  end.

Definition escapeCommas (str : string) : string :=
  if contains comma str
  then String dquote (double_quotes str ++ String dquote EmptyString)
  else str.

Definition toString (q : t) : string :=
  to_string (id q) ++ "," ++ to_string (parent_id q) ++ "," ++
  to_string (from_user_id q) ++ "," ++ to_string (to_user_id q) ++ "," ++
  (if is_anonymous q then "1" else "0") ++ "," ++
  escapeCommas (text q) ++ "," ++ escapeCommas (answer q).

(** [!answer.empty()] *)
Definition isAnswered (q : t) : bool := negb (String.eqb (answer q) EmptyString).

End Question.

(** ** The file system *)

Record FileSystem := mkFS {
  files : gmap string string;   (* path to content; absent: no such file *)
  writable : bool               (* can an [ofstream] be opened *)
}.

(** ** class FileManager *)

Module FileManager.

Record t := mk {
  users_file_path : string;
  questions_file_path : string
}.

(** [FileManager()] with its default arguments *)
Definition default : t := mk "users.txt" "questions.txt".

(** The loop of [split]: [tokens], [currentToken] and [inQuotes] are the
    three local variables. *)
Fixpoint split_loop (str : string) (delimiter : ascii)
    (tokens : list string) (currentToken : string) (inQuotes : bool)
    : list string :=
  match str with
  | EmptyString => tokens ++ [currentToken]
  | String c rest =>
      if Ascii.eqb c dquote then
        split_loop rest delimiter tokens currentToken (negb inQuotes)
      else if Ascii.eqb c delimiter && negb inQuotes then
        split_loop rest delimiter (tokens ++ [currentToken]) EmptyString inQuotes
      else
        split_loop rest delimiter tokens (push_back_char currentToken c) inQuotes
  end.

Definition split (str : string) (delimiter : ascii) : list string :=
  split_loop str delimiter [] EmptyString false.

(** [while (getline(file, line)) if (!line.empty()) lines.push_back(line)]:
    [line] collects the characters up to the next newline; at the end of
    the file a last [getline] succeeds only if it extracted characters. *)
Fixpoint getline_loop (content : string) (line : string) (lines : list string)
    : list string :=
  match content with
  | EmptyString =>
      if String.eqb line EmptyString then lines else lines ++ [line]
  | String c rest =>
      if Ascii.eqb c newline then
        getline_loop rest EmptyString
          (if String.eqb line EmptyString then lines else lines ++ [line])
      else getline_loop rest (push_back_char line c) lines
  end.

Definition ReadInformationFromFile (fs : FileSystem) (file_path : string)
    : list string :=
  match files fs !! file_path with
  | None => []
  | Some content => getline_loop content EmptyString []
  end.

(** [file << line << "\n"] for every line *)
Fixpoint write_lines (lines : list string) : string :=
  match lines with
  | [] => EmptyString
  | line :: rest => line ++ String newline (write_lines rest)
  end.

Definition StoreInformationOnFile (fs : FileSystem) (file_path : string)
    (lines : list string) : bool * FileSystem :=
  if writable fs
  then (true, mkFS (<[file_path := write_lines lines]> (files fs)) (writable fs))
  else (false, fs).

(** [tokens[i]] for an index the caller has checked to be in range *)
Definition at_ (tokens : list string) (i : nat) : string :=
  nth i tokens EmptyString.

(** [m.emplace(k, v)]: inserts only when the key is absent. *)
Definition emplace {A} (k : Z) (v : A) (m : gmap Z A) : gmap Z A :=
  match m !! k with
  | Some _ => m
  | None => <[k := v]> m
  end.

(** The body of the loop of [LoadUsers] for one line: [None] when the
    line is skipped, by the length test or by the [catch]. *)
Definition parse_user_line (line : string) : option User.t :=
  let tokens := split line comma in
  if (length tokens <? 7)%nat then None
  else
    match stoi (at_ tokens 0) with
    | None => None
    | Some id =>
        let name := at_ tokens 1 in
        let password := at_ tokens 2 in
        let username := at_ tokens 3 in
        let email := at_ tokens 4 in
        let allowAnon :=
          String.eqb (at_ tokens 5) "1" || String.eqb (at_ tokens 5) "true" in
        let role :=
          if String.eqb (at_ tokens 6) "0" then User.ADMIN else User.REGULAR_USER in
        Some (User.mk id name password username email allowAnon role)
    end.

Definition LoadUsers_step (users : gmap Z User.t) (line : string) : gmap Z User.t :=
  match parse_user_line line with
  | None => users
  | Some u => emplace (User.id u) u users
  end.

Definition LoadUsers_lines (lines : list string) : gmap Z User.t :=
  foldl LoadUsers_step ∅ lines.

Definition LoadUsers (fm : t) (fs : FileSystem) : gmap Z User.t :=
  LoadUsers_lines (ReadInformationFromFile fs (users_file_path fm)).

(** The body of the loop of [LoadQuestions] for one line. *)
Definition parse_question_line (line : string) : option Question.t :=
  let tokens := split line comma in
  if (length tokens <? 6)%nat then None
  else
    match stoi (at_ tokens 0) with
    | None => None
    | Some id =>
    match stoi (at_ tokens 1) with
    | None => None
    | Some parentId =>
    match stoi (at_ tokens 2) with
    | None => None
    | Some fromUserId =>
    match stoi (at_ tokens 3) with
    | None => None
    | Some toUserId =>
        let isAnon :=
          String.eqb (at_ tokens 4) "1" || String.eqb (at_ tokens 4) "true" in
        let text := at_ tokens 5 in
        let answer := if (7 <=? length tokens)%nat then at_ tokens 6 else "" in
        Some (Question.mk id parentId fromUserId toUserId isAnon text answer)
    end end end end.

Definition LoadQuestions_step (questions : gmap Z Question.t) (line : string)
    : gmap Z Question.t :=
  match parse_question_line line with
  | None => questions
  | Some q => emplace (Question.id q) q questions
  end.

Definition LoadQuestions_lines (lines : list string) : gmap Z Question.t :=
  foldl LoadQuestions_step ∅ lines.

Definition LoadQuestions (fm : t) (fs : FileSystem) : gmap Z Question.t :=
  LoadQuestions_lines (ReadInformationFromFile fs (questions_file_path fm)).

Definition SaveUsers (fm : t) (fs : FileSystem) (users : gmap Z User.t)
    : bool * FileSystem :=
  let lines := (fun pair => User.toString (snd pair)) <$> map_to_list users in
  StoreInformationOnFile fs (users_file_path fm) lines.

Definition SaveQuestions (fm : t) (fs : FileSystem) (questions : gmap Z Question.t)
    : bool * FileSystem :=
  let lines := (fun pair => Question.toString (snd pair)) <$> map_to_list questions in
  StoreInformationOnFile fs (questions_file_path fm) lines.

End FileManager.

(** ** class UserManager *)

Module UserManager.

Record t := mk {
  users : gmap Z User.t;
  file_manager : FileManager.t
}.

(** [UserManager(const FileManager& fm)] *)
Definition create (fm : FileManager.t) (fs : FileSystem) : t :=
  mk (FileManager.LoadUsers fm fs) fm.

Definition UpdateUser (um : t) (fs : FileSystem) (updated_user : User.t)
    : bool * t * FileSystem :=
  match users um !! User.id updated_user with
  | None => (false, um, fs)
  | Some _ =>
      let users' := <[User.id updated_user := updated_user]> (users um) in
      let '(ok, fs') := FileManager.SaveUsers (file_manager um) fs users' in
      (ok, mk users' (file_manager um), fs')
  end.

(** [None] stands for the [runtime_error] thrown when the id is absent. *)
Definition GetUserByID (um : t) (user_id : Z) : option User.t :=
  users um !! user_id.

Definition AddUser (um : t) (fs : FileSystem) (user : User.t)
    : bool * t * FileSystem :=
  match users um !! User.id user with
  | Some _ => (false, um, fs)
  | None =>
      let users' := <[User.id user := user]> (users um) in
      let '(ok, fs') := FileManager.SaveUsers (file_manager um) fs users' in
      (ok, mk users' (file_manager um), fs')
  end.

Definition GetNextUserID (um : t) : Z :=
  if decide (users um = ∅) then 1
  else
    let maxId :=
      foldl (fun maxId pair => Z.max maxId (fst pair)) 0 (map_to_list (users um)) in
    int_wrap (maxId + 1).

Definition DeleteUser (um : t) (fs : FileSystem) (user_id : Z)
    : bool * t * FileSystem :=
  match users um !! user_id with
  | Some _ =>
      let users' := delete user_id (users um) in
      let '(ok, fs') := FileManager.SaveUsers (file_manager um) fs users' in
      (ok, mk users' (file_manager um), fs')
  | None => (false, um, fs)
  end.

Definition Authenticate (um : t) (user_id : Z) (password : string) : bool :=
  match users um !! user_id with
  | Some u => User.verifyPassword u password
  | None => false
  end.

End UserManager.

(** ** class AuthService *)

Module AuthService.

(** The reference [user_manager] is passed to the methods that use it. *)
Record t := mk {
  users : gmap Z User.t;            (* the local cache, loaded once *)
  file_manager : FileManager.t;
  current_user : User.t;
  is_logged_in : bool
}.

(** [AuthService(UserManager& um)]: the file manager is the default one. *)
Definition create (fs : FileSystem) : t :=
  mk (FileManager.LoadUsers FileManager.default fs) FileManager.default
     User.default false.

(** [None] stands for the [runtime_error] thrown on invalid credentials;
    the service is then as it was. *)
Definition Login (auth : t) (um : UserManager.t) (user_id : Z) (password : string)
    : option t :=
  if UserManager.Authenticate um user_id password then
    match UserManager.GetUserByID um user_id with
    | Some u => Some (mk (users auth) (file_manager auth) u true)
    | None => None
    end
  else None.

(** What the user types during [SignUp], one field per read of [cin]. *)
Record SignUpInput := mkSignUpInput {
  in_username : string;
  in_password : string;
  in_name : string;
  in_email : string;
  in_allow_anon : Z
}.

(** The first component is [None] when [SignUp] throws its
    [runtime_error]; the user manager and the files are then what [AddUser]
    left. *)
Definition SignUp (auth : t) (um : UserManager.t) (fs : FileSystem)
    (input : SignUpInput) : option t * UserManager.t * FileSystem :=
  let new_user :=
    User.mk (UserManager.GetNextUserID um) (in_name input) (in_password input)
      (in_username input) (in_email input) (in_allow_anon input =? 1)
      User.REGULAR_USER in
  let '(ok, um', fs') := UserManager.AddUser um fs new_user in
  if ok then (Some (mk (users auth) (file_manager auth) new_user true), um', fs')
  else (None, um', fs').

(** [None] stands for the [runtime_error] thrown when nobody is logged in. *)
Definition GetCurrentUser (auth : t) : option User.t :=
  if is_logged_in auth then Some (current_user auth) else None.

Definition IsLoggedIn (auth : t) : bool := is_logged_in auth.

Definition Logout (auth : t) : t :=
  mk (users auth) (file_manager auth) User.default false.

End AuthService.

(** ** class QuestionManager *)

Module QuestionManager.

(** The reference [user_manager] is passed to the methods that read it. *)
Record t := mk {
  questions : gmap Z Question.t;
  file_manager : FileManager.t
}.

(** The constructor's body, [questions = file_manager.LoadQuestions()]. *)
Definition create_from (fm : FileManager.t) (fs : FileSystem) : t :=
  mk (FileManager.LoadQuestions fm fs) fm.

(** [QuestionManager(UserManager& um)]: the file manager is the default one. *)
Definition create (fs : FileSystem) : t := create_from FileManager.default fs.

(** [std::max_element] with the comparison [a.first < b.first]: the
    candidate is replaced only by a strictly larger element. *)
Fixpoint max_element {A} (largest : Z * A) (rest : list (Z * A)) : Z * A :=
  match rest with
  | [] => largest
  | x :: rest' =>
      max_element (if fst largest <? fst x then x else largest) rest'
  end.

Definition GetNextQuestionID (qm : t) : Z :=
  match map_to_list (questions qm) with
  | [] => 1
  | first :: rest => int_wrap (fst (max_element first rest) + 1)
  end.

Definition AddQuestion (um : UserManager.t) (qm : t) (fs : FileSystem)
    (question : Question.t) : bool * t * FileSystem :=
  match questions qm !! Question.id question with
  | Some _ => (false, qm, fs)
  | None =>
      match UserManager.GetUserByID um (Question.to_user_id question) with
      | None => (false, qm, fs)
      | Some recipient =>
          if Question.is_anonymous question
             && negb (User.allow_anonymous_questions recipient)
          then (false, qm, fs)
          else
            let questions' := <[Question.id question := question]> (questions qm) in
            let '(ok, fs') :=
              FileManager.SaveQuestions (file_manager qm) fs questions' in
            (ok, mk questions' (file_manager qm), fs')
      end
  end.

Definition UpdateQuestion (qm : t) (fs : FileSystem) (question : Question.t)
    : bool * t * FileSystem :=
  match questions qm !! Question.id question with
  | None => (false, qm, fs)
  | Some _ =>
      let questions' := <[Question.id question := question]> (questions qm) in
      let '(ok, fs') :=
        FileManager.SaveQuestions (file_manager qm) fs questions' in
      (ok, mk questions' (file_manager qm), fs')
  end.

(** What the user types during [AskQuestion], one field per read of
    [cin].  [in_parent_id] is [None] when [cin >> parent_id] fails; it is
    read only after the answer [y] to the follow-up prompt. *)
Record AskInput := mkAskInput {
  in_to_user_id : Z;
  in_follow_up : ascii;
  in_parent_id : option Z;
  in_text : string;
  in_anonymous : ascii
}.

(** [tolower(response) == 'y'] *)
Definition is_yes (response : ascii) : bool :=
  Ascii.eqb response "y"%char || Ascii.eqb response "Y"%char.

(** A failed [cin >> parent_id] leaves the stream in its failed state:
    the later [getline] reads nothing, so [text] stays empty, and the
    later [cin >> response] leaves [response] as the follow-up answer. *)
Definition AskQuestion (um : UserManager.t) (qm : t) (fs : FileSystem)
    (current_user : User.t) (input : AskInput) : t * FileSystem :=
  if in_to_user_id input =? -1 then (qm, fs)
  else
    match UserManager.GetUserByID um (in_to_user_id input) with
    | None => (qm, fs)
    | Some recipient =>
        let '(parent_id, stream_good) :=
          if is_yes (in_follow_up input) then
            match in_parent_id input with
            | None => (-1, false)
            | Some p =>
                match questions qm !! p with
                | None => (-1, true)
                | Some _ => (p, true)
                end
            end
          else (-1, true) in
        let text := if stream_good then in_text input else EmptyString in
        let response :=
          if stream_good then in_anonymous input else in_follow_up input in
        let is_anonymous :=
          if User.allow_anonymous_questions recipient then is_yes response
          else false in
        let question :=
          Question.mk (GetNextQuestionID qm) parent_id (User.id current_user)
            (in_to_user_id input) is_anonymous text EmptyString in
        let '(_, qm', fs') := AddQuestion um qm fs question in
        (qm', fs')
    end.

(** What [GetThreadQuestions] shows for the id read from [cin]. *)
Inductive ThreadView :=
| Canceled
| ParentMissing
| Threads (printed : list Question.t).

Definition GetThreadQuestions (qm : t) (parent_id : Z) : ThreadView :=
  if parent_id =? -1 then Canceled
  else
    match questions qm !! parent_id with
    | None => ParentMissing
    | Some _ =>
        Threads
          (snd <$>
             filter (fun pair => Question.parent_id (snd pair) = parent_id)
               (map_to_list (questions qm)))
    end.

(** [m[k]]: a reference to the value at [k], which is default-inserted
    when the key is absent. *)
Definition index (m : gmap Z Question.t) (k : Z) : Question.t * gmap Z Question.t :=
  match m !! k with
  | Some q => (q, m)
  | None => (Question.default, <[k := Question.default]> m)
  end.

(** The access test shared by [DeleteQuestion] and [DeleteThreadQuestions]:
    [q.getFromUserId() != current_user.getId()
     && current_user.getRole() == User::REGULAR_USER]. *)
Definition denied (q : Question.t) (current_user : User.t) : bool :=
  negb (Question.from_user_id q =? User.id current_user)
  && match User.role current_user with
     | User.REGULAR_USER => true
     | User.ADMIN => false
     end.

(** One iteration of the second loop of [DeleteThreadQuestions]. *)
Definition delete_thread (current_user : User.t)
    (questions : gmap Z Question.t) (thread_id : Z) : gmap Z Question.t :=
  let '(thread, questions) := index questions thread_id in
  if denied thread current_user then questions
  else delete thread_id questions.

Definition DeleteThreadQuestions (qm : t) (fs : FileSystem)
    (parent_id : Z) (current_user : User.t) : t * FileSystem :=
  let threads_to_delete :=
    fst <$>
      filter (fun pair => Question.parent_id (snd pair) = parent_id)
        (map_to_list (questions qm)) in
  let questions' :=
    foldl (delete_thread current_user) (questions qm) threads_to_delete in
  match threads_to_delete with
  | [] => (mk questions' (file_manager qm), fs)
  | _ :: _ =>
      let '(_, fs') :=
        FileManager.SaveQuestions (file_manager qm) fs questions' in
      (mk questions' (file_manager qm), fs')
  end.

Definition DeleteQuestion (qm : t) (fs : FileSystem)
    (question_id : Z) (current_user : User.t) : bool * t * FileSystem :=
  match questions qm !! question_id with
  | None => (false, qm, fs)
  | Some question =>
      if denied question current_user then (false, qm, fs)
      else
        let '(qm1, fs1) := DeleteThreadQuestions qm fs question_id current_user in
        let questions' := delete question_id (questions qm1) in
        let '(ok, fs') :=
          FileManager.SaveQuestions (file_manager qm1) fs1 questions' in
        (ok, mk questions' (file_manager qm1), fs')
  end.

(** What [PrintQuestion] writes to [cout]. *)
Definition PrintQuestion (q : Question.t) (is_thread : bool) : string :=
  ((if is_thread then "├─ Thread " else "")
   ++ "Question ID: " ++ to_string (Question.id q) ++ nl
   ++ (if negb is_thread
       then "To: User ID " ++ to_string (Question.to_user_id q) ++ nl
       else "")
   ++ (if negb (Question.is_anonymous q) || negb is_thread
       then "From: "
            ++ (if Question.is_anonymous q then "Anonymous"
                else "User ID " ++ to_string (Question.from_user_id q))
            ++ nl
       else "")
   ++ "Question: " ++ Question.text q ++ nl
   ++ "Answer: "
   ++ (if Question.isAnswered q then Question.answer q else "Not answered yet")
   ++ nl
   ++ (if is_thread then "  " else "") ++ "───" ++ nl)%string.

(** The calls [PrintQuestion(question, question.getParentId() != -1)] that
    the loop of [PrintQuestionsToUser] makes, in order. *)
Definition questions_to_user (qm : t) (user_id : Z) : list (Question.t * bool) :=
  (fun pair => (snd pair, negb (Question.parent_id (snd pair) =? -1))) <$>
    filter (fun pair => Question.to_user_id (snd pair) = user_id)
      (map_to_list (questions qm)).

(** The same for [PrintQuestionsFromUser]. *)
Definition questions_from_user (qm : t) (user_id : Z) : list (Question.t * bool) :=
  (fun pair => (snd pair, negb (Question.parent_id (snd pair) =? -1))) <$>
    filter (fun pair => Question.from_user_id (snd pair) = user_id)
      (map_to_list (questions qm)).

(** The text of a sequence of [PrintQuestion] calls. *)
Fixpoint print_all (calls : list (Question.t * bool)) : string :=
  match calls with
  | [] => EmptyString
  | (q, is_thread) :: rest => (PrintQuestion q is_thread ++ print_all rest)%string
  end.

Definition PrintQuestionsToUser (qm : t) (user_id : Z) : string :=
  let calls := questions_to_user qm user_id in
  (nl ++ "─── Questions To You ───" ++ nl ++ print_all calls
   ++ match calls with
      | [] => "No questions found addressed to you." ++ nl
      | _ :: _ => ""
      end)%string.

Definition PrintQuestionsFromUser (qm : t) (user_id : Z) : string :=
  let calls := questions_from_user qm user_id in
  (nl ++ "─── Questions From You ───" ++ nl ++ print_all calls
   ++ match calls with
      | [] => "You haven't asked any questions yet." ++ nl
      | _ :: _ => ""
      end)%string.

(** What [GetFeed] shows. *)
Inductive FeedView :=
| AccessDenied
| NoQuestions
| Feed (total : nat) (calls : list (Question.t * bool)).

Definition GetFeed (qm : t) (current_user : User.t) : FeedView :=
  match User.role current_user with
  | User.REGULAR_USER => AccessDenied
  | User.ADMIN =>
      match map_to_list (questions qm) with
      | [] => NoQuestions
      | all =>
          Feed (size (questions qm))
            ((fun pair => (snd pair, negb (Question.parent_id (snd pair) =? -1)))
               <$> all)
      end
  end.

(** What the user types during [AnswerQuestion].  [in_confirm] is read only
    when the question already has an answer. *)
Record AnswerInput := mkAnswerInput {
  in_question_id : Z;
  in_confirm : ascii;
  in_answer : string
}.

Inductive AnswerOutcome :=
| AnswerCanceled
| QuestionMissing
| NotAddressedToYou
| UpdateCanceled
| AnswerStored (saved : bool).

(** [question] is a reference to the element of the map, so [setAnswer]
    changes the collection before [UpdateQuestion] is called. *)
Definition AnswerQuestion (qm : t) (fs : FileSystem) (current_user_id : Z)
    (input : AnswerInput) : AnswerOutcome * t * FileSystem :=
  let question_id := in_question_id input in
  if question_id =? -1 then (AnswerCanceled, qm, fs)
  else
    match questions qm !! question_id with
    | None => (QuestionMissing, qm, fs)
    | Some question =>
        if negb (Question.to_user_id question =? current_user_id)
        then (NotAddressedToYou, qm, fs)
        else if Question.isAnswered question && negb (is_yes (in_confirm input))
        then (UpdateCanceled, qm, fs)
        else
          let question := Question.setAnswer question (in_answer input) in
          let qm := mk (<[question_id := question]> (questions qm)) (file_manager qm) in
          let '(ok, qm', fs') := UpdateQuestion qm fs question in
          (AnswerStored ok, qm', fs')
    end.

End QuestionManager.

(** ** class AskMeSystem *)

Module AskMeSystem.

(** The two managers and the files they share.  The login state of
    [auth_service] plays no part in the operations below. *)
Record t := mk {
  user_manager : UserManager.t;
  question_manager : QuestionManager.t;
  disk : FileSystem
}.

(** [AskMeSystem()]: both managers load their collection from the disk. *)
Definition create (fs : FileSystem) : t :=
  mk (UserManager.create FileManager.default fs) (QuestionManager.create fs) fs.

(** Admin menu, choice 2: [user_manager.DeleteUser(id)]. *)
Definition DeleteUser (s : t) (id : Z) : bool * t :=
  let '(ok, um', fs') := UserManager.DeleteUser (user_manager s) (disk s) id in
  (ok, mk um' (question_manager s) fs').

End AskMeSystem.

(** * Specification vocabulary *)

(** [k] is the largest id of the collection [m]. *)
Definition is_max_id {A} (m : gmap Z A) (k : Z) : Prop :=
  is_Some (m !! k) /\ forall j, is_Some (m !! j) -> j <= k.

(** What [nextId()] is to return on the collection [m]. *)
Definition next_id_spec {A} (m : gmap Z A) (next : Z) : Prop :=
  (m = ∅ /\ next = 1) \/ (exists k, is_max_id m k /\ next = k + 1).

(** A well-formed account line: at least seven fields, and a first field
    that [stoi] converts. *)
Definition user_line_ok (line : string) : bool :=
  let tokens := FileManager.split line comma in
  (7 <=? length tokens)%nat
  && bool_decide (is_Some (stoi (FileManager.at_ tokens 0))).

(** A well-formed thread line: at least six fields, and four leading
    fields that [stoi] converts. *)
Definition question_line_ok (line : string) : bool :=
  let tokens := FileManager.split line comma in
  (6 <=? length tokens)%nat
  && bool_decide (is_Some (stoi (FileManager.at_ tokens 0)))
  && bool_decide (is_Some (stoi (FileManager.at_ tokens 1)))
  && bool_decide (is_Some (stoi (FileManager.at_ tokens 2)))
  && bool_decide (is_Some (stoi (FileManager.at_ tokens 3))).

(** The records a file's lines decode to, in the order of the lines. *)
Definition decoded_users (lines : list string) : list User.t :=
  omap FileManager.parse_user_line lines.

Definition decoded_questions (lines : list string) : list Question.t :=
  omap FileManager.parse_question_line lines.

(** A string made of decimal digits only. *)
Fixpoint all_digits (s : string) : bool :=
  match s with
  | EmptyString => true
  | String c rest => isdigit c && all_digits rest
  end.

(** [s] without its double quotes. *)
Fixpoint strip_quotes (s : string) : string :=
  match s with
  | EmptyString => EmptyString
  | String c rest =>
      if Ascii.eqb c dquote then strip_quotes rest else String c (strip_quotes rest)
  end.

(** Whether [s] holds an odd number of double quotes. *)
Fixpoint odd_quotes (s : string) : bool :=
  match s with
  | EmptyString => false
  | String c rest =>
      if Ascii.eqb c dquote then negb (odd_quotes rest) else odd_quotes rest
  end.

(** A field that holds neither the delimiter nor a double quote. *)
Definition plain (s : string) : Prop :=
  contains comma s = false /\ contains dquote s = false.

(** The thread entry that decoding the line of [q] gives when the tokenizer
    stays in step with the fields: [q] without the double quotes of its
    text and answer. *)
Definition stripped (q : Question.t) : Question.t :=
  Question.mk (Question.id q) (Question.parent_id q) (Question.from_user_id q)
    (Question.to_user_id q) (Question.is_anonymous q)
    (strip_quotes (Question.text q)) (strip_quotes (Question.answer q)).

(** * Fixtures

    The two files that [BlackBoxTester::setupTestFiles] writes, and the
    collections the program loads from them. *)

Definition test_users_lines : list string :=
  [ "1,Admin User,admin123,admin,admin@test.com,1,0";
    "2,Regular User,user123,user1,user1@test.com,1,1";
    "3,No Anon User,pass123,user2,user2@test.com,0,1" ].

Definition test_questions_lines : list string :=
  [ "1,-1,2,1,0,What is your favorite color?,Blue is my favorite";
    "2,-1,1,2,1,How are you today?,I'm doing great thanks!";
    "3,1,1,2,0,Follow up question,This is a follow up" ].

Definition test_disk : FileSystem :=
  mkFS {[ "users.txt" := FileManager.write_lines test_users_lines;
          "questions.txt" := FileManager.write_lines test_questions_lines ]}
       true.

(** Files in which the id 1 is carried by two well-formed lines, with a
    malformed line between them. *)
Definition duplicate_disk : FileSystem :=
  mkFS {[ "users.txt" :=
            FileManager.write_lines
              [ "bad line";
                "1,Admin User,admin123,admin,admin@test.com,1,0";
                "oops";
                "1,Regular User,user123,user1,user1@test.com,0,1" ];
          "questions.txt" :=
            FileManager.write_lines
              [ "1,-1,2,1,0,What is your favorite color?,Blue is my favorite";
                "junk";
                "1,-1,1,2,1,How are you today?,I'm doing great thanks!" ] ]}
       true.

Definition test_system : AskMeSystem.t := AskMeSystem.create test_disk.

Definition test_admin : User.t :=
  User.mk 1 "Admin User" "admin123" "admin" "admin@test.com" true User.ADMIN.

Definition test_regular : User.t :=
  User.mk 2 "Regular User" "user123" "user1" "user1@test.com" true User.REGULAR_USER.

(** The cascade scenario: entry 1 is top-level and written by account 2;
    entries 2 and 3 reply to it, 2 written by account 3 and 3 by account 2;
    entry 4 is an unrelated top-level entry. *)
Definition cascade_questions : gmap Z Question.t :=
  {[ 1 := Question.mk 1 (-1) 2 1 false "Q1" "";
     2 := Question.mk 2 1 3 1 false "R2" "";
     3 := Question.mk 3 1 2 1 false "R3" "";
     4 := Question.mk 4 (-1) 3 1 false "Q4" "" ]}.

Definition cascade_manager : QuestionManager.t :=
  QuestionManager.mk cascade_questions FileManager.default.

(** A one-character string holding a double quote. *)
Definition dq : string := String dquote EmptyString.

(** Records whose text fields hold the delimiter or a double quote. *)
Definition quoted_question : Question.t :=
  Question.mk 10 (-1) 2 1 false ("say " ++ dq ++ "hi" ++ dq ++ ", ok") "A1".

Definition inch_question : Question.t :=
  Question.mk 11 (-1) 2 1 false ("a 5" ++ dq ++ " nail?") "yes".

Definition comma_user : User.t :=
  User.mk 4 "Doe, John" "pw" "jdoe" "jdoe@test.com" true User.REGULAR_USER.

(** * Vocabulary of the further properties *)

(** A thread entry that the line format can carry: its ids are [int]s and
    its text and answer hold no double quote and no newline. *)
Definition storable_question (q : Question.t) : Prop :=
  is_int (Question.id q) /\ is_int (Question.parent_id q)
  /\ is_int (Question.from_user_id q) /\ is_int (Question.to_user_id q)
  /\ contains dquote (Question.text q) = false
  /\ contains dquote (Question.answer q) = false
  /\ contains newline (Question.text q) = false
  /\ contains newline (Question.answer q) = false.

(** An account that the line format can carry: its id is an [int] and its
    four text fields hold no comma, no double quote and no newline. *)
Definition storable_user (u : User.t) : Prop :=
  is_int (User.id u)
  /\ plain (User.name u) /\ plain (User.password u)
  /\ plain (User.username u) /\ plain (User.email u)
  /\ contains newline (User.name u) = false
  /\ contains newline (User.password u) = false
  /\ contains newline (User.username u) = false
  /\ contains newline (User.email u) = false.

(** Every record of the collection sits under its own id. *)
Definition keyed_users (users : gmap Z User.t) : Prop :=
  forall k u, users !! k = Some u -> User.id u = k.

Definition keyed_questions (questions : gmap Z Question.t) : Prop :=
  forall k q, questions !! k = Some q -> Question.id q = k.

(** The tokens joined again with the delimiter between them. *)
Fixpoint join (delimiter : ascii) (tokens : list string) : string :=
  match tokens with
  | [] => EmptyString
  | [t] => t
  | t :: rest => (t ++ String delimiter (join delimiter rest))%string
  end.

(** The three conditions under which [AddQuestion] stores the entry: the
    id is unused, the recipient exists, and an anonymous entry is allowed
    by the recipient. *)
Definition accepted (um : UserManager.t) (qm : QuestionManager.t)
    (question : Question.t) : Prop :=
  QuestionManager.questions qm !! Question.id question = None
  /\ exists recipient,
       UserManager.users um !! Question.to_user_id question = Some recipient
       /\ (Question.is_anonymous question = true ->
           User.allow_anonymous_questions recipient = true).

(** [q] with another asker. *)
Definition with_asker (q : Question.t) (from_user_id : Z) : Question.t :=
  Question.mk (Question.id q) (Question.parent_id q) from_user_id
    (Question.to_user_id q) (Question.is_anonymous q) (Question.text q)
    (Question.answer q).

(** A sequence of [PrintQuestion] calls in which the askers of the
    anonymous entries are replaced by those [other] gives. *)
Definition disguise (other : Question.t -> Z) (calls : list (Question.t * bool))
    : list (Question.t * bool) :=
  (fun call =>
     (if Question.is_anonymous (fst call) then with_asker (fst call) (other (fst call))
      else fst call, snd call)) <$> calls.

(** * Supporting lemmas *)

Section ModelChecks.
Import FileManager.

(** The library functions of the model on a few inputs. *)
Example to_string_values :
  to_string 0 = "0" /\ to_string 42 = "42" /\ to_string (-1) = "-1"
  /\ to_string INT_MAX = "2147483647" /\ to_string INT_MIN = "-2147483648".
Proof. repeat split; reflexivity. Qed.

Example stoi_values :
  stoi "12" = Some 12 /\ stoi "-1" = Some (-1) /\ stoi " +7" = Some 7
  /\ stoi "12abc" = Some 12 /\ stoi "" = None /\ stoi "abc" = None
  /\ stoi "- 1" = None /\ stoi "2147483648" = None
  /\ stoi "-2147483648" = Some INT_MIN.
Proof. repeat split; reflexivity. Qed.

Example split_values :
  split "a,b,,c" comma = ["a"; "b"; ""; "c"]
  /\ split "" comma = [""]
  /\ split ("1," ++ dq ++ "x,y" ++ dq ++ ",z") comma = ["1"; "x,y"; "z"]
  /\ split ("a" ++ dq ++ "b,c") comma = ["ab,c"].
Proof. repeat split; reflexivity. Qed.

Example read_write_lines :
  ReadInformationFromFile test_disk "users.txt" = test_users_lines
  /\ ReadInformationFromFile test_disk "missing.txt" = []
  /\ getline_loop (write_lines ["a"; ""; "b"] ++ "c") EmptyString [] = ["a"; "b"; "c"].
Proof. repeat split; reflexivity. Qed.

End ModelChecks.
Section NextId.
Context {A : Type}.
Implicit Types (l : list (Z * A)) (m : gmap Z A).

Lemma int_wrap_id z : is_int z -> int_wrap z = z.
Proof.
  unfold is_int, int_wrap, INT_MIN, INT_MAX. intros H.
  rewrite Z.mod_small; lia.
Qed.

Lemma foldl_max_ge l a :
  a <= foldl (fun maxId pair => Z.max maxId (fst pair)) a l.
Proof.
  revert a. induction l as [|x l IH]; intros a; simpl; [lia|].
  specialize (IH (Z.max a (fst x))). lia.
Qed.

Lemma foldl_max_upper l a k :
  k ∈ fst <$> l ->
  k <= foldl (fun maxId pair => Z.max maxId (fst pair)) a l.
Proof.
  revert a. induction l as [|x l IH]; intros a Hk; simpl in *.
  - by apply elem_of_nil in Hk.
  - apply elem_of_cons in Hk as [->|Hk].
    + pose proof (foldl_max_ge l (Z.max a (fst x))). lia.
    + by apply IH.
Qed.

Lemma foldl_max_attained l a :
  let r := foldl (fun maxId pair => Z.max maxId (fst pair)) a l in
  r = a \/ r ∈ fst <$> l.
Proof.
  revert a. induction l as [|x l IH]; intros a; simpl; [by left|].
  destruct (IH (Z.max a (fst x))) as [H|H].
  - rewrite H. destruct (Z.max_spec a (fst x)) as [[_ ->]|[_ ->]].
    + right. apply elem_of_cons. by left.
    + by left.
  - right. apply elem_of_cons. by right.
Qed.

Lemma max_element_ge l x : fst x <= fst (QuestionManager.max_element x l).
Proof.
  revert x. induction l as [|y l IH]; intros x; simpl; [lia|].
  destruct (Z.ltb_spec (fst x) (fst y)).
  - specialize (IH y). lia.
  - apply IH.
Qed.

Lemma max_element_upper l x k :
  k ∈ fst <$> (x :: l) -> k <= fst (QuestionManager.max_element x l).
Proof.
  revert x. induction l as [|y l IH]; intros x Hk; simpl in *.
  - apply list_elem_of_singleton in Hk. lia.
  - pose proof (max_element_ge l (if fst x <? fst y then y else x)) as Hge.
    apply elem_of_cons in Hk as [->|Hk].
    + destruct (Z.ltb_spec (fst x) (fst y)); simpl in *; lia.
    + apply elem_of_cons in Hk as [->|Hk].
      * destruct (Z.ltb_spec (fst x) (fst y)); simpl in *; lia.
      * apply IH. simpl. apply elem_of_cons. by right.
Qed.

Lemma max_element_attained l x :
  fst (QuestionManager.max_element x l) ∈ fst <$> (x :: l).
Proof.
  revert x. induction l as [|y l IH]; intros x; simpl.
  - apply list_elem_of_singleton. done.
  - specialize (IH (if fst x <? fst y then y else x)).
    simpl in IH. apply elem_of_cons in IH as [IH|IH].
    + rewrite IH. destruct (fst x <? fst y).
      * apply elem_of_cons. right. apply elem_of_cons. by left.
      * apply elem_of_cons. by left.
    + apply elem_of_cons. right. apply elem_of_cons. by right.
Qed.

Lemma elem_of_keys m k : k ∈ fst <$> (map_to_list m) <-> is_Some (m !! k).
Proof.
  split.
  - intros H. apply list_elem_of_fmap in H as [[k' v] [-> H]].
    apply elem_of_map_to_list in H. simpl. eauto.
  - intros [v H]. apply list_elem_of_fmap. exists (k, v). split; [done|].
    by apply elem_of_map_to_list.
Qed.

Lemma is_max_id_unique m k1 k2 : is_max_id m k1 -> is_max_id m k2 -> k1 = k2.
Proof. intros [H1 U1] [H2 U2]. specialize (U1 _ H2). specialize (U2 _ H1). lia. Qed.

End NextId.

Section NextIdOps.

Lemma GetNextUserID_empty um :
  UserManager.users um = ∅ -> UserManager.GetNextUserID um = 1.
Proof. intros H. unfold UserManager.GetNextUserID. by rewrite decide_True. Qed.

Lemma GetNextUserID_max um k :
  is_max_id (UserManager.users um) k ->
  UserManager.GetNextUserID um = int_wrap (Z.max 0 k + 1).
Proof.
  intros [Hk Hmax]. unfold UserManager.GetNextUserID.
  rewrite decide_False.
  2:{ intros E. rewrite E, lookup_empty in Hk. by destruct Hk. }
  f_equal. f_equal.
  set (l := map_to_list (UserManager.users um)).
  pose proof (foldl_max_ge l 0) as Hge.
  pose proof (foldl_max_upper l 0 k) as Hup.
  pose proof (foldl_max_attained l 0) as Hatt. simpl in Hatt.
  specialize (Hup (proj2 (elem_of_keys _ _) Hk)).
  destruct Hatt as [Hatt|Hatt].
  - lia.
  - apply elem_of_keys in Hatt. apply Hmax in Hatt. lia.
Qed.

Lemma GetNextQuestionID_empty qm :
  QuestionManager.questions qm = ∅ -> QuestionManager.GetNextQuestionID qm = 1.
Proof.
  intros H. unfold QuestionManager.GetNextQuestionID.
  by rewrite H, map_to_list_empty.
Qed.

Lemma GetNextQuestionID_max qm k :
  is_max_id (QuestionManager.questions qm) k ->
  QuestionManager.GetNextQuestionID qm = int_wrap (k + 1).
Proof.
  intros [Hk Hmax]. unfold QuestionManager.GetNextQuestionID.
  apply elem_of_keys in Hk.
  destruct (map_to_list (QuestionManager.questions qm)) as [|x l] eqn:E.
  - by apply elem_of_nil in Hk.
  - f_equal. f_equal.
    pose proof (max_element_upper l x k Hk) as Hup.
    pose proof (max_element_attained l x) as Hatt.
    rewrite <- E in Hatt. apply elem_of_keys in Hatt. apply Hmax in Hatt. lia.
Qed.

(** Every nonempty finite map over [Z] has a largest key. *)
Lemma max_id_exists {A} (m : gmap Z A) : m <> ∅ -> exists k, is_max_id m k.
Proof.
  intros Hne.
  destruct (map_to_list m) as [|x l] eqn:E.
  - by apply map_to_list_empty_iff in E.
  - exists (fst (QuestionManager.max_element x l)). split.
    + apply elem_of_keys. rewrite E. apply max_element_attained.
    + intros j Hj. apply elem_of_keys in Hj. rewrite E in Hj.
      by apply max_element_upper.
Qed.

End NextIdOps.

Section Delete.
Import QuestionManager.
Implicit Types (m : gmap Z Question.t) (cu : User.t).

Lemma SaveQuestions_twice fm fs m1 m2 :
  FileManager.SaveQuestions fm (snd (FileManager.SaveQuestions fm fs m1)) m2
  = FileManager.SaveQuestions fm fs m2.
Proof.
  unfold FileManager.SaveQuestions, FileManager.StoreInformationOnFile.
  destruct fs as [fl w]. simpl. destruct w; simpl; [|done].
  by rewrite insert_insert_eq.
Qed.

Lemma SaveQuestions_result fm fs m :
  fst (FileManager.SaveQuestions fm fs m) = writable fs.
Proof.
  unfold FileManager.SaveQuestions, FileManager.StoreInformationOnFile.
  by destruct (writable fs).
Qed.

Lemma delete_thread_present cu m k q :
  m !! k = Some q ->
  delete_thread cu m k = if denied q cu then m else delete k m.
Proof. intros H. unfold delete_thread, index. by rewrite H. Qed.

Lemma foldl_delete_thread cu ids : forall m,
  NoDup ids ->
  (forall k, k ∈ ids -> is_Some (m !! k)) ->
  forall j,
    foldl (delete_thread cu) m ids !! j =
    match m !! j with
    | Some q => if decide (j ∈ ids) then (if denied q cu then Some q else None)
                else Some q
    | None => None
    end.
Proof.
  induction ids as [|k ids IH]; intros m Hnd Hin j.
  - cbn [foldl]. destruct (m !! j); [|done].
    destruct (decide (j ∈ [])) as [Hj|_]; [|done]. by apply elem_of_nil in Hj.
  - cbn [foldl]. apply NoDup_cons in Hnd as [Hk Hnd].
    destruct (Hin k) as [q Hq]; [apply elem_of_cons; by left|].
    rewrite (delete_thread_present _ _ _ _ Hq).
    set (m1 := if denied q cu then m else delete k m).
    assert (Hother : forall i, i <> k -> m1 !! i = m !! i).
    { intros i Hi. unfold m1. destruct (denied q cu); [done|].
      by apply lookup_delete_ne. }
    rewrite IH; [|done|].
    2:{ intros i Hi. rewrite Hother; [|congruence].
        apply Hin. apply elem_of_cons. by right. }
    destruct (decide (j = k)) as [->|Hne].
    + assert (m1 !! k = if denied q cu then Some q else None) as ->.
      { unfold m1. destruct (denied q cu); [done|]. apply lookup_delete_eq. }
      rewrite Hq. rewrite (decide_True (P := k ∈ k :: ids)); [|apply elem_of_cons; by left].
      destruct (denied q cu); [|done]. by rewrite decide_False.
    + rewrite Hother by done. destruct (m !! j); [|done].
      destruct (decide (j ∈ ids)) as [Hj|Hj].
      * rewrite decide_True; [done|]. apply elem_of_cons. by right.
      * rewrite decide_False; [done|]. intros [?|?]%elem_of_cons; done.
Qed.

Lemma thread_ids_NoDup m parent_id :
  NoDup (fst <$> filter (fun pair => Question.parent_id (snd pair) = parent_id)
                   (map_to_list m)).
Proof.
  eapply NoDup_fmap_fst.
  - intros k q1 q2 H1 H2.
    apply list_elem_of_filter in H1 as [_ H1]. apply list_elem_of_filter in H2 as [_ H2].
    apply elem_of_map_to_list in H1. apply elem_of_map_to_list in H2. congruence.
  - apply NoDup_filter. apply NoDup_map_to_list.
Qed.

Lemma thread_ids_elem m parent_id k :
  k ∈ fst <$> filter (fun pair => Question.parent_id (snd pair) = parent_id)
                (map_to_list m)
  <-> exists q, m !! k = Some q /\ Question.parent_id q = parent_id.
Proof.
  rewrite list_elem_of_fmap. split.
  - intros [[k' q] [-> H]]. apply list_elem_of_filter in H as [Hp H].
    apply elem_of_map_to_list in H. eauto.
  - intros (q & Hq & Hp). exists (k, q). split; [done|].
    apply list_elem_of_filter. split; [done|]. by apply elem_of_map_to_list.
Qed.

(** The collection after the cascade over the direct replies. *)
Lemma DeleteThreadQuestions_lookup qm fs parent_id cu j :
  questions (fst (DeleteThreadQuestions qm fs parent_id cu)) !! j =
  match questions qm !! j with
  | Some q =>
      if decide (Question.parent_id q = parent_id)
      then (if denied q cu then Some q else None)
      else Some q
  | None => None
  end.
Proof.
  unfold DeleteThreadQuestions.
  set (ids := fst <$> filter _ (map_to_list (questions qm))).
  assert (questions (fst (match ids with
    | [] => (mk (foldl (delete_thread cu) (questions qm) ids) (file_manager qm), fs)
    | _ :: _ => let '(_, fs') := FileManager.SaveQuestions (file_manager qm) fs
                   (foldl (delete_thread cu) (questions qm) ids) in
                (mk (foldl (delete_thread cu) (questions qm) ids) (file_manager qm), fs')
    end)) = foldl (delete_thread cu) (questions qm) ids) as ->.
  { destruct ids; [done|]. by destruct (FileManager.SaveQuestions _ _ _). }
  rewrite foldl_delete_thread.
  - destruct (questions qm !! j) as [q|] eqn:Hq; [|done].
    destruct (decide (Question.parent_id q = parent_id)) as [Hp|Hp].
    + rewrite decide_True; [done|]. apply thread_ids_elem. eauto.
    + rewrite decide_False; [done|]. intros (q' & Hq' & Hp')%thread_ids_elem.
      congruence.
  - apply thread_ids_NoDup.
  - intros k (q & Hq & _)%thread_ids_elem. eauto.
Qed.

Lemma DeleteThreadQuestions_file_manager qm fs parent_id cu :
  file_manager (fst (DeleteThreadQuestions qm fs parent_id cu)) = file_manager qm.
Proof.
  unfold DeleteThreadQuestions. destruct (fst <$> _); [done|].
  by destruct (FileManager.SaveQuestions _ _ _).
Qed.

(** The disk after the cascade: untouched, or the questions file rewritten. *)
Lemma DeleteThreadQuestions_disk qm fs parent_id cu :
  let r := DeleteThreadQuestions qm fs parent_id cu in
  snd r = fs \/
  snd r = snd (FileManager.SaveQuestions (file_manager qm) fs (questions (fst r))).
Proof.
  unfold DeleteThreadQuestions. destruct (fst <$> _); simpl; [by left|].
  destruct (FileManager.SaveQuestions _ _ _) eqn:E. simpl. right. by rewrite E.
Qed.

Lemma DeleteQuestion_absent qm fs question_id cu :
  questions qm !! question_id = None ->
  DeleteQuestion qm fs question_id cu = (false, qm, fs).
Proof. intros H. unfold DeleteQuestion. by rewrite H. Qed.

Lemma DeleteQuestion_denied qm fs question_id cu question :
  questions qm !! question_id = Some question ->
  denied question cu = true ->
  DeleteQuestion qm fs question_id cu = (false, qm, fs).
Proof. intros H D. unfold DeleteQuestion. by rewrite H, D. Qed.

Lemma DeleteQuestion_allowed qm fs question_id cu question :
  questions qm !! question_id = Some question ->
  denied question cu = false ->
  exists questions',
    DeleteQuestion qm fs question_id cu =
      (writable fs, mk questions' (file_manager qm),
       snd (FileManager.SaveQuestions (file_manager qm) fs questions')) /\
    forall j,
      questions' !! j =
      match questions qm !! j with
      | Some q =>
          if decide (j = question_id) then None
          else if decide (Question.parent_id q = question_id)
               then (if denied q cu then Some q else None)
               else Some q
      | None => None
      end.
Proof.
  intros H D. unfold DeleteQuestion. rewrite H, D.
  pose proof (DeleteThreadQuestions_lookup qm fs question_id cu) as Hl.
  pose proof (DeleteThreadQuestions_file_manager qm fs question_id cu) as Hf.
  pose proof (DeleteThreadQuestions_disk qm fs question_id cu) as Hd.
  destruct (DeleteThreadQuestions qm fs question_id cu) as [qm1 fs1].
  simpl in *.
  exists (delete question_id (questions qm1)). split.
  - rewrite Hf.
    destruct (FileManager.SaveQuestions (file_manager qm) fs1 _) as [ok fs'] eqn:E.
    assert (FileManager.SaveQuestions (file_manager qm) fs1
              (delete question_id (questions qm1))
            = FileManager.SaveQuestions (file_manager qm) fs
              (delete question_id (questions qm1))) as E'.
    { destruct Hd as [->| ->]; [done|]. apply SaveQuestions_twice. }
    rewrite E' in E. rewrite <- (SaveQuestions_result (file_manager qm) fs
      (delete question_id (questions qm1))). by rewrite E.
  - intros j. destruct (decide (j = question_id)) as [->|Hne].
    + rewrite lookup_delete_eq. by destruct (questions qm !! question_id).
    + rewrite lookup_delete_ne by done. apply Hl.
Qed.

End Delete.

Section Operations.
Import QuestionManager.

Lemma AddQuestion_stored um qm fs question recipient :
  questions qm !! Question.id question = None ->
  UserManager.users um !! Question.to_user_id question = Some recipient ->
  Question.is_anonymous question && negb (User.allow_anonymous_questions recipient)
    = false ->
  AddQuestion um qm fs question =
    (writable fs,
     mk (<[Question.id question := question]> (questions qm)) (file_manager qm),
     snd (FileManager.SaveQuestions (file_manager qm) fs
            (<[Question.id question := question]> (questions qm)))).
Proof.
  intros Hid Hto Hanon. unfold AddQuestion, UserManager.GetUserByID.
  rewrite Hid, Hto, Hanon.
  rewrite <- (SaveQuestions_result (file_manager qm) fs
                (<[Question.id question := question]> (questions qm))).
  by destruct (FileManager.SaveQuestions _ _ _).
Qed.

(** [AddQuestion] either stores exactly the entry it was given or leaves
    everything as it was. *)
Lemma AddQuestion_cases um qm fs question :
  AddQuestion um qm fs question = (false, qm, fs) \/
  (questions qm !! Question.id question = None /\
   questions (snd (fst (AddQuestion um qm fs question)))
     = <[Question.id question := question]> (questions qm)).
Proof.
  unfold AddQuestion.
  destruct (questions qm !! Question.id question) eqn:Hid; [by left|].
  destruct (UserManager.GetUserByID um _); [|by left].
  destruct (_ && _); [by left|]. right. split; [done|].
  by destruct (FileManager.SaveQuestions _ _ _).
Qed.

(** The outcome of [AddQuestion] does not depend on the parent id. *)
Lemma AddQuestion_ignores_parent um qm fs q p :
  let q' := Question.mk (Question.id q) p (Question.from_user_id q)
              (Question.to_user_id q) (Question.is_anonymous q)
              (Question.text q) (Question.answer q) in
  fst (fst (AddQuestion um qm fs q')) = fst (fst (AddQuestion um qm fs q)).
Proof.
  simpl. unfold AddQuestion. simpl.
  destruct (questions qm !! Question.id q); [done|].
  destruct (UserManager.GetUserByID um _); [|done].
  destruct (_ && _); [done|].
  unfold FileManager.SaveQuestions, FileManager.StoreInformationOnFile.
  by destruct (writable fs).
Qed.

Lemma AskQuestion_parent um qm fs current_user input k q :
  questions (fst (AskQuestion um qm fs current_user input)) !! k = Some q ->
  questions qm !! k = None ->
  Question.parent_id q = -1 \/ is_Some (questions qm !! Question.parent_id q).
Proof.
  unfold AskQuestion. intros Hk Hnew.
  destruct (in_to_user_id input =? -1); [simpl in Hk; congruence|].
  destruct (UserManager.GetUserByID um _) as [recipient|]; [|simpl in Hk; congruence].
  set (choice := if is_yes (in_follow_up input) then _ else _) in Hk.
  assert (Hchoice : fst choice = -1 \/ is_Some (questions qm !! fst choice)).
  { unfold choice. destruct (is_yes _); [|by left].
    destruct (in_parent_id input) as [p|]; [|by left].
    destruct (questions qm !! p) eqn:Hp; [|by left]. right. simpl. rewrite Hp. eauto. }
  destruct choice as [parent_id stream_good]. simpl in Hchoice.
  match type of Hk with
  | context [AddQuestion um qm fs ?question] =>
      destruct (AddQuestion_cases um qm fs question) as [E|[_ E]];
      destruct (AddQuestion um qm fs question) as [[ok qm'] fs'] eqn:EA
  end; simpl in *.
  - injection E as _ -> _. congruence.
  - rewrite E in Hk. destruct (decide (k = GetNextQuestionID qm)) as [->|Hne].
    + rewrite lookup_insert_eq in Hk. injection Hk as <-. done.
    + rewrite lookup_insert_ne in Hk by done. congruence.
Qed.

Lemma GetThreadQuestions_present qm parent_id :
  parent_id <> -1 ->
  is_Some (questions qm !! parent_id) ->
  exists printed,
    GetThreadQuestions qm parent_id = Threads printed /\
    Permutation printed
      (snd <$> map_to_list
         (filter (fun pair => Question.parent_id (snd pair) = parent_id)
            (questions qm))) /\
    forall q, q ∈ printed <->
      exists k, questions qm !! k = Some q /\ Question.parent_id q = parent_id.
Proof.
  intros Hne [P HP]. unfold GetThreadQuestions.
  destruct (Z.eqb_spec parent_id (-1)); [done|]. rewrite HP.
  eexists. split; [done|]. split.
  - apply fmap_Permutation. rewrite map_filter_alt.
    symmetry. apply map_to_list_to_map.
    eapply NoDup_fmap_fst.
    + intros k q1 q2 H1 H2.
      apply list_elem_of_filter in H1 as [_ H1].
      apply list_elem_of_filter in H2 as [_ H2].
      apply elem_of_map_to_list in H1. apply elem_of_map_to_list in H2. congruence.
    + apply NoDup_filter. apply NoDup_map_to_list.
  - intros q. rewrite list_elem_of_fmap. split.
    + intros [[k q'] [-> H]]. apply list_elem_of_filter in H as [Hp H].
      apply elem_of_map_to_list in H. eauto.
    + intros (k & Hk & Hp). exists (k, q). split; [done|].
      apply list_elem_of_filter. split; [done|]. by apply elem_of_map_to_list.
Qed.

Lemma GetThreadQuestions_absent qm parent_id :
  parent_id <> -1 ->
  questions qm !! parent_id = None ->
  GetThreadQuestions qm parent_id = ParentMissing.
Proof.
  intros Hne H. unfold GetThreadQuestions.
  destruct (Z.eqb_spec parent_id (-1)); [done|]. by rewrite H.
Qed.

Lemma SaveUsers_other_file fm fs users path :
  path <> FileManager.users_file_path fm ->
  files (snd (FileManager.SaveUsers fm fs users)) !! path = files fs !! path.
Proof.
  intros Hne. unfold FileManager.SaveUsers, FileManager.StoreInformationOnFile.
  destruct (writable fs); [|done]. simpl. by rewrite lookup_insert_ne.
Qed.

Lemma DeleteUser_other_file um fs user_id path :
  path <> FileManager.users_file_path (UserManager.file_manager um) ->
  files (snd (UserManager.DeleteUser um fs user_id)) !! path = files fs !! path.
Proof.
  intros Hne. unfold UserManager.DeleteUser.
  destruct (UserManager.users um !! user_id); [|done].
  pose proof (SaveUsers_other_file (UserManager.file_manager um) fs
                (delete user_id (UserManager.users um)) path Hne) as H.
  by destruct (FileManager.SaveUsers _ _ _).
Qed.

End Operations.

Section Load.
Context {A : Type} (parse : string -> option A) (key : A -> Z).

Let step (m : gmap Z A) (line : string) : gmap Z A :=
  match parse line with
  | None => m
  | Some a => FileManager.emplace (key a) a m
  end.

Lemma step_unfold (m : gmap Z A) (line : string) :
  step m line =
  match parse line with
  | None => m
  | Some a => FileManager.emplace (key a) a m
  end.
Proof. reflexivity. Qed.

Lemma emplace_lookup (k j : Z) (v : A) (m : gmap Z A) :
  FileManager.emplace k v m !! j =
  match m !! j with
  | Some w => Some w
  | None => if decide (k = j) then Some v else None
  end.
Proof.
  unfold FileManager.emplace. destruct (m !! k) eqn:Hk.
  - destruct (m !! j) eqn:Hj; [done|]. destruct (decide (k = j)); [congruence|done].
  - destruct (decide (k = j)) as [->|Hne].
    + by rewrite lookup_insert_eq, Hk.
    + rewrite lookup_insert_ne by done. by destruct (m !! j).
Qed.

(** A key is bound to what the first line carrying it decodes to, unless
    the map already had it. *)
Lemma load_lookup lines : forall (m : gmap Z A) (k : Z),
  foldl step m lines !! k =
  match m !! k with
  | Some v => Some v
  | None => head (filter (fun a => key a = k) (omap parse lines))
  end.
Proof.
  induction lines as [|line lines IH]; intros m k; cbn [foldl].
  - by destruct (m !! k).
  - rewrite IH, step_unfold. cbn [omap list_omap].
    destruct (parse line) as [a|]; [|done].
    rewrite emplace_lookup. destruct (m !! k); [done|].
    rewrite filter_cons. destruct (decide (key a = k)); done.
Qed.

Lemma load_skip lines1 bad lines2 (m : gmap Z A) :
  parse bad = None ->
  foldl step m (lines1 ++ bad :: lines2) = foldl step m (lines1 ++ lines2).
Proof.
  intros H. rewrite !foldl_app. cbn [foldl]. by rewrite step_unfold, H.
Qed.

Lemma load_size lines : forall (m : gmap Z A),
  NoDup (key <$> omap parse lines) ->
  (forall k, k ∈ key <$> omap parse lines -> m !! k = None) ->
  size (foldl step m lines) = (size m + length (omap parse lines))%nat.
Proof.
  induction lines as [|line lines IH]; intros m Hnd Hfresh; cbn [foldl].
  - simpl. lia.
  - rewrite step_unfold. cbn [omap list_omap] in *.
    destruct (parse line) as [a|]; [|by apply IH].
    rewrite fmap_cons in Hnd, Hfresh. apply NoDup_cons in Hnd as [Ha Hnd].
    assert (m !! key a = None) as Hm by (apply Hfresh, elem_of_cons; by left).
    unfold FileManager.emplace. rewrite Hm. rewrite IH; [|done|].
    + rewrite map_size_insert_None by done. simpl. lia.
    + intros k Hk. rewrite lookup_insert_ne by congruence.
      apply Hfresh, elem_of_cons. by right.
Qed.

Lemma load_size_le lines : forall (m : gmap Z A),
  (size (foldl step m lines) <= size m + length (omap parse lines))%nat.
Proof.
  induction lines as [|line lines IH]; intros m; cbn [foldl].
  - simpl. lia.
  - rewrite step_unfold. cbn [omap list_omap].
    destruct (parse line) as [a|]; [|by apply IH].
    etrans; [apply IH|]. unfold FileManager.emplace.
    destruct (m !! key a) eqn:Hm; simpl; [lia|].
    rewrite map_size_insert_None by done. lia.
Qed.

(** Every stored record sits under its own key. *)
Lemma load_key lines (k : Z) (a : A) :
  foldl step ∅ lines !! k = Some a -> key a = k.
Proof.
  rewrite load_lookup, lookup_empty. intros H.
  apply head_Some_elem_of in H. by apply list_elem_of_filter in H as [H _].
Qed.

End Load.

Section LoadFiles.
Import FileManager.

Lemma LoadUsers_lines_fold lines :
  LoadUsers_lines lines =
  foldl (fun m line => match parse_user_line line with
                       | None => m
                       | Some a => emplace (User.id a) a m
                       end) ∅ lines.
Proof. reflexivity. Qed.

Lemma LoadQuestions_lines_fold lines :
  LoadQuestions_lines lines =
  foldl (fun m line => match parse_question_line line with
                       | None => m
                       | Some a => emplace (Question.id a) a m
                       end) ∅ lines.
Proof. reflexivity. Qed.

Lemma parse_user_line_ok line :
  user_line_ok line = true <-> is_Some (parse_user_line line).
Proof.
  unfold user_line_ok, parse_user_line.
  set (tokens := split line comma).
  destruct (Nat.ltb_spec (length tokens) 7) as [Hlt|Hge].
  - rewrite (proj2 (Nat.leb_gt 7 _)) by lia. simpl. split; [done|]. by intros [? ?].
  - rewrite (proj2 (Nat.leb_le 7 _)) by lia. simpl.
    rewrite bool_decide_eq_true.
    destruct (stoi (at_ tokens 0)); split; intros [? ?]; try done; by eexists.
Qed.

Lemma parse_question_line_ok line :
  question_line_ok line = true <-> is_Some (parse_question_line line).
Proof.
  unfold question_line_ok, parse_question_line.
  set (tokens := split line comma).
  destruct (Nat.ltb_spec (length tokens) 6) as [Hlt|Hge].
  - rewrite (proj2 (Nat.leb_gt 6 _)) by lia. simpl. split; [done|]. by intros [? ?].
  - rewrite (proj2 (Nat.leb_le 6 _)) by lia. simpl.
    rewrite !andb_true_iff, !bool_decide_eq_true.
    destruct (stoi (at_ tokens 0)), (stoi (at_ tokens 1)),
      (stoi (at_ tokens 2)), (stoi (at_ tokens 3));
      split; intros H;
      repeat match goal with
             | X : _ /\ _ |- _ => destruct X
             | X : is_Some None |- _ => by destruct X
             | X : True |- _ => clear X
             end;
      try (by destruct H); try (by eexists);
      repeat split; by eexists.
Qed.

Lemma length_filter_omap {X Y} (f : X -> option Y) (ok : X -> bool) (l : list X) :
  (forall x, ok x = true <-> is_Some (f x)) ->
  length (filter (fun x => ok x = true) l) = length (omap f l).
Proof.
  intros H. induction l as [|x l IH]; [done|].
  rewrite filter_cons. cbn [omap list_omap].
  destruct (decide (ok x = true)) as [Hx|Hx].
  - apply H in Hx as [y ->]. simpl. by rewrite IH.
  - destruct (f x) eqn:E; [|done]. exfalso. apply Hx, H. eauto.
Qed.

End LoadFiles.

Section Decimal.

Lemma digit_char_cases d :
  0 <= d <= 9 ->
  digit_char d ∈ ["0"; "1"; "2"; "3"; "4"; "5"; "6"; "7"; "8"; "9"]%char.
Proof.
  intros H.
  assert (d = 0 \/ d = 1 \/ d = 2 \/ d = 3 \/ d = 4 \/ d = 5 \/ d = 6 \/ d = 7
          \/ d = 8 \/ d = 9) as Hd by lia.
  repeat (destruct Hd as [-> | Hd]; [vm_compute; repeat constructor|]).
  subst. vm_compute. repeat constructor.
Qed.

Lemma digit_char_isdigit d : 0 <= d <= 9 -> isdigit (digit_char d) = true.
Proof.
  intros H. pose proof (digit_char_cases d H) as Hin.
  repeat (apply elem_of_cons in Hin as [-> | Hin]; [reflexivity|]).
  by apply elem_of_nil in Hin.
Qed.

Lemma digit_char_value d : 0 <= d <= 9 -> digit_value (digit_char d) = d.
Proof.
  intros H. unfold digit_value, digit_char.
  rewrite nat_ascii_embedding by lia. lia.
Qed.

Lemma isdigit_plain c :
  isdigit c = true ->
  Ascii.eqb c comma = false /\ Ascii.eqb c dquote = false
  /\ isspace c = false /\ c <> "-"%char /\ c <> "+"%char.
Proof.
  unfold isdigit, isspace. intros H. apply andb_true_iff in H as [H1 H2].
  apply Nat.leb_le in H1. apply Nat.leb_le in H2.
  assert (forall n, (n < 48)%nat -> c <> ascii_of_nat n) as Hne.
  { intros n Hn ->. rewrite nat_ascii_embedding in H1, H2 by lia. lia. }
  repeat split.
  - apply Ascii.eqb_neq. apply (Hne 44%nat). lia.
  - apply Ascii.eqb_neq. apply (Hne 34%nat). lia.
  - apply orb_false_iff. split.
    + apply Nat.eqb_neq. lia.
    + apply andb_false_iff. right. apply Nat.leb_gt. lia.
  - apply (Hne 45%nat). lia.
  - apply (Hne 43%nat). lia.
Qed.

Lemma to_string_digits_all_digits fuel : forall n acc,
  0 <= n -> all_digits acc = true ->
  all_digits (to_string_digits fuel n acc) = true.
Proof.
  induction fuel as [|fuel IH]; intros n acc Hn Hacc; cbn [to_string_digits]; [done|].
  assert (all_digits (String (digit_char (n mod 10)) acc) = true) as Hacc'.
  { cbn [all_digits]. rewrite digit_char_isdigit, Hacc; [done|].
    pose proof (Z.mod_pos_bound n 10). lia. }
  destruct (n / 10 =? 0); [done|].
  apply IH; [|done]. apply Z.div_pos; lia.
Qed.

Lemma to_string_digits_nonempty fuel n acc :
  to_string_digits (S fuel) n acc <> EmptyString.
Proof.
  revert n acc. induction fuel as [|fuel IH]; intros n acc.
  - cbn [to_string_digits]. by destruct (n / 10 =? 0).
  - change (to_string_digits (S (S fuel)) n acc)
      with (let acc' := String (digit_char (n mod 10)) acc in
            if n / 10 =? 0 then acc' else to_string_digits (S fuel) (n / 10) acc').
    cbv zeta. destruct (n / 10 =? 0); [done|apply IH].
Qed.

(** Reading back the digits that [to_string_digits] wrote in front of
    [acc]: the number read so far is shifted and [n] is added to it. *)
Lemma read_to_string_digits fuel : forall n acc,
  0 <= n < 10 ^ Z.of_nat (S fuel) ->
  exists k, 0 <= k /\
    forall v seen,
      read_digits (to_string_digits (S fuel) n acc) v seen
      = read_digits acc (v * 10 ^ k + n) true.
Proof.
  induction fuel as [|fuel IH]; intros n acc Hn;
    change (to_string_digits (S ?f) n acc)
      with (let acc' := String (digit_char (n mod 10)) acc in
            if n / 10 =? 0 then acc' else to_string_digits f (n / 10) acc');
    cbv zeta;
    assert (0 <= n mod 10 <= 9) as Hd by (pose proof (Z.mod_pos_bound n 10); lia);
    pose proof (Z.div_mod n 10) as Hdm.
  - assert (n / 10 = 0) as -> by (apply Z.div_small; simpl in Hn; lia).
    exists 1. split; [lia|]. intros v seen. cbn [Z.eqb read_digits].
    rewrite digit_char_isdigit, digit_char_value by done.
    f_equal. lia.
  - destruct (Z.eqb_spec (n / 10) 0) as [Hz|Hnz].
    + exists 1. split; [lia|]. intros v seen. cbn [read_digits].
      rewrite digit_char_isdigit, digit_char_value by done.
      f_equal. lia.
    + destruct (IH (n / 10) (String (digit_char (n mod 10)) acc)) as (k & Hk & Hread).
      { split; [apply Z.div_pos; lia|].
        apply Z.div_lt_upper_bound; [lia|].
        rewrite (Nat2Z.inj_succ (S fuel)), Z.pow_succ_r in Hn by lia. lia. }
      exists (k + 1). split; [lia|]. intros v seen. rewrite Hread. cbn [read_digits].
      rewrite digit_char_isdigit, digit_char_value by done.
      f_equal. rewrite Z.pow_add_r by lia. lia.
Qed.

Lemma to_string_fuel_enough a :
  0 <= a -> a < 10 ^ Z.of_nat (S (Z.to_nat (Z.log2 a))).
Proof.
  intros Ha. rewrite Nat2Z.inj_succ, Z2Nat.id by apply Z.log2_nonneg.
  destruct (Z.eq_dec a 0) as [->|Hne]; [reflexivity|].
  pose proof (Z.log2_spec a) as [_ Hlt]; [lia|].
  pose proof (Z.log2_nonneg a).
  eapply Z.lt_le_trans; [exact Hlt|].
  apply Z.pow_le_mono_l. lia.
Qed.

Lemma read_abs_digits a :
  0 <= a ->
  read_digits (to_string_digits (S (Z.to_nat (Z.log2 a))) a EmptyString) 0 false
  = Some a.
Proof.
  intros Ha.
  destruct (read_to_string_digits (Z.to_nat (Z.log2 a)) a EmptyString)
    as (k & _ & Hread).
  { split; [done|]. by apply to_string_fuel_enough. }
  rewrite Hread. cbn [read_digits]. by rewrite Z.mul_0_l, Z.add_0_l.
Qed.

Lemma stoi_sign_none (c : ascii) (s : string) :
  c <> "-"%char -> c <> "+"%char ->
  match String c s with
  | String "-"%char rest => (true, rest)
  | String "+"%char rest => (false, rest)
  | _ => (false, String c s)
  end = (false, String c s).
Proof.
  intros Hminus Hplus.
  destruct c as [[] [] [] [] [] [] [] []];
    first [reflexivity | by destruct Hminus | by destruct Hplus].
Qed.

Lemma stoi_digits s :
  all_digits s = true -> s <> EmptyString ->
  stoi s = match read_digits s 0 false with
           | Some v => if is_intb v then Some v else None
           | None => None
           end.
Proof.
  intros Hs Hne. destruct s as [|c s]; [done|]. simpl in Hs.
  apply andb_true_iff in Hs as [Hc _].
  destruct (isdigit_plain c Hc) as (_ & _ & Hsp & Hminus & Hplus).
  unfold stoi. cbn [skip_spaces]. rewrite Hsp.
  by rewrite (stoi_sign_none c s Hminus Hplus).
Qed.

Lemma stoi_minus_digits s :
  all_digits s = true ->
  stoi (String "-" s) = match read_digits s 0 false with
                        | Some v => if is_intb (- v) then Some (- v) else None
                        | None => None
                        end.
Proof. intros Hs. reflexivity. Qed.

(** [stoi] inverts [to_string] on every [int]. *)
Lemma stoi_to_string n : is_int n -> stoi (to_string n) = Some n.
Proof.
  intros Hn. unfold to_string.
  assert (0 <= Z.abs n) as Ha by lia.
  pose proof (read_abs_digits (Z.abs n) Ha) as Hread.
  pose proof (to_string_digits_all_digits (S (Z.to_nat (Z.log2 (Z.abs n))))
                (Z.abs n) EmptyString Ha eq_refl) as Hdig.
  assert (is_intb n = true) as Hb.
  { unfold is_intb, is_int in *. apply andb_true_iff. split; apply Z.leb_le; lia. }
  destruct (Z.ltb_spec n 0) as [Hneg|Hpos].
  - rewrite stoi_minus_digits, Hread by done.
    replace (- Z.abs n) with n by lia. by rewrite Hb.
  - rewrite stoi_digits, Hread; [|done|apply to_string_digits_nonempty].
    replace (Z.abs n) with n by lia. by rewrite Hb.
Qed.

End Decimal.

Section Tokenizer.
Import FileManager.

Lemma string_app_cons (x : ascii) (a b : string) :
  (String x a ++ b = String x (a ++ b))%string.
Proof. reflexivity. Qed.

Lemma string_app_nil_l (a : string) : (EmptyString ++ a = a)%string.
Proof. reflexivity. Qed.

Lemma string_app_assoc (a b c : string) : ((a ++ b) ++ c = a ++ (b ++ c))%string.
Proof.
  induction a as [|x a IH]; [done|]. by rewrite !string_app_cons, IH.
Qed.

Lemma string_app_nil_r (a : string) : (a ++ EmptyString = a)%string.
Proof.
  induction a as [|x a IH]; [done|]. by rewrite string_app_cons, IH.
Qed.

Lemma push_back_char_app cur c s :
  (push_back_char cur c ++ s = cur ++ String c s)%string.
Proof.
  unfold push_back_char.
  by rewrite string_app_assoc, string_app_cons, string_app_nil_l.
Qed.

Lemma strip_quotes_id s : contains dquote s = false -> strip_quotes s = s.
Proof.
  induction s as [|c s IH]; simpl; [done|].
  intros [Hc Hs]%orb_false_iff. rewrite Hc. by rewrite IH.
Qed.

Lemma odd_quotes_none s : contains dquote s = false -> odd_quotes s = false.
Proof.
  induction s as [|c s IH]; simpl; [done|].
  intros [Hc Hs]%orb_false_iff. rewrite Hc. by apply IH.
Qed.

(** Scanning a field that holds no comma: its characters other than double
    quotes join the current token, and each double quote flips [inQuotes]. *)
Lemma split_loop_bare s : forall rest tokens cur inQuotes,
  contains comma s = false ->
  split_loop (s ++ rest) comma tokens cur inQuotes
  = split_loop rest comma tokens (cur ++ strip_quotes s)
      (xorb inQuotes (odd_quotes s)).
Proof.
  induction s as [|c s IH]; intros rest tokens cur inQuotes Hs.
  - cbn [strip_quotes odd_quotes].
    by rewrite string_app_nil_l, string_app_nil_r, xorb_false_r.
  - simpl in Hs. apply orb_false_iff in Hs as [Hc Hs].
    rewrite string_app_cons. cbn [split_loop strip_quotes odd_quotes].
    destruct (Ascii.eqb c dquote) eqn:Hq.
    + rewrite IH by done. f_equal. by destruct inQuotes, (odd_quotes s).
    + rewrite Hc. cbn [andb]. rewrite IH by done. by rewrite push_back_char_app.
Qed.

(** Scanning an escaped field from inside the quotes: the doubled quotes
    cancel out and every other character, commas included, joins the token. *)
Lemma split_loop_quoted s : forall rest tokens cur,
  split_loop (Question.double_quotes s ++ rest) comma tokens cur true
  = split_loop rest comma tokens (cur ++ strip_quotes s) true.
Proof.
  induction s as [|c s IH]; intros rest tokens cur.
  - cbn [Question.double_quotes strip_quotes].
    by rewrite string_app_nil_l, string_app_nil_r.
  - cbn [Question.double_quotes strip_quotes].
    destruct (Ascii.eqb c dquote) eqn:Hq.
    + rewrite !string_app_cons. cbn [split_loop]. rewrite Ascii.eqb_refl. cbn [negb].
      apply IH.
    + rewrite string_app_cons. cbn [split_loop]. rewrite Hq, andb_false_r.
      rewrite IH. by rewrite push_back_char_app.
Qed.

(** Scanning one encoded text field from outside the quotes. *)
Lemma split_loop_escaped s rest tokens cur :
  split_loop (Question.escapeCommas s ++ rest) comma tokens cur false
  = split_loop rest comma tokens (cur ++ strip_quotes s)
      (if contains comma s then false else odd_quotes s).
Proof.
  unfold Question.escapeCommas. destruct (contains comma s) eqn:Hs.
  - rewrite string_app_cons. cbn [split_loop]. rewrite Ascii.eqb_refl. cbn [negb].
    rewrite string_app_assoc, split_loop_quoted.
    rewrite string_app_cons, string_app_nil_l. cbn [split_loop].
    by rewrite Ascii.eqb_refl.
  - by rewrite split_loop_bare.
Qed.

Lemma split_loop_separator rest tokens cur :
  split_loop (String comma rest) comma tokens cur false
  = split_loop rest comma (tokens ++ [cur]) EmptyString false.
Proof. reflexivity. Qed.

Lemma split_loop_plain s rest tokens cur :
  plain s ->
  split_loop (s ++ rest) comma tokens cur false
  = split_loop rest comma tokens (cur ++ s) false.
Proof.
  intros [Hc Hq]. rewrite split_loop_bare by done.
  by rewrite strip_quotes_id, odd_quotes_none.
Qed.

Lemma split_loop_plain_end s tokens cur :
  plain s -> split_loop s comma tokens cur false = (tokens ++ [(cur ++ s)%string])%list.
Proof.
  intros Hs. rewrite <- (string_app_nil_r s) at 1. by rewrite split_loop_plain.
Qed.

Lemma split_loop_escaped_end s tokens cur :
  split_loop (Question.escapeCommas s) comma tokens cur false
  = (tokens ++ [(cur ++ strip_quotes s)%string])%list.
Proof.
  rewrite <- (string_app_nil_r (Question.escapeCommas s)).
  by rewrite split_loop_escaped.
Qed.

Lemma all_digits_plain s : all_digits s = true -> plain s.
Proof.
  unfold plain. induction s as [|c s IH]; simpl; [done|].
  intros [Hc Hs]%andb_true_iff. destruct (isdigit_plain c Hc) as (H1 & H2 & _).
  rewrite H1, H2. by apply IH.
Qed.

Lemma to_string_plain n : plain (to_string n).
Proof.
  unfold to_string.
  assert (plain (to_string_digits (S (Z.to_nat (Z.log2 (Z.abs n)))) (Z.abs n)
                   EmptyString)) as [Hc Hq].
  { apply all_digits_plain, to_string_digits_all_digits; [lia|done]. }
  destruct (n <? 0); [|done]. split; cbn [contains]; by rewrite ?Hc, ?Hq.
Qed.

Lemma flag_plain (b : bool) : plain (if b then "1" else "0").
Proof. by destruct b. Qed.

(** The seven tokens of a thread line whose text is in step: a text with a
    comma, which is quoted, or with an even number of double quotes. *)
Lemma split_Question_toString q :
  contains comma (Question.text q) || negb (odd_quotes (Question.text q)) = true ->
  split (Question.toString q) comma =
  [ to_string (Question.id q); to_string (Question.parent_id q);
    to_string (Question.from_user_id q); to_string (Question.to_user_id q);
    if Question.is_anonymous q then "1" else "0";
    strip_quotes (Question.text q); strip_quotes (Question.answer q) ].
Proof.
  intros Htext. unfold split, Question.toString.
  repeat (rewrite split_loop_plain by (apply to_string_plain || apply flag_plain);
          change ("," ++ ?r)%string with (String comma r);
          rewrite split_loop_separator).
  rewrite split_loop_escaped.
  assert ((if contains comma (Question.text q) then false
           else odd_quotes (Question.text q)) = false) as ->.
  { destruct (contains comma (Question.text q)); [done|].
    simpl in Htext. by apply negb_true_iff. }
  change ("," ++ ?r)%string with (String comma r). rewrite split_loop_separator.
  rewrite split_loop_escaped_end. reflexivity.
Qed.

Lemma flag_decoded (b : bool) :
  String.eqb (if b then "1" else "0") "1" || String.eqb (if b then "1" else "0") "true"
  = b.
Proof. by destruct b. Qed.

(** Decoding the line of a thread entry whose text is in step gives the
    entry without the double quotes of its text and answer. *)
Lemma Question_round_trip_stripped q :
  is_int (Question.id q) -> is_int (Question.parent_id q) ->
  is_int (Question.from_user_id q) -> is_int (Question.to_user_id q) ->
  contains comma (Question.text q) || negb (odd_quotes (Question.text q)) = true ->
  parse_question_line (Question.toString q) = Some (stripped q).
Proof.
  intros H1 H2 H3 H4 Htext. unfold parse_question_line.
  rewrite split_Question_toString by done.
  cbn [length Nat.ltb Nat.leb at_ nth].
  rewrite !stoi_to_string by done. by rewrite flag_decoded.
Qed.

(** The round trip holds for every thread entry without double quotes. *)
Lemma Question_round_trip q :
  is_int (Question.id q) -> is_int (Question.parent_id q) ->
  is_int (Question.from_user_id q) -> is_int (Question.to_user_id q) ->
  contains dquote (Question.text q) = false ->
  contains dquote (Question.answer q) = false ->
  parse_question_line (Question.toString q) = Some q.
Proof.
  intros H1 H2 H3 H4 Ht Ha.
  rewrite Question_round_trip_stripped; try done.
  - unfold stripped. rewrite !strip_quotes_id by done. by destruct q.
  - rewrite (odd_quotes_none _ Ht). apply orb_true_r.
Qed.

Lemma split_User_toString u :
  plain (User.name u) -> plain (User.password u) ->
  plain (User.username u) -> plain (User.email u) ->
  split (User.toString u) comma =
  [ to_string (User.id u); User.name u; User.password u; User.username u;
    User.email u; if User.allow_anonymous_questions u then "1" else "0";
    to_string (User.Role_to_int (User.role u)) ].
Proof.
  intros Hn Hp Hu He. unfold split, User.toString.
  repeat (rewrite split_loop_plain
            by (assumption || apply to_string_plain || apply flag_plain);
          change ("," ++ ?r)%string with (String comma r);
          rewrite split_loop_separator).
  rewrite split_loop_plain_end by apply to_string_plain. reflexivity.
Qed.

(** The round trip holds for every account whose four text fields hold
    neither a comma nor a double quote. *)
Lemma User_round_trip u :
  is_int (User.id u) ->
  plain (User.name u) -> plain (User.password u) ->
  plain (User.username u) -> plain (User.email u) ->
  parse_user_line (User.toString u) = Some u.
Proof.
  intros Hid Hn Hp Hu He. unfold parse_user_line.
  rewrite split_User_toString by done.
  cbn [length Nat.ltb Nat.leb at_ nth].
  rewrite stoi_to_string by done. rewrite flag_decoded.
  destruct u as [id name password username email allow role]. simpl.
  by destruct role.
Qed.

End Tokenizer.

Section Quotes.
Import FileManager.

Lemma contains_app (c : ascii) (s1 s2 : string) :
  contains c (s1 ++ s2) = contains c s1 || contains c s2.
Proof. induction s1 as [|d s1 IH]; simpl; [done|]. by rewrite IH, orb_assoc. Qed.

(** The tokenizer never puts a double quote into a token. *)
Lemma split_loop_no_quote str delimiter : forall tokens currentToken inQuotes,
  contains dquote currentToken = false ->
  (forall t, t ∈ tokens -> contains dquote t = false) ->
  forall t, t ∈ split_loop str delimiter tokens currentToken inQuotes ->
            contains dquote t = false.
Proof.
  induction str as [|c str IH]; intros tokens currentToken inQuotes Hcur Htok t; simpl.
  - intros [Ht|Ht]%elem_of_app; [by apply Htok|].
    apply list_elem_of_singleton in Ht. by subst.
  - destruct (Ascii.eqb c dquote) eqn:Hq; [by apply IH|].
    destruct (Ascii.eqb c delimiter && negb inQuotes).
    + apply IH; [done|]. intros t' [Ht'|Ht']%elem_of_app; [by apply Htok|].
      apply list_elem_of_singleton in Ht'. by subst.
    + apply IH; [|done]. unfold push_back_char. rewrite contains_app, Hcur. simpl.
      by rewrite Hq.
Qed.

Lemma split_no_quote str delimiter t :
  t ∈ split str delimiter -> contains dquote t = false.
Proof.
  apply split_loop_no_quote; [done|]. intros t' Ht'. by apply elem_of_nil in Ht'.
Qed.

Lemma at_no_quote tokens i :
  (forall t, t ∈ tokens -> contains dquote t = false) ->
  contains dquote (at_ tokens i) = false.
Proof.
  intros H. unfold at_. destruct (nth_in_or_default i tokens EmptyString) as [Hin | ->].
  - apply H. by apply list_elem_of_In.
  - done.
Qed.

(** No decoded thread entry has a double quote in its text or answer, and
    no decoded account has one in its name. *)
Lemma decoded_fields_have_no_quote :
  (forall line q,
     parse_question_line line = Some q ->
     contains dquote (Question.text q) = false
     /\ contains dquote (Question.answer q) = false)
  /\
  (forall line u,
     parse_user_line line = Some u ->
     contains dquote (User.name u) = false
     /\ contains dquote (User.password u) = false
     /\ contains dquote (User.username u) = false
     /\ contains dquote (User.email u) = false).
Proof.
  split.
  - intros line q. unfold parse_question_line.
    pose proof (split_no_quote line comma) as Hsplit.
    destruct (_ <? _)%nat; [done|].
    destruct (stoi _); [|done]. destruct (stoi _); [|done].
    destruct (stoi _); [|done]. destruct (stoi _); [|done].
    intros [= <-]. cbn [Question.text Question.answer].
    split; [by apply at_no_quote|].
    match goal with
    | |- context [if ?b then _ else _] => destruct b
    end; [by apply at_no_quote|done].
  - intros line u. unfold parse_user_line.
    pose proof (split_no_quote line comma) as Hsplit.
    destruct (_ <? _)%nat; [done|]. destruct (stoi _); [|done].
    intros [= <-]. cbn [User.name User.password User.username User.email].
    repeat split; by apply at_no_quote.
Qed.

Lemma escapeCommas_with_comma str :
  contains comma str = true ->
  Question.escapeCommas str = dq ++ Question.double_quotes str ++ dq.
Proof. intros H. unfold Question.escapeCommas. by rewrite H. Qed.

Lemma escapeCommas_without_comma str :
  contains comma str = false -> Question.escapeCommas str = str.
Proof. intros H. unfold Question.escapeCommas. by rewrite H. Qed.

End Quotes.

Section RoundTripLimits.
Import FileManager.

Lemma split_loop_tokens_prefix str delimiter : forall tokens cur inQuotes,
  split_loop str delimiter tokens cur inQuotes
  = (tokens ++ split_loop str delimiter [] cur inQuotes)%list.
Proof.
  induction str as [|c str IH]; intros tokens cur inQuotes; cbn [split_loop].
  - done.
  - destruct (Ascii.eqb c dquote); [apply IH|].
    destruct (Ascii.eqb c delimiter && negb inQuotes); [|apply IH].
    rewrite IH. rewrite (IH ([] ++ [cur])%list). by rewrite <- !app_assoc.
Qed.

Lemma first_comma s :
  contains comma s = true ->
  exists p r, s = (p ++ String comma r)%string /\ contains comma p = false.
Proof.
  induction s as [|c s IH]; cbn [contains]; [done|].
  destruct (Ascii.eqb c comma) eqn:Hc.
  - intros _. apply Ascii.eqb_eq in Hc as ->. by exists EmptyString, s.
  - cbn [orb]. intros Hs. destruct (IH Hs) as (p & r & -> & Hp).
    exists (String c p), r. split; [done|]. cbn [contains]. by rewrite Hc, Hp.
Qed.

Lemma string_app_longer (p r : string) (c : ascii) : (p ++ String c r)%string <> p.
Proof.
  induction p as [|x p IH]; [done|].
  rewrite string_app_cons. by intros [= E].
Qed.

(** A field with a comma and no double quote is cut at its first comma. *)
Lemma split_loop_cut f rest tokens :
  contains dquote f = false -> contains comma f = true ->
  exists p tail,
    split_loop (f ++ rest) comma tokens EmptyString false
    = (tokens ++ p :: tail)%list
    /\ p <> f.
Proof.
  intros Hq Hc. destruct (first_comma f Hc) as (p & r & -> & Hp).
  rewrite contains_app in Hq. apply orb_false_iff in Hq as [Hpq _].
  exists p, (split_loop (r ++ rest) comma [] EmptyString false). split.
  - rewrite string_app_assoc, string_app_cons.
    rewrite split_loop_plain by done. rewrite split_loop_separator.
    rewrite split_loop_tokens_prefix. rewrite string_app_nil_l.
    by rewrite <- app_assoc.
  - intros E. by apply (string_app_longer p r comma).
Qed.

Lemma split_loop_keep f rest tokens :
  plain f ->
  split_loop (f ++ "," ++ rest) comma tokens EmptyString false
  = split_loop rest comma (tokens ++ [f]) EmptyString false.
Proof.
  intros Hf. rewrite split_loop_plain by done.
  change ("," ++ rest)%string with (String comma rest).
  by rewrite split_loop_separator, string_app_nil_l.
Qed.

Lemma parse_user_line_fields line u :
  parse_user_line line = Some u ->
  User.name u = at_ (split line comma) 1
  /\ User.password u = at_ (split line comma) 2
  /\ User.username u = at_ (split line comma) 3
  /\ User.email u = at_ (split line comma) 4.
Proof.
  unfold parse_user_line. destruct (_ <? _)%nat; [done|].
  destruct (stoi _); [|done]. by intros [= <-].
Qed.

(** An account comes back from its line exactly when its four text fields
    hold neither a comma nor a double quote. *)
Lemma User_round_trip_iff u :
  is_int (User.id u) ->
  parse_user_line (User.toString u) = Some u
  <-> plain (User.name u) /\ plain (User.password u)
      /\ plain (User.username u) /\ plain (User.email u).
Proof.
  intros Hid. split; [|intros (Hn & Hp & Hu & He); by apply User_round_trip].
  intros E.
  destruct (proj2 decoded_fields_have_no_quote _ _ E) as (Qn & Qp & Qu & Qe).
  destruct (parse_user_line_fields _ _ E) as (Fn & Fp & Fu & Fe).
  unfold split, User.toString in Fn, Fp, Fu, Fe.
  rewrite (split_loop_keep (to_string (User.id u))) in Fn, Fp, Fu, Fe
    by apply to_string_plain.
  assert (plain (User.name u)) as Hn.
  { split; [|done]. destruct (contains comma (User.name u)) eqn:Hc; [|done].
    destruct (split_loop_cut (User.name u)
                ("," ++ User.password u ++ "," ++ User.username u ++ "," ++
                 User.email u ++ "," ++
                 (if User.allow_anonymous_questions u then "1" else "0") ++ "," ++
                 to_string (User.Role_to_int (User.role u)))
                ([] ++ [to_string (User.id u)]) Qn Hc) as (p & tail & Hsplit & Hne).
    rewrite Hsplit in Fn. cbn in Fn. congruence. }
  rewrite (split_loop_keep (User.name u)) in Fp, Fu, Fe by done.
  assert (plain (User.password u)) as Hp.
  { split; [|done]. destruct (contains comma (User.password u)) eqn:Hc; [|done].
    destruct (split_loop_cut (User.password u)
                ("," ++ User.username u ++ "," ++ User.email u ++ "," ++
                 (if User.allow_anonymous_questions u then "1" else "0") ++ "," ++
                 to_string (User.Role_to_int (User.role u)))
                (([] ++ [to_string (User.id u)]) ++ [User.name u]) Qp Hc)
      as (p & tail & Hsplit & Hne).
    rewrite Hsplit in Fp. cbn in Fp. congruence. }
  rewrite (split_loop_keep (User.password u)) in Fu, Fe by done.
  assert (plain (User.username u)) as Hu.
  { split; [|done]. destruct (contains comma (User.username u)) eqn:Hc; [|done].
    destruct (split_loop_cut (User.username u)
                ("," ++ User.email u ++ "," ++
                 (if User.allow_anonymous_questions u then "1" else "0") ++ "," ++
                 to_string (User.Role_to_int (User.role u)))
                ((([] ++ [to_string (User.id u)]) ++ [User.name u])
                 ++ [User.password u]) Qu Hc)
      as (p & tail & Hsplit & Hne).
    rewrite Hsplit in Fu. cbn in Fu. congruence. }
  rewrite (split_loop_keep (User.username u)) in Fe by done.
  assert (plain (User.email u)) as He.
  { split; [|done]. destruct (contains comma (User.email u)) eqn:Hc; [|done].
    destruct (split_loop_cut (User.email u)
                ("," ++
                 (if User.allow_anonymous_questions u then "1" else "0") ++ "," ++
                 to_string (User.Role_to_int (User.role u)))
                (((([] ++ [to_string (User.id u)]) ++ [User.name u])
                  ++ [User.password u]) ++ [User.username u]) Qe Hc)
      as (p & tail & Hsplit & Hne).
    rewrite Hsplit in Fe. cbn in Fe. congruence. }
  done.
Qed.

(** A thread entry comes back from its line exactly when its text and its
    answer hold no double quote. *)
Lemma Question_round_trip_iff q :
  is_int (Question.id q) -> is_int (Question.parent_id q) ->
  is_int (Question.from_user_id q) -> is_int (Question.to_user_id q) ->
  parse_question_line (Question.toString q) = Some q
  <-> contains dquote (Question.text q) = false
      /\ contains dquote (Question.answer q) = false.
Proof.
  intros H1 H2 H3 H4. split.
  - apply (proj1 decoded_fields_have_no_quote).
  - intros [Ht Ha]. by apply Question_round_trip.
Qed.

End RoundTripLimits.

Section FileIO.
Import FileManager.

Lemma string_eqb_empty (s : string) :
  String.eqb s EmptyString = true <-> s = EmptyString.
Proof. apply String.eqb_eq. Qed.

(** Reading one line that holds no newline and is followed by one. *)
Lemma getline_loop_line line : forall rest cur lines,
  contains newline line = false ->
  getline_loop (line ++ String newline rest) cur lines
  = getline_loop rest EmptyString
      (if String.eqb (cur ++ line) EmptyString then lines
       else lines ++ [(cur ++ line)%string]).
Proof.
  induction line as [|c line IH]; intros rest cur lines Hline.
  - rewrite string_app_nil_l, string_app_nil_r. cbn [getline_loop].
    by rewrite Ascii.eqb_refl.
  - cbn [contains] in Hline. apply orb_false_iff in Hline as [Hc Hline].
    rewrite string_app_cons. cbn [getline_loop]. rewrite Hc.
    rewrite IH by done. by rewrite push_back_char_app.
Qed.

Lemma getline_loop_write_lines lines : forall acc,
  Forall (fun line => contains newline line = false) lines ->
  getline_loop (write_lines lines) EmptyString acc
  = (acc ++ filter (fun line => line <> EmptyString) lines)%list.
Proof.
  induction lines as [|line lines IH]; intros acc Hlines; cbn [write_lines].
  - cbn [getline_loop String.eqb]. by rewrite filter_nil, app_nil_r.
  - apply Forall_cons in Hlines as [Hline Hlines].
    rewrite getline_loop_line by done. rewrite string_app_nil_l.
    rewrite IH by done. rewrite filter_cons.
    destruct (String.eqb line EmptyString) eqn:E.
    + apply String.eqb_eq in E. by rewrite decide_False by (by intros ?).
    + apply String.eqb_neq in E. rewrite decide_True by done.
      by rewrite <- app_assoc.
Qed.

(** What [getline_loop] adds to [lines] are non-empty lines without a
    newline. *)
Lemma getline_loop_lines content : forall cur lines line,
  contains newline cur = false ->
  line ∈ getline_loop content cur lines ->
  line ∈ lines \/ (line <> EmptyString /\ contains newline line = false).
Proof.
  induction content as [|c content IH]; intros cur lines line Hcur; cbn [getline_loop].
  - destruct (String.eqb cur EmptyString) eqn:E; [by left|].
    intros [Hin|Hin]%elem_of_app; [by left|]. right.
    apply list_elem_of_singleton in Hin as ->. split; [|done].
    by apply String.eqb_neq.
  - destruct (Ascii.eqb c newline) eqn:Hc.
    + intros Hin. apply IH in Hin as [Hin|Hin]; [|by right|done].
      destruct (String.eqb cur EmptyString) eqn:E; [by left|].
      apply elem_of_app in Hin as [Hin|Hin]; [by left|]. right.
      apply list_elem_of_singleton in Hin as ->. split; [|done].
      by apply String.eqb_neq.
    + apply IH. unfold push_back_char. rewrite contains_app, Hcur.
      cbn [contains orb]. by rewrite Hc.
Qed.

End FileIO.

Section Persistence.
Import FileManager.

Lemma contains_nondigit s d :
  all_digits s = true -> isdigit d = false -> contains d s = false.
Proof.
  intros Hs Hd. induction s as [|c s IH]; [done|].
  cbn [all_digits contains] in *. apply andb_true_iff in Hs as [Hc Hs].
  rewrite IH by done. rewrite orb_false_r. apply Ascii.eqb_neq. intros ->. congruence.
Qed.

Lemma to_string_no_newline n : contains newline (to_string n) = false.
Proof.
  unfold to_string.
  assert (contains newline
            (to_string_digits (S (Z.to_nat (Z.log2 (Z.abs n)))) (Z.abs n) EmptyString)
          = false) as H.
  { apply contains_nondigit; [|done].
    apply to_string_digits_all_digits; [lia|done]. }
  destruct (n <? 0); [|done]. cbn [contains]. by rewrite H.
Qed.

Lemma double_quotes_contains d s :
  Ascii.eqb dquote d = false ->
  contains d (Question.double_quotes s) = contains d s.
Proof.
  intros Hd. induction s as [|c s IH]; [done|]. cbn [Question.double_quotes contains].
  destruct (Ascii.eqb c dquote) eqn:Hc.
  - apply Ascii.eqb_eq in Hc as ->. cbn [contains]. by rewrite IH, Hd.
  - cbn [contains]. by rewrite IH.
Qed.

Lemma escapeCommas_no_newline s :
  contains newline s = false -> contains newline (Question.escapeCommas s) = false.
Proof.
  intros Hs. unfold Question.escapeCommas. destruct (contains comma s); [|done].
  cbn [contains]. rewrite contains_app, double_quotes_contains, Hs by done. done.
Qed.

Lemma flag_no_newline (b : bool) : contains newline (if b then "1" else "0") = false.
Proof. by destruct b. Qed.

Lemma Question_toString_no_newline q :
  contains newline (Question.text q) = false ->
  contains newline (Question.answer q) = false ->
  contains newline (Question.toString q) = false.
Proof.
  intros Ht Ha. unfold Question.toString.
  rewrite !contains_app, !to_string_no_newline, flag_no_newline,
    !escapeCommas_no_newline by done.
  done.
Qed.

Lemma User_toString_no_newline u :
  contains newline (User.name u) = false ->
  contains newline (User.password u) = false ->
  contains newline (User.username u) = false ->
  contains newline (User.email u) = false ->
  contains newline (User.toString u) = false.
Proof.
  intros Hn Hp Hu He. unfold User.toString.
  rewrite !contains_app, !to_string_no_newline, flag_no_newline, Hn, Hp, Hu, He.
  done.
Qed.

Lemma Question_toString_nonempty q : Question.toString q <> EmptyString.
Proof.
  intros E. assert (contains comma (Question.toString q) = true) as H.
  { unfold Question.toString. rewrite contains_app.
    apply orb_true_iff. right. by rewrite contains_app. }
  by rewrite E in H.
Qed.

Lemma User_toString_nonempty u : User.toString u <> EmptyString.
Proof.
  intros E. assert (contains comma (User.toString u) = true) as H.
  { unfold User.toString. rewrite contains_app.
    apply orb_true_iff. right. by rewrite contains_app. }
  by rewrite E in H.
Qed.

(** Loading the lines of records that decode to themselves rebuilds the
    map the records were listed from. *)
Lemma load_encoded {A} (parse : string -> option A) (encode : A -> string)
    (key : A -> Z) (l : list (Z * A)) : forall k,
  (forall p, p ∈ l -> parse (encode (snd p)) = Some (snd p) /\ key (snd p) = fst p) ->
  head (filter (fun a => key a = k) (omap parse ((fun p => encode (snd p)) <$> l)))
  = (list_to_map l : gmap Z A) !! k.
Proof.
  intros k. induction l as [|[k' a] l IH]; intros Hl; [done|].
  destruct (Hl (k', a)) as [Hparse Hkey]; [apply elem_of_cons; by left|].
  simpl in Hparse, Hkey. cbn [fmap list_fmap omap list_omap list_to_map foldr snd fst].
  rewrite Hparse. rewrite filter_cons.
  assert (Hrest : forall p, p ∈ l ->
            parse (encode (snd p)) = Some (snd p) /\ key (snd p) = fst p).
  { intros p Hp. apply Hl, elem_of_cons. by right. }
  destruct (decide (key a = k)) as [Hk|Hk].
  - subst k. rewrite Hkey. by rewrite lookup_insert_eq.
  - rewrite lookup_insert_ne by congruence. by apply IH.
Qed.

Lemma filter_all {A} (P : A -> Prop) `{!forall x, Decision (P x)} (l : list A) :
  (forall x, x ∈ l -> P x) -> filter P l = l.
Proof.
  induction l as [|x l IH]; intros Hall; [done|].
  rewrite filter_cons_True by (apply Hall, elem_of_cons; by left).
  f_equal. apply IH. intros y Hy. apply Hall, elem_of_cons. by right.
Qed.

Lemma saved_lines_read_back {A} (encode : A -> string) (m : gmap Z A)
    (fs : FileSystem) (path : string) :
  writable fs = true ->
  (forall k a, m !! k = Some a ->
     contains newline (encode a) = false /\ encode a <> EmptyString) ->
  ReadInformationFromFile
    (snd (StoreInformationOnFile fs path
            ((fun pair => encode (snd pair)) <$> map_to_list m))) path
  = (fun pair => encode (snd pair)) <$> map_to_list m.
Proof.
  intros Hw Hm. unfold StoreInformationOnFile, ReadInformationFromFile.
  rewrite Hw. cbn [snd files]. rewrite lookup_insert_eq.
  rewrite getline_loop_write_lines.
  - cbn [app]. apply filter_all. intros line Hline.
    apply list_elem_of_fmap in Hline as [[k a] [-> Hin]].
    apply elem_of_map_to_list in Hin. by apply (Hm k a).
  - apply Forall_forall. intros line Hline.
    apply list_elem_of_fmap in Hline as [[k a] [-> Hin]].
    apply elem_of_map_to_list in Hin. by apply (Hm k a).
Qed.

Lemma save_load_questions_lemma fm fs (qs : gmap Z Question.t) :
  writable fs = true ->
  keyed_questions qs ->
  (forall k q, qs !! k = Some q -> storable_question q) ->
  LoadQuestions fm (snd (SaveQuestions fm fs qs)) = qs.
Proof.
  intros Hw Hkey Hst. unfold LoadQuestions, SaveQuestions.
  rewrite (saved_lines_read_back Question.toString); [|done|].
  2:{ intros k q Hq. destruct (Hst k q Hq) as (_ & _ & _ & _ & _ & _ & ? & ?).
      split; [by apply Question_toString_no_newline|apply Question_toString_nonempty]. }
  apply map_eq. intros k. rewrite LoadQuestions_lines_fold.
  rewrite (load_lookup parse_question_line Question.id), lookup_empty.
  rewrite (load_encoded parse_question_line Question.toString Question.id).
  - by rewrite list_to_map_to_list.
  - intros [k' q] Hin. apply elem_of_map_to_list in Hin. cbn [fst snd].
    destruct (Hst k' q Hin) as (H1 & H2 & H3 & H4 & Ht & Ha & _).
    split; [by apply Question_round_trip|by apply Hkey].
Qed.

Lemma save_load_users_lemma fm fs (us : gmap Z User.t) :
  writable fs = true ->
  keyed_users us ->
  (forall k u, us !! k = Some u -> storable_user u) ->
  LoadUsers fm (snd (SaveUsers fm fs us)) = us.
Proof.
  intros Hw Hkey Hst. unfold LoadUsers, SaveUsers.
  rewrite (saved_lines_read_back User.toString); [|done|].
  2:{ intros k u Hu. destruct (Hst k u Hu) as (_ & _ & _ & _ & _ & ? & ? & ? & ?).
      split; [by apply User_toString_no_newline|apply User_toString_nonempty]. }
  apply map_eq. intros k. rewrite LoadUsers_lines_fold.
  rewrite (load_lookup parse_user_line User.id), lookup_empty.
  rewrite (load_encoded parse_user_line User.toString User.id).
  - by rewrite list_to_map_to_list.
  - intros [k' u] Hin. apply elem_of_map_to_list in Hin. cbn [fst snd].
    destruct (Hst k' u Hin) as (H1 & Hn & Hp & Hu & He & _).
    split; [by apply User_round_trip|by apply Hkey].
Qed.

End Persistence.

Section SplitJoin.
Import FileManager.

Lemma join_snoc d (l : list string) (x : string) :
  l <> [] -> join d (l ++ [x]) = (join d l ++ String d x)%string.
Proof.
  induction l as [|t l IH]; [done|]. intros _.
  destruct l as [|t' l].
  - cbn [app join]. done.
  - change ((t :: t' :: l) ++ [x])%list with (t :: ((t' :: l) ++ [x]))%list.
    change (join d (t :: (t' :: l) ++ [x]))
      with (t ++ String d (join d ((t' :: l) ++ [x])))%string.
    rewrite IH by done.
    change (join d (t :: t' :: l)) with (t ++ String d (join d (t' :: l)))%string.
    by rewrite string_app_assoc, string_app_cons.
Qed.

Lemma join_last_app d (l : list string) (cur s : string) :
  join d (l ++ [(cur ++ s)%string]) = (join d (l ++ [cur]) ++ s)%string.
Proof.
  destruct l as [|t l].
  - done.
  - rewrite !join_snoc by done.
    by rewrite string_app_assoc, string_app_cons.
Qed.

(** On a line without double quotes the tokenizer only cuts: the tokens
    and the delimiters between them are the line. *)
Lemma join_split_loop str d : forall tokens cur,
  contains dquote str = false ->
  join d (split_loop str d tokens cur false)
  = (join d (tokens ++ [cur]) ++ str)%string.
Proof.
  induction str as [|c str IH]; intros tokens cur Hstr.
  - cbn [split_loop]. by rewrite string_app_nil_r.
  - cbn [contains] in Hstr. apply orb_false_iff in Hstr as [Hc Hstr].
    cbn [split_loop]. rewrite Hc. cbn [negb]. rewrite andb_true_r.
    destruct (Ascii.eqb c d) eqn:Hd.
    + apply Ascii.eqb_eq in Hd as ->. rewrite IH by done.
      rewrite join_snoc by (by destruct tokens).
      by rewrite string_app_assoc, string_app_cons, string_app_nil_l.
    + rewrite IH by done. unfold push_back_char.
      rewrite join_last_app. by rewrite string_app_assoc, string_app_cons.
Qed.

Lemma split_loop_join tokens : forall acc,
  tokens <> [] -> Forall plain tokens ->
  split_loop (join comma tokens) comma acc EmptyString false = (acc ++ tokens)%list.
Proof.
  induction tokens as [|t tokens IH]; [done|]. intros acc _ Hplain.
  apply Forall_cons in Hplain as [Ht Hplain].
  destruct tokens as [|t' tokens].
  - cbn [join]. by rewrite split_loop_plain_end.
  - change (join comma (t :: t' :: tokens))
      with (t ++ String comma (join comma (t' :: tokens)))%string.
    rewrite split_loop_plain by done. rewrite split_loop_separator.
    rewrite string_app_nil_l, IH by done. by rewrite <- app_assoc.
Qed.

Lemma split_loop_nonempty str d : forall tokens cur inQuotes,
  split_loop str d tokens cur inQuotes <> [].
Proof.
  induction str as [|c str IH]; intros tokens cur inQuotes; cbn [split_loop].
  - by destruct tokens.
  - destruct (Ascii.eqb c dquote); [apply IH|].
    destruct (_ && _); apply IH.
Qed.

End SplitJoin.

Section AccountOperations.
Import UserManager.

Lemma SaveUsers_result fm fs m : fst (FileManager.SaveUsers fm fs m) = writable fs.
Proof.
  unfold FileManager.SaveUsers, FileManager.StoreInformationOnFile.
  by destruct (writable fs).
Qed.

Lemma SaveUsers_readonly fm fs m :
  writable fs = false -> snd (FileManager.SaveUsers fm fs m) = fs.
Proof.
  intros H. unfold FileManager.SaveUsers, FileManager.StoreInformationOnFile.
  by rewrite H.
Qed.

Lemma SaveQuestions_readonly fm fs m :
  writable fs = false -> snd (FileManager.SaveQuestions fm fs m) = fs.
Proof.
  intros H. unfold FileManager.SaveQuestions, FileManager.StoreInformationOnFile.
  by rewrite H.
Qed.

Lemma AddUser_fresh um fs user :
  users um !! User.id user = None ->
  AddUser um fs user =
    (writable fs, mk (<[User.id user := user]> (users um)) (file_manager um),
     snd (FileManager.SaveUsers (file_manager um) fs
            (<[User.id user := user]> (users um)))).
Proof.
  intros H. unfold AddUser. rewrite H.
  rewrite <- (SaveUsers_result (file_manager um) fs (<[User.id user := user]> (users um))).
  by destruct (FileManager.SaveUsers _ _ _).
Qed.

Lemma AddUser_taken um fs user :
  is_Some (users um !! User.id user) -> AddUser um fs user = (false, um, fs).
Proof. intros [u H]. unfold AddUser. by rewrite H. Qed.

Lemma UpdateUser_present um fs user :
  is_Some (users um !! User.id user) ->
  UpdateUser um fs user =
    (writable fs, mk (<[User.id user := user]> (users um)) (file_manager um),
     snd (FileManager.SaveUsers (file_manager um) fs
            (<[User.id user := user]> (users um)))).
Proof.
  intros [u H]. unfold UpdateUser. rewrite H.
  rewrite <- (SaveUsers_result (file_manager um) fs (<[User.id user := user]> (users um))).
  by destruct (FileManager.SaveUsers _ _ _).
Qed.

Lemma UpdateUser_absent um fs user :
  users um !! User.id user = None -> UpdateUser um fs user = (false, um, fs).
Proof. intros H. unfold UpdateUser. by rewrite H. Qed.

Lemma DeleteUser_present um fs user_id :
  is_Some (users um !! user_id) ->
  DeleteUser um fs user_id =
    (writable fs, mk (delete user_id (users um)) (file_manager um),
     snd (FileManager.SaveUsers (file_manager um) fs (delete user_id (users um)))).
Proof.
  intros [u H]. unfold DeleteUser. rewrite H.
  rewrite <- (SaveUsers_result (file_manager um) fs (delete user_id (users um))).
  by destruct (FileManager.SaveUsers _ _ _).
Qed.

Lemma DeleteUser_absent um fs user_id :
  users um !! user_id = None -> DeleteUser um fs user_id = (false, um, fs).
Proof. intros H. unfold DeleteUser. by rewrite H. Qed.

Lemma Authenticate_true um user_id password :
  Authenticate um user_id password = true
  <-> exists u, users um !! user_id = Some u /\ User.password u = password.
Proof.
  unfold Authenticate, User.verifyPassword. destruct (users um !! user_id) as [u|].
  - rewrite String.eqb_eq. split; [eauto|]. by intros (u' & [= <-] & H).
  - split; [done|]. by intros (u' & H & _).
Qed.

(** The next account id is positive and larger than every id in use,
    unless the successor of the largest id overflows. *)
Lemma GetNextUserID_above um :
  (forall k, is_Some (users um !! k) -> k < INT_MAX) ->
  1 <= GetNextUserID um <= INT_MAX
  /\ forall k, is_Some (users um !! k) -> k < GetNextUserID um.
Proof.
  intros Hids. destruct (decide (users um = ∅)) as [He|Hne].
  - rewrite GetNextUserID_empty by done. split; [unfold INT_MAX; lia|].
    intros k [u Hk]. by rewrite He, lookup_empty in Hk.
  - destruct (max_id_exists _ Hne) as [m Hm].
    rewrite (GetNextUserID_max um m Hm).
    pose proof (Hids m (proj1 Hm)) as Hlt.
    rewrite int_wrap_id by (unfold is_int, INT_MIN, INT_MAX in *; lia).
    split; [unfold INT_MAX in *; lia|].
    intros k Hk. pose proof (proj2 Hm k Hk). lia.
Qed.

Lemma GetNextQuestionID_above qm :
  (forall k, is_Some (QuestionManager.questions qm !! k) -> INT_MIN <= k < INT_MAX) ->
  forall k, is_Some (QuestionManager.questions qm !! k) ->
            k < QuestionManager.GetNextQuestionID qm.
Proof.
  intros Hids k Hk.
  destruct (decide (QuestionManager.questions qm = ∅)) as [He|Hne].
  - destruct Hk as [q Hk]. by rewrite He, lookup_empty in Hk.
  - destruct (max_id_exists _ Hne) as [m Hm].
    rewrite (GetNextQuestionID_max qm m Hm).
    pose proof (Hids m (proj1 Hm)) as Hlt.
    rewrite int_wrap_id by (unfold is_int, INT_MIN, INT_MAX in *; lia).
    pose proof (proj2 Hm k Hk). lia.
Qed.

End AccountOperations.

Section ThreadOperations.
Import QuestionManager.

Lemma UpdateQuestion_present qm fs question :
  is_Some (questions qm !! Question.id question) ->
  UpdateQuestion qm fs question =
    (writable fs,
     mk (<[Question.id question := question]> (questions qm)) (file_manager qm),
     snd (FileManager.SaveQuestions (file_manager qm) fs
            (<[Question.id question := question]> (questions qm)))).
Proof.
  intros [q H]. unfold UpdateQuestion. rewrite H.
  rewrite <- (SaveQuestions_result (file_manager qm) fs
                (<[Question.id question := question]> (questions qm))).
  by destruct (FileManager.SaveQuestions _ _ _).
Qed.

Lemma UpdateQuestion_absent qm fs question :
  questions qm !! Question.id question = None ->
  UpdateQuestion qm fs question = (false, qm, fs).
Proof. intros H. unfold UpdateQuestion. by rewrite H. Qed.

Lemma AddQuestion_accepted um qm fs question :
  accepted um qm question ->
  AddQuestion um qm fs question =
    (writable fs,
     mk (<[Question.id question := question]> (questions qm)) (file_manager qm),
     snd (FileManager.SaveQuestions (file_manager qm) fs
            (<[Question.id question := question]> (questions qm)))).
Proof.
  intros (Hid & recipient & Hto & Hanon).
  apply (AddQuestion_stored um qm fs question recipient Hid Hto).
  destruct (Question.is_anonymous question); [|done].
  by rewrite Hanon.
Qed.

Lemma AddQuestion_refused um qm fs question :
  ~ accepted um qm question -> AddQuestion um qm fs question = (false, qm, fs).
Proof.
  intros Hno. unfold AddQuestion, UserManager.GetUserByID.
  destruct (questions qm !! Question.id question) eqn:Hid; [done|].
  destruct (UserManager.users um !! Question.to_user_id question) as [recipient|] eqn:Hto;
    [|done].
  destruct (Question.is_anonymous question) eqn:Ha,
    (User.allow_anonymous_questions recipient) eqn:Hal; try done;
    exfalso; apply Hno; (split; [done|]); exists recipient; (split; [done|]);
    congruence.
Qed.

(** What [DeleteQuestion] leaves of the collection, whoever calls it. *)
Lemma DeleteQuestion_lookup qm fs question_id cu j :
  questions (snd (fst (DeleteQuestion qm fs question_id cu))) !! j =
  match questions qm !! question_id with
  | None => questions qm !! j
  | Some question =>
      if denied question cu then questions qm !! j
      else
        match questions qm !! j with
        | Some q =>
            if decide (j = question_id) then None
            else if decide (Question.parent_id q = question_id)
                 then (if denied q cu then Some q else None)
                 else Some q
        | None => None
        end
  end.
Proof.
  destruct (questions qm !! question_id) as [question|] eqn:Hq.
  - destruct (denied question cu) eqn:Hd.
    + by rewrite (DeleteQuestion_denied _ _ _ _ _ Hq Hd).
    + destruct (DeleteQuestion_allowed qm fs _ _ _ Hq Hd) as (questions' & -> & Hl).
      apply Hl.
  - by rewrite DeleteQuestion_absent.
Qed.

Lemma denied_true q cu :
  denied q cu = true
  <-> Question.from_user_id q <> User.id cu /\ User.role cu = User.REGULAR_USER.
Proof.
  unfold denied. rewrite andb_true_iff, negb_true_iff, Z.eqb_neq.
  destruct (User.role cu); split; intros [? ?]; done.
Qed.

Lemma next_question_id_unused qm :
  (forall k, is_Some (questions qm !! k) -> INT_MIN <= k < INT_MAX) ->
  questions qm !! GetNextQuestionID qm = None.
Proof.
  intros Hids. destruct (questions qm !! GetNextQuestionID qm) eqn:E; [|done].
  pose proof (GetNextQuestionID_above qm Hids (GetNextQuestionID qm)) as H.
  assert (GetNextQuestionID qm < GetNextQuestionID qm) by (apply H; eauto). lia.
Qed.

Lemma next_user_id_unused um :
  (forall k, is_Some (UserManager.users um !! k) -> k < INT_MAX) ->
  UserManager.users um !! UserManager.GetNextUserID um = None.
Proof.
  intros Hids.
  destruct (UserManager.users um !! UserManager.GetNextUserID um) eqn:E; [|done].
  destruct (GetNextUserID_above um Hids) as [_ H].
  assert (UserManager.GetNextUserID um < UserManager.GetNextUserID um)
    by (apply H; eauto).
  lia.
Qed.

(** The entry that [AskQuestion] builds and hands to [AddQuestion]. *)
Lemma AskQuestion_stores um qm fs current_user input recipient :
  (forall k, is_Some (questions qm !! k) -> INT_MIN <= k < INT_MAX) ->
  in_to_user_id input <> -1 ->
  UserManager.users um !! in_to_user_id input = Some recipient ->
  exists q,
    AskQuestion um qm fs current_user input =
      (mk (<[GetNextQuestionID qm := q]> (questions qm)) (file_manager qm),
       snd (FileManager.SaveQuestions (file_manager qm) fs
              (<[GetNextQuestionID qm := q]> (questions qm))))
    /\ Question.id q = GetNextQuestionID qm
    /\ Question.from_user_id q = User.id current_user
    /\ Question.to_user_id q = in_to_user_id input
    /\ Question.answer q = EmptyString
    /\ (Question.is_anonymous q = true ->
        User.allow_anonymous_questions recipient = true).
Proof.
  intros Hids Hto Hrec. unfold AskQuestion, UserManager.GetUserByID.
  destruct (Z.eqb_spec (in_to_user_id input) (-1)) as [|_]; [done|].
  rewrite Hrec.
  destruct (if is_yes (in_follow_up input) then _ else _) as [parent_id stream_good].
  match goal with
  | |- context [AddQuestion um qm fs ?question] => set (q := question)
  end.
  exists q. rewrite (AddQuestion_accepted um qm fs q).
  - repeat split. unfold q. cbn [Question.is_anonymous].
    by destruct (User.allow_anonymous_questions recipient).
  - split; [by apply next_question_id_unused|].
    exists recipient. split; [done|]. unfold q. cbn [Question.is_anonymous].
    by destruct (User.allow_anonymous_questions recipient).
Qed.

Lemma AnswerQuestion_stores qm fs current_user_id input q :
  in_question_id input <> -1 ->
  questions qm !! in_question_id input = Some q ->
  Question.id q = in_question_id input ->
  Question.to_user_id q = current_user_id ->
  Question.isAnswered q && negb (is_yes (in_confirm input)) = false ->
  AnswerQuestion qm fs current_user_id input =
    (AnswerStored (writable fs),
     mk (<[in_question_id input := Question.setAnswer q (in_answer input)]>
           (questions qm)) (file_manager qm),
     snd (FileManager.SaveQuestions (file_manager qm) fs
            (<[in_question_id input := Question.setAnswer q (in_answer input)]>
               (questions qm)))).
Proof.
  intros Hne Hq Hid Hto Hconfirm. unfold AnswerQuestion.
  destruct (Z.eqb_spec (in_question_id input) (-1)) as [|_]; [done|].
  rewrite Hq, Hto, Z.eqb_refl, Hconfirm. cbn [negb].
  rewrite UpdateQuestion_present.
  - cbn [questions file_manager Question.setAnswer Question.id]. rewrite Hid.
    by rewrite insert_insert_eq.
  - cbn [questions Question.setAnswer Question.id]. rewrite Hid.
    rewrite lookup_insert_eq. eauto.
Qed.

(** In every other case [AnswerQuestion] changes nothing. *)
Lemma AnswerQuestion_refuses qm fs current_user_id input :
  in_question_id input = -1
  \/ questions qm !! in_question_id input = None
  \/ (exists q, questions qm !! in_question_id input = Some q
               /\ (Question.to_user_id q <> current_user_id
                   \/ Question.isAnswered q && negb (is_yes (in_confirm input)) = true)) ->
  snd (fst (AnswerQuestion qm fs current_user_id input)) = qm
  /\ snd (AnswerQuestion qm fs current_user_id input) = fs.
Proof.
  unfold AnswerQuestion. intros [H|[H|(q & Hq & H)]].
  - by rewrite H.
  - destruct (_ =? _); [done|]. by rewrite H.
  - destruct (_ =? _); [done|]. rewrite Hq.
    destruct (Z.eqb_spec (Question.to_user_id q) current_user_id) as [Hto|Hto];
      [|done].
    destruct H as [H|H]; [done|]. cbn [negb]. by rewrite H.
Qed.

End ThreadOperations.

(** * The claims *)

Section Codec.
Import FileManager.

(** C1, on the failing inputs. A thread entry whose text holds both the
    delimiter and double quotes is written with the quotes doubled and comes
    back without them; a text with one double quote and no comma swallows
    the answer; an account whose name holds a comma comes back with its
    fields shifted.  In general a thread entry comes back from its line
    exactly when its text and answer hold no double quote, and an account
    exactly when its text fields hold neither a comma nor a double quote. *)
Theorem C1_round_trip_fails :
  Question.toString quoted_question
    = "10,-1,2,1,0," ++ dq ++ "say " ++ dq ++ dq ++ "hi" ++ dq ++ dq ++ ", ok" ++ dq
      ++ ",A1"
  /\ parse_question_line (Question.toString quoted_question)
     = Some (Question.mk 10 (-1) 2 1 false "say hi, ok" "A1")
  /\ parse_question_line (Question.toString quoted_question) <> Some quoted_question
  /\ parse_question_line (Question.toString inch_question)
     = Some (Question.mk 11 (-1) 2 1 false "a 5 nail?,yes" "")
  /\ parse_user_line (User.toString comma_user)
     = Some (User.mk 4 "Doe" " John" "pw" "jdoe" false User.REGULAR_USER)
  /\ (forall q,
        is_int (Question.id q) -> is_int (Question.parent_id q) ->
        is_int (Question.from_user_id q) -> is_int (Question.to_user_id q) ->
        parse_question_line (Question.toString q) = Some q
        <-> contains dquote (Question.text q) = false
            /\ contains dquote (Question.answer q) = false)
  /\ (forall u,
        is_int (User.id u) ->
        parse_user_line (User.toString u) = Some u
        <-> plain (User.name u) /\ plain (User.password u)
            /\ plain (User.username u) /\ plain (User.email u)).
Proof.
  split; [reflexivity|].
  split; [reflexivity|]. split; [discriminate|]. split; [reflexivity|].
  split; [reflexivity|].
  split; [apply Question_round_trip_iff | apply User_round_trip_iff].
Qed.

(** C5, on the failing input. The text and the answer of a thread line
    follow the quoting rule, but an account line is the plain concatenation
    of its fields: the name with a comma is written bare, and the line then
    has eight fields. *)
Theorem C5_account_fields_written_bare :
  contains comma (User.name comma_user) = true
  /\ User.toString comma_user = "4,Doe, John,pw,jdoe,jdoe@test.com,1,1"
  /\ length (split (User.toString comma_user) comma) = 8%nat
  /\ (forall str, contains comma str = true ->
        Question.escapeCommas str = dq ++ Question.double_quotes str ++ dq)
  /\ (forall str, contains comma str = false -> Question.escapeCommas str = str)
  /\ (forall u : User.t,
        User.toString u =
        to_string (User.id u) ++ "," ++ User.name u ++ "," ++ User.password u ++ ","
        ++ User.username u ++ "," ++ User.email u ++ ","
        ++ (if User.allow_anonymous_questions u then "1" else "0") ++ ","
        ++ to_string (User.Role_to_int (User.role u))).
Proof.
  split; [reflexivity|]. split; [reflexivity|]. split; [reflexivity|].
  split; [apply escapeCommas_with_comma|].
  split; [apply escapeCommas_without_comma|]. reflexivity.
Qed.

End Codec.

Section Loading.
Import FileManager.

Lemma user_line_not_ok line : user_line_ok line = false -> parse_user_line line = None.
Proof.
  intros H. destruct (parse_user_line line) eqn:E; [|done].
  assert (user_line_ok line = true) by (apply parse_user_line_ok; eauto). congruence.
Qed.

Lemma question_line_not_ok line :
  question_line_ok line = false -> parse_question_line line = None.
Proof.
  intros H. destruct (parse_question_line line) eqn:E; [|done].
  assert (question_line_ok line = true) by (apply parse_question_line_ok; eauto).
  congruence.
Qed.

Lemma head_filter_first {A} (P : A -> Prop) `{!forall x, Decision (P x)}
    (before : list A) (a : A) (after : list A) :
  P a -> (forall b, b ∈ before -> ~ P b) ->
  head (filter P (before ++ a :: after)%list) = Some a.
Proof.
  intros Ha Hb. induction before as [|b before IH]; simpl.
  - rewrite filter_cons, decide_True by done. done.
  - rewrite filter_cons, decide_False by (apply Hb, elem_of_cons; by left).
    apply IH. intros c Hc. apply Hb, elem_of_cons. by right.
Qed.

Lemma loaded_ids_NoDup {A} (key : A -> Z) (m : gmap Z A) :
  (forall k a, m !! k = Some a -> key a = k) ->
  NoDup (key <$> (snd <$> map_to_list m)).
Proof.
  intros Hkey.
  assert (key <$> (snd <$> map_to_list m) = fst <$> map_to_list m) as ->.
  { rewrite <- list_fmap_compose. apply list_fmap_ext.
    intros i [k a] Hi. simpl. apply Hkey.
    apply elem_of_map_to_list. by eapply list_elem_of_lookup_2. }
  apply NoDup_fst_map_to_list.
Qed.

(** C7 as stated fails: both lines of this accounts file are well formed,
    and one record is loaded. *)
Lemma C7_counterexample :
  let fs :=
    mkFS {[ "users.txt" :=
              write_lines [ "1,Admin User,admin123,admin,admin@test.com,1,0";
                            "1,Regular User,user123,user1,user1@test.com,1,1" ] ]}
         true in
  let lines := ReadInformationFromFile fs "users.txt" in
  length (filter (fun line => user_line_ok line = true) lines) = 2%nat
  /\ size (LoadUsers FileManager.default fs) = 1%nat.
Proof. vm_compute. split; reflexivity. Qed.

(** C7, amended. A line with too few fields, or with an id field that
    [stoi] rejects, is skipped and the lines after it are still loaded:
    the result is the same as without the line.  The loaded collection holds
    at most one record per well-formed line, and exactly as many records as
    there are well-formed lines when these carry pairwise distinct ids. *)
Theorem C7_load_skips_malformed :
  (forall lines1 bad lines2,
     user_line_ok bad = false ->
     LoadUsers_lines (lines1 ++ bad :: lines2) = LoadUsers_lines (lines1 ++ lines2))
  /\
  (forall lines1 bad lines2,
     question_line_ok bad = false ->
     LoadQuestions_lines (lines1 ++ bad :: lines2) = LoadQuestions_lines (lines1 ++ lines2))
  /\
  (forall fm fs,
     let lines := ReadInformationFromFile fs (users_file_path fm) in
     let well_formed := filter (fun line => user_line_ok line = true) lines in
     (size (LoadUsers fm fs) <= length well_formed)%nat
     /\ (NoDup (User.id <$> decoded_users lines) ->
         size (LoadUsers fm fs) = length well_formed))
  /\
  (forall fm fs,
     let lines := ReadInformationFromFile fs (questions_file_path fm) in
     let well_formed := filter (fun line => question_line_ok line = true) lines in
     (size (LoadQuestions fm fs) <= length well_formed)%nat
     /\ (NoDup (Question.id <$> decoded_questions lines) ->
         size (LoadQuestions fm fs) = length well_formed)).
Proof.
  split; [|split; [|split]].
  - intros lines1 bad lines2 H. rewrite !LoadUsers_lines_fold.
    apply (load_skip parse_user_line User.id). by apply user_line_not_ok.
  - intros lines1 bad lines2 H. rewrite !LoadQuestions_lines_fold.
    apply (load_skip parse_question_line Question.id). by apply question_line_not_ok.
  - intros fm fs. cbv zeta. unfold LoadUsers, decoded_users.
    set (lines := ReadInformationFromFile fs (users_file_path fm)).
    rewrite LoadUsers_lines_fold.
    rewrite (length_filter_omap parse_user_line user_line_ok lines parse_user_line_ok).
    split.
    + pose proof (load_size_le parse_user_line User.id lines ∅) as H.
      rewrite map_size_empty in H. exact H.
    + intros Hnd.
      rewrite (load_size parse_user_line User.id lines ∅ Hnd).
      * by rewrite map_size_empty.
      * intros k _. apply lookup_empty.
  - intros fm fs. cbv zeta. unfold LoadQuestions, decoded_questions.
    set (lines := ReadInformationFromFile fs (questions_file_path fm)).
    rewrite LoadQuestions_lines_fold.
    rewrite (length_filter_omap parse_question_line question_line_ok lines
               parse_question_line_ok).
    split.
    + pose proof (load_size_le parse_question_line Question.id lines ∅) as H.
      rewrite map_size_empty in H. exact H.
    + intros Hnd.
      rewrite (load_size parse_question_line Question.id lines ∅ Hnd).
      * by rewrite map_size_empty.
      * intros k _. apply lookup_empty.
Qed.

(** The accounts file of the tests with a five-field line and a line with a
    non-numeric id added: three records are loaded, as from the three
    well-formed lines alone. *)
Lemma C7_load_skips_malformed_witness :
  let fs :=
    mkFS {[ "users.txt" :=
              write_lines
                ([ "1,Admin User,admin123,admin,admin@test.com,1,0";
                   "2,Regular User,user123,user1" ] ++
                 [ "2,Regular User,user123,user1,user1@test.com,1,1";
                   "x3,No Anon User,pass123,user2,user2@test.com,0,1";
                   "3,No Anon User,pass123,user2,user2@test.com,0,1" ]) ]}
         true in
  LoadUsers_lines
    ([ "1,Admin User,admin123,admin,admin@test.com,1,0" ] ++
     "2,Regular User,user123,user1" ::
     [ "2,Regular User,user123,user1,user1@test.com,1,1";
       "x3,No Anon User,pass123,user2,user2@test.com,0,1";
       "3,No Anon User,pass123,user2,user2@test.com,0,1" ])
  = LoadUsers_lines
      ([ "1,Admin User,admin123,admin,admin@test.com,1,0" ] ++
       [ "2,Regular User,user123,user1,user1@test.com,1,1";
         "x3,No Anon User,pass123,user2,user2@test.com,0,1";
         "3,No Anon User,pass123,user2,user2@test.com,0,1" ])
  /\ size (LoadUsers FileManager.default fs)
     = length (filter (fun line => user_line_ok line = true)
                 (ReadInformationFromFile fs "users.txt"))
  /\ size (LoadUsers FileManager.default fs) = 3%nat.
Proof.
  destruct C7_load_skips_malformed as (Hskip & _ & Hcount & _).
  split; [apply Hskip; reflexivity|].
  split; [|reflexivity].
  apply Hcount. vm_compute.
  repeat (apply NoDup_cons; split;
          [intros Hin; repeat (apply elem_of_cons in Hin as [Hin|Hin]; [discriminate|]);
           by apply elem_of_nil in Hin|]).
  apply NoDup_nil. exact I.
Defined.

(** C10. When the file holds several well-formed lines with the same id,
    the collection loaded from it has, under that id, the record decoded
    from the first of them, whatever the later lines say; and every loaded
    collection has its records under their own ids, one record per id.
    This holds for [LoadUsers] and for [LoadQuestions], on every file. *)
Theorem C10_first_line_wins (fm : FileManager.t) (fs : FileSystem) :
  (forall before line after,
     ReadInformationFromFile fs (users_file_path fm) = (before ++ line :: after)%list ->
     user_line_ok line = true ->
     exists u,
       parse_user_line line = Some u
       /\ ((forall u', u' ∈ decoded_users before -> User.id u' <> User.id u) ->
           LoadUsers fm fs !! User.id u = Some u))
  /\
  (forall before line after,
     ReadInformationFromFile fs (questions_file_path fm)
       = (before ++ line :: after)%list ->
     question_line_ok line = true ->
     exists q,
       parse_question_line line = Some q
       /\ ((forall q', q' ∈ decoded_questions before -> Question.id q' <> Question.id q) ->
           LoadQuestions fm fs !! Question.id q = Some q))
  /\
  ((forall k u, LoadUsers fm fs !! k = Some u -> User.id u = k)
   /\ NoDup (User.id <$> (snd <$> map_to_list (LoadUsers fm fs))))
  /\
  ((forall k q, LoadQuestions fm fs !! k = Some q -> Question.id q = k)
   /\ NoDup (Question.id <$> (snd <$> map_to_list (LoadQuestions fm fs)))).
Proof.
  split; [|split; [|split]].
  - intros before line after Hread Hok.
    apply parse_user_line_ok in Hok as [u Hline]. exists u. split; [done|].
    intros Hbefore. unfold LoadUsers. rewrite Hread, LoadUsers_lines_fold.
    rewrite (load_lookup parse_user_line User.id), lookup_empty.
    rewrite omap_app. cbn [omap list_omap]. rewrite Hline.
    apply (head_filter_first (fun a => User.id a = User.id u)); [done|].
    intros b Hb. by apply Hbefore.
  - intros before line after Hread Hok.
    apply parse_question_line_ok in Hok as [q Hline]. exists q. split; [done|].
    intros Hbefore. unfold LoadQuestions. rewrite Hread, LoadQuestions_lines_fold.
    rewrite (load_lookup parse_question_line Question.id), lookup_empty.
    rewrite omap_app. cbn [omap list_omap]. rewrite Hline.
    apply (head_filter_first (fun a => Question.id a = Question.id q)); [done|].
    intros b Hb. by apply Hbefore.
  - assert (forall k u, LoadUsers fm fs !! k = Some u -> User.id u = k) as Hkey.
    { intros k u. unfold LoadUsers. rewrite LoadUsers_lines_fold.
      apply (load_key parse_user_line User.id). }
    split; [done|]. by apply loaded_ids_NoDup.
  - assert (forall k q, LoadQuestions fm fs !! k = Some q -> Question.id q = k)
      as Hkey.
    { intros k q. unfold LoadQuestions. rewrite LoadQuestions_lines_fold.
      apply (load_key parse_question_line Question.id). }
    split; [done|]. by apply loaded_ids_NoDup.
Qed.

(** The files of [duplicate_disk]: two well-formed account lines with id 1
    and two well-formed thread lines with id 1, a malformed line between
    them.  Account 1 is the admin of the first account line, entry 1 is the
    entry of the first thread line, and each collection holds one record. *)
Lemma C10_first_line_wins_witness :
  LoadUsers FileManager.default duplicate_disk !! 1 = Some test_admin
  /\ size (LoadUsers FileManager.default duplicate_disk) = 1%nat
  /\ LoadQuestions FileManager.default duplicate_disk !! 1
     = Some (Question.mk 1 (-1) 2 1 false "What is your favorite color?"
               "Blue is my favorite")
  /\ size (LoadQuestions FileManager.default duplicate_disk) = 1%nat.
Proof.
  destruct (C10_first_line_wins FileManager.default duplicate_disk)
    as (Husers & Hquestions & _ & _).
  split; [|split; [reflexivity|split; [|reflexivity]]].
  - destruct (Husers [ "bad line" ]
                "1,Admin User,admin123,admin,admin@test.com,1,0"
                [ "oops"; "1,Regular User,user123,user1,user1@test.com,0,1" ])
      as (u & Hu & Hload); [reflexivity|reflexivity|].
    vm_compute in Hu. injection Hu as <-. apply Hload.
    intros u' Hin. vm_compute in Hin. by apply elem_of_nil in Hin.
  - destruct (Hquestions []
                "1,-1,2,1,0,What is your favorite color?,Blue is my favorite"
                [ "junk"; "1,-1,1,2,1,How are you today?,I'm doing great thanks!" ])
      as (q & Hq & Hload); [reflexivity|reflexivity|].
    vm_compute in Hq. injection Hq as <-. apply Hload.
    intros q' Hin. by apply elem_of_nil in Hin.
Defined.

End Loading.

Section IdAllocation.

Lemma is_max_id_two {A} (a b : A) (i j : Z) :
  i < j -> is_max_id (<[j := b]> (<[i := a]> (∅ : gmap Z A))) j.
Proof.
  intros Hij. split.
  - rewrite lookup_insert_eq. eauto.
  - intros k [v Hk]. destruct (decide (j = k)) as [->|Hj]; [lia|].
    rewrite lookup_insert_ne in Hk by done.
    destruct (decide (i = k)) as [->|Hi]; [lia|].
    rewrite lookup_insert_ne in Hk by done. by rewrite lookup_empty in Hk.
Qed.

Lemma is_max_id_one {A} (a : A) (i : Z) (m : gmap Z A) :
  (forall k, m !! k = if decide (k = i) then Some a else None) -> is_max_id m i.
Proof.
  intros Hm. split.
  - rewrite Hm, decide_True by done. eauto.
  - intros k [v Hk]. rewrite Hm in Hk. destruct (decide (k = i)); [lia|done].
Qed.

Lemma AddUser_users um fs user :
  UserManager.users um !! User.id user = None ->
  UserManager.users (snd (fst (UserManager.AddUser um fs user)))
  = <[User.id user := user]> (UserManager.users um).
Proof.
  intros H. unfold UserManager.AddUser. rewrite H.
  by destruct (FileManager.SaveUsers _ _ _).
Qed.

Lemma DeleteUser_users um fs user_id :
  UserManager.users (snd (fst (UserManager.DeleteUser um fs user_id)))
  = delete user_id (UserManager.users um).
Proof.
  unfold UserManager.DeleteUser.
  destruct (UserManager.users um !! user_id) eqn:H.
  - by destruct (FileManager.SaveUsers _ _ _).
  - simpl. symmetry. by apply delete_id.
Qed.

(** C6. In each repository the next id is 1 when the collection is empty
    and one more than the largest id otherwise, for account ids that are
    non-negative and ids whose successor is still an [int].  Starting from
    an empty repository, after the ids 3 and 7 are added the next id is 8,
    and after 7 is removed it is 4.  Without the conditions on the ids, the
    account repository returns the wrapped successor of the larger of 0 and
    the largest id, and the thread repository that of the largest id. *)
Theorem C6_next_id :
  (forall um k,
     is_max_id (UserManager.users um) k ->
     UserManager.GetNextUserID um = int_wrap (Z.max 0 k + 1))
  /\
  (forall qm k,
     is_max_id (QuestionManager.questions qm) k ->
     QuestionManager.GetNextQuestionID qm = int_wrap (k + 1))
  /\
  (forall um : UserManager.t,
     (forall k, is_Some (UserManager.users um !! k) -> 0 <= k < INT_MAX) ->
     next_id_spec (UserManager.users um) (UserManager.GetNextUserID um))
  /\
  (forall qm : QuestionManager.t,
     (forall k, is_Some (QuestionManager.questions qm !! k) -> INT_MIN <= k < INT_MAX) ->
     next_id_spec (QuestionManager.questions qm) (QuestionManager.GetNextQuestionID qm))
  /\
  (forall fm fs u3 u7,
     User.id u3 = 3 -> User.id u7 = 7 ->
     let um0 := UserManager.mk ∅ fm in
     let r1 := UserManager.AddUser um0 fs u3 in
     let r2 := UserManager.AddUser (snd (fst r1)) (snd r1) u7 in
     let r3 := UserManager.DeleteUser (snd (fst r2)) (snd r2) 7 in
     UserManager.GetNextUserID um0 = 1
     /\ UserManager.GetNextUserID (snd (fst r2)) = 8
     /\ UserManager.GetNextUserID (snd (fst r3)) = 4)
  /\
  (forall um fm fs q3 q7 actor qm1 fs1 qm2 fs2 qm3 fs3,
     Question.id q3 = 3 -> Question.id q7 = 7 -> Question.parent_id q3 <> 7 ->
     let qm0 := QuestionManager.mk ∅ fm in
     QuestionManager.AddQuestion um qm0 fs q3 = (true, qm1, fs1) ->
     QuestionManager.AddQuestion um qm1 fs1 q7 = (true, qm2, fs2) ->
     QuestionManager.DeleteQuestion qm2 fs2 7 actor = (true, qm3, fs3) ->
     QuestionManager.GetNextQuestionID qm0 = 1
     /\ QuestionManager.GetNextQuestionID qm2 = 8
     /\ QuestionManager.GetNextQuestionID qm3 = 4).
Proof.
  split; [apply GetNextUserID_max|]. split; [apply GetNextQuestionID_max|].
  split; [|split; [|split]].
  - intros um Hids. unfold next_id_spec.
    destruct (decide (UserManager.users um = ∅)) as [He|Hne].
    + left. split; [done|]. by apply GetNextUserID_empty.
    + right. destruct (max_id_exists _ Hne) as [k Hk]. exists k. split; [done|].
      rewrite (GetNextUserID_max um k Hk).
      destruct (Hids k (proj1 Hk)) as [H0 Hmax].
      rewrite Z.max_r by done. apply int_wrap_id.
      unfold is_int, INT_MIN, INT_MAX in *. lia.
  - intros qm Hids. unfold next_id_spec.
    destruct (decide (QuestionManager.questions qm = ∅)) as [He|Hne].
    + left. split; [done|]. by apply GetNextQuestionID_empty.
    + right. destruct (max_id_exists _ Hne) as [k Hk]. exists k. split; [done|].
      rewrite (GetNextQuestionID_max qm k Hk).
      destruct (Hids k (proj1 Hk)) as [H0 Hmax].
      apply int_wrap_id. unfold is_int, INT_MIN, INT_MAX in *. lia.
  - intros fm fs u3 u7 H3 H7. cbv zeta.
    split; [by apply GetNextUserID_empty|].
    assert (UserManager.users (snd (fst (UserManager.AddUser (UserManager.mk ∅ fm) fs u3)))
            = <[3 := u3]> ∅) as E1.
    { rewrite AddUser_users; simpl; [by rewrite H3|apply lookup_empty]. }
    set (r1 := UserManager.AddUser _ fs u3) in *.
    assert (UserManager.users (snd (fst (UserManager.AddUser (snd (fst r1)) (snd r1) u7)))
            = <[7 := u7]> (<[3 := u3]> ∅)) as E2.
    { rewrite AddUser_users; rewrite E1, H7; [done|].
      rewrite lookup_insert_ne by lia. apply lookup_empty. }
    set (r2 := UserManager.AddUser _ (snd r1) u7) in *.
    split.
    + rewrite (GetNextUserID_max _ 7); [reflexivity|].
      rewrite E2. apply is_max_id_two. lia.
    + rewrite (GetNextUserID_max _ 3); [reflexivity|].
      rewrite DeleteUser_users, E2. apply (is_max_id_one u3).
      intros k. destruct (decide (k = 3)) as [->|H3'].
      * rewrite lookup_delete_ne, lookup_insert_ne, lookup_insert_eq by lia. done.
      * destruct (decide (k = 7)) as [->|H7'].
        -- apply lookup_delete_eq.
        -- rewrite lookup_delete_ne, !lookup_insert_ne by lia. apply lookup_empty.
  - intros um fm fs q3 q7 actor qm1 fs1 qm2 fs2 qm3 fs3 H3 H7 Hp. cbv zeta.
    intros A1 A2 D. split; [by apply GetNextQuestionID_empty|].
    assert (QuestionManager.questions qm1 = <[3 := q3]> ∅) as E1.
    { destruct (AddQuestion_cases um (QuestionManager.mk ∅ fm) fs q3) as [F|[_ E]];
        rewrite A1 in *; [congruence|]. simpl in E. by rewrite E, H3. }
    assert (QuestionManager.questions qm2 = <[7 := q7]> (<[3 := q3]> ∅)) as E2.
    { destruct (AddQuestion_cases um qm1 fs1 q7) as [F|[_ E]];
        rewrite A2 in *; [congruence|]. simpl in E. by rewrite E, E1, H7. }
    split.
    + rewrite (GetNextQuestionID_max _ 7); [reflexivity|].
      rewrite E2. apply is_max_id_two. lia.
    + assert (QuestionManager.questions qm2 !! 7 = Some q7) as Hq7
        by (rewrite E2; apply lookup_insert_eq).
      destruct (QuestionManager.denied q7 actor) eqn:Hd.
      { rewrite (DeleteQuestion_denied _ _ _ _ _ Hq7 Hd) in D. congruence. }
      destruct (DeleteQuestion_allowed _ fs2 _ _ _ Hq7 Hd) as (questions' & E & Hl).
      rewrite E in D. injection D as _ <- _.
      rewrite (GetNextQuestionID_max _ 3); [reflexivity|].
      apply (is_max_id_one q3). simpl. intros k. rewrite Hl, E2.
      destruct (decide (k = 3)) as [->|H3'].
      * rewrite lookup_insert_ne, lookup_insert_eq by lia.
        rewrite decide_False by lia. by rewrite decide_False.
      * destruct (decide (k = 7)) as [->|H7'].
        -- by rewrite lookup_insert_eq.
        -- by rewrite !lookup_insert_ne, lookup_empty by lia.
Qed.

(** The ids of the test system are 1, 2, 3 in both repositories, so the
    next id is 4 in each; and the run on the ids 3 and 7, on accounts and on
    thread entries addressed to account 1 and deleted by their author. *)
Lemma C6_next_id_witness :
  next_id_spec (UserManager.users (AskMeSystem.user_manager test_system))
    (UserManager.GetNextUserID (AskMeSystem.user_manager test_system))
  /\ next_id_spec (QuestionManager.questions (AskMeSystem.question_manager test_system))
       (QuestionManager.GetNextQuestionID (AskMeSystem.question_manager test_system))
  /\ UserManager.GetNextUserID (AskMeSystem.user_manager test_system) = 4
  /\ QuestionManager.GetNextQuestionID (AskMeSystem.question_manager test_system) = 4
  /\ (let um0 := UserManager.mk ∅ FileManager.default in
      let u3 := User.mk 3 "C" "pw3" "c" "c@test.com" true User.REGULAR_USER in
      let u7 := User.mk 7 "G" "pw7" "g" "g@test.com" false User.REGULAR_USER in
      let r1 := UserManager.AddUser um0 test_disk u3 in
      let r2 := UserManager.AddUser (snd (fst r1)) (snd r1) u7 in
      let r3 := UserManager.DeleteUser (snd (fst r2)) (snd r2) 7 in
      UserManager.GetNextUserID um0 = 1
      /\ UserManager.GetNextUserID (snd (fst r2)) = 8
      /\ UserManager.GetNextUserID (snd (fst r3)) = 4)
  /\ (let um := AskMeSystem.user_manager test_system in
      let qm0 := QuestionManager.mk ∅ FileManager.default in
      let q3 := Question.mk 3 (-1) 2 1 false "Q3" "" in
      let q7 := Question.mk 7 3 2 1 true "Q7" "" in
      let r1 := QuestionManager.AddQuestion um qm0 test_disk q3 in
      let r2 := QuestionManager.AddQuestion um (snd (fst r1)) (snd r1) q7 in
      let r3 := QuestionManager.DeleteQuestion (snd (fst r2)) (snd r2) 7 test_regular in
      QuestionManager.GetNextQuestionID qm0 = 1
      /\ QuestionManager.GetNextQuestionID (snd (fst r2)) = 8
      /\ QuestionManager.GetNextQuestionID (snd (fst r3)) = 4).
Proof.
  destruct C6_next_id as (_ & _ & Husers & Hquestions & Hrun_users & Hrun_questions).
  split; [|split; [|split; [reflexivity|split; [reflexivity|split]]]].
  - apply Husers. intros k Hk.
    apply (elem_of_keys (UserManager.users (AskMeSystem.user_manager test_system)))
      in Hk as Hin.
    vm_compute in Hin. unfold INT_MAX.
    repeat (apply elem_of_cons in Hin as [->|Hin]; [lia|]).
    by apply elem_of_nil in Hin.
  - apply Hquestions. intros k Hk.
    apply (elem_of_keys
             (QuestionManager.questions (AskMeSystem.question_manager test_system)))
      in Hk as Hin.
    vm_compute in Hin. unfold INT_MIN, INT_MAX.
    repeat (apply elem_of_cons in Hin as [->|Hin]; [lia|]).
    by apply elem_of_nil in Hin.
  - apply (Hrun_users FileManager.default test_disk
             (User.mk 3 "C" "pw3" "c" "c@test.com" true User.REGULAR_USER)
             (User.mk 7 "G" "pw7" "g" "g@test.com" false User.REGULAR_USER));
      reflexivity.
  - cbv zeta.
    set (um := AskMeSystem.user_manager test_system).
    set (q3 := Question.mk 3 (-1) 2 1 false "Q3" "").
    set (q7 := Question.mk 7 3 2 1 true "Q7" "").
    set (r1 := QuestionManager.AddQuestion um
                 (QuestionManager.mk ∅ FileManager.default) test_disk q3).
    set (r2 := QuestionManager.AddQuestion um (snd (fst r1)) (snd r1) q7).
    set (r3 := QuestionManager.DeleteQuestion (snd (fst r2)) (snd r2) 7 test_regular).
    apply (Hrun_questions um FileManager.default test_disk q3 q7 test_regular
             (snd (fst r1)) (snd r1) (snd (fst r2)) (snd r2)
             (snd (fst r3)) (snd r3)).
    + reflexivity.
    + reflexivity.
    + simpl. lia.
    + vm_compute. reflexivity.
    + vm_compute. reflexivity.
    + vm_compute. reflexivity.
Defined.

End IdAllocation.

Section CreateAndList.
Import QuestionManager.

(** C3 as stated fails: [AddQuestion] stores an entry whose parent id, 99,
    is neither the sentinel nor the id of an existing entry. *)
Lemma C3_counterexample :
  let qm := AskMeSystem.question_manager test_system in
  let question := Question.mk 4 99 1 2 false "Thread question" "" in
  Question.parent_id question = 99
  /\ questions qm !! 99 = None
  /\ fst (fst (AddQuestion (AskMeSystem.user_manager test_system) qm test_disk question))
     = true
  /\ questions
       (snd (fst (AddQuestion (AskMeSystem.user_manager test_system) qm test_disk
                    question))) !! 4
     = Some question.
Proof. vm_compute. repeat split. Qed.

(** C3, amended. The parent id is validated by the interactive flow, not by
    [AddQuestion]: an entry that [AskQuestion] adds to the collection has the
    sentinel parent id -1 or the id of an entry that existed before the call;
    the result of [AddQuestion] is the same whatever the parent id is. *)
Theorem C3_parent_checked_by_AskQuestion
    (um : UserManager.t) (qm : QuestionManager.t) (fs : FileSystem) :
  (forall current_user input k q,
     questions (fst (AskQuestion um qm fs current_user input)) !! k = Some q ->
     questions qm !! k = None ->
     Question.parent_id q = -1 \/ is_Some (questions qm !! Question.parent_id q))
  /\
  (forall q p,
     fst (fst (AddQuestion um qm fs
                 (Question.mk (Question.id q) p (Question.from_user_id q)
                    (Question.to_user_id q) (Question.is_anonymous q)
                    (Question.text q) (Question.answer q))))
     = fst (fst (AddQuestion um qm fs q))).
Proof.
  split.
  - intros current_user input k q. apply AskQuestion_parent.
  - intros q p. apply (AddQuestion_ignores_parent um qm fs q p).
Qed.

(** The regular test user asks account 1 a follow-up of the absent entry 99:
    the entry is stored under the next id, 4, as a top-level entry. *)
Lemma C3_parent_checked_by_AskQuestion_witness :
  let um := AskMeSystem.user_manager test_system in
  let qm := AskMeSystem.question_manager test_system in
  let input := mkAskInput 1 "y"%char (Some 99) "Is it?" "n"%char in
  questions (fst (AskQuestion um qm test_disk test_regular input)) !! 4
    = Some (Question.mk 4 (-1) 2 1 false "Is it?" "")
  /\ (Question.parent_id (Question.mk 4 (-1) 2 1 false "Is it?" "") = -1
      \/ is_Some (questions qm !! Question.parent_id
                    (Question.mk 4 (-1) 2 1 false "Is it?" ""))).
Proof.
  split; [reflexivity|].
  apply (proj1 (C3_parent_checked_by_AskQuestion
                  (AskMeSystem.user_manager test_system)
                  (AskMeSystem.question_manager test_system) test_disk)
           test_regular (mkAskInput 1 "y"%char (Some 99) "Is it?" "n"%char) 4);
    reflexivity.
Defined.

(** C4. An anonymous entry addressed to an existing account that does not
    allow anonymous questions is refused: [AddQuestion] returns [false], and
    the collection and the files are what they were. *)
Theorem C4_anonymous_gate
    (um : UserManager.t) (qm : QuestionManager.t) (fs : FileSystem)
    (e : Question.t) (recipient : User.t) :
  UserManager.GetUserByID um (Question.to_user_id e) = Some recipient ->
  User.allow_anonymous_questions recipient = false ->
  Question.is_anonymous e = true ->
  AddQuestion um qm fs e = (false, qm, fs).
Proof.
  intros Hto Hallow Hanon. unfold AddQuestion.
  destruct (questions qm !! Question.id e); [done|].
  by rewrite Hto, Hanon, Hallow.
Qed.

(** The blocked entry of the black-box tests: an anonymous question to
    account 3, which does not accept them. *)
Lemma C4_anonymous_gate_witness :
  AddQuestion (AskMeSystem.user_manager test_system)
    (AskMeSystem.question_manager test_system) test_disk
    (Question.mk 6 (-1) 1 3 true "Should be blocked" "")
  = (false, AskMeSystem.question_manager test_system, test_disk).
Proof.
  apply (C4_anonymous_gate _ _ _ _
           (User.mk 3 "No Anon User" "pass123" "user2" "user2@test.com" false
              User.REGULAR_USER)); reflexivity.
Defined.

(** C8 as stated fails: after the cascade that leaves reply 2 behind, entry 2
    still has parent id 1, but listing the replies of 1 reports that the
    parent does not exist and shows nothing. *)
Lemma C8_counterexample :
  let qm := snd (fst (DeleteQuestion cascade_manager test_disk 1 test_regular)) in
  questions qm !! 2 = Some (Question.mk 2 1 3 1 false "R2" "")
  /\ questions qm !! 1 = None
  /\ GetThreadQuestions qm 1 = ParentMissing.
Proof. vm_compute. repeat split. Qed.

(** C8, amended. For an id [p] other than -1: when an entry with id [p]
    exists, the listing shows exactly the entries whose parent id is [p],
    each once; when no entry with id [p] exists, the listing is refused and
    shows nothing.  The id -1 cancels the operation. *)
Theorem C8_thread_listing (qm : QuestionManager.t) (p : Z) :
  (p <> -1 ->
   is_Some (questions qm !! p) ->
   exists printed,
     GetThreadQuestions qm p = Threads printed
     /\ Permutation printed
          (snd <$> map_to_list
             (filter (fun pair => Question.parent_id (snd pair) = p) (questions qm)))
     /\ forall q, q ∈ printed <->
          exists k, questions qm !! k = Some q /\ Question.parent_id q = p)
  /\ (p <> -1 -> questions qm !! p = None -> GetThreadQuestions qm p = ParentMissing)
  /\ (p = -1 -> GetThreadQuestions qm p = Canceled).
Proof.
  split; [apply GetThreadQuestions_present|].
  split; [apply GetThreadQuestions_absent|].
  by intros ->.
Qed.

(** On the cascade scenario the replies of entry 1 are entries 2 and 3. *)
Lemma C8_thread_listing_witness :
  exists printed,
    GetThreadQuestions cascade_manager 1 = Threads printed
    /\ Question.mk 2 1 3 1 false "R2" "" ∈ printed
    /\ Question.mk 3 1 2 1 false "R3" "" ∈ printed
    /\ length printed = 2%nat.
Proof.
  destruct (proj1 (C8_thread_listing cascade_manager 1)) as (printed & E & Hperm & Hin).
  - lia.
  - exists (Question.mk 1 (-1) 2 1 false "Q1" ""). reflexivity.
  - exists printed. split; [exact E|].
    split; [apply Hin; exists 2; split; reflexivity|].
    split; [apply Hin; exists 3; split; reflexivity|].
    rewrite (Permutation_length Hperm). reflexivity.
Defined.

End CreateAndList.

Section AccountRemoval.

(** C9. Removing an account leaves the thread collection as it was: the
    question manager is unchanged, whoever wrote or received its entries, and
    so is the threads file, as long as it is not the accounts file. *)
Theorem C9_DeleteUser_keeps_threads (s : AskMeSystem.t) (id : Z) :
  let s' := snd (AskMeSystem.DeleteUser s id) in
  let threads_path :=
    FileManager.questions_file_path
      (QuestionManager.file_manager (AskMeSystem.question_manager s)) in
  AskMeSystem.question_manager s' = AskMeSystem.question_manager s
  /\ (FileManager.users_file_path
        (UserManager.file_manager (AskMeSystem.user_manager s)) <> threads_path ->
      files (AskMeSystem.disk s') !! threads_path
        = files (AskMeSystem.disk s) !! threads_path
      /\ QuestionManager.create_from
           (QuestionManager.file_manager (AskMeSystem.question_manager s))
           (AskMeSystem.disk s')
         = QuestionManager.create_from
             (QuestionManager.file_manager (AskMeSystem.question_manager s))
             (AskMeSystem.disk s)).
Proof.
  simpl. unfold AskMeSystem.DeleteUser.
  pose proof (DeleteUser_other_file (AskMeSystem.user_manager s) (AskMeSystem.disk s) id)
    as Hfile.
  destruct (UserManager.DeleteUser _ _ _) as [[ok um'] fs']. simpl in *.
  split; [done|]. intros Hne.
  assert (files fs' !! FileManager.questions_file_path
            (QuestionManager.file_manager (AskMeSystem.question_manager s))
          = files (AskMeSystem.disk s) !! FileManager.questions_file_path
              (QuestionManager.file_manager (AskMeSystem.question_manager s))) as E
    by (apply Hfile; congruence).
  split; [done|].
  unfold QuestionManager.create_from, FileManager.LoadQuestions,
    FileManager.ReadInformationFromFile.
  by rewrite E.
Qed.

(** Account 2 wrote entry 1 and received entries 2 and 3 of the test
    system; after its removal the three entries are still there, in memory
    and in the file. *)
Lemma C9_DeleteUser_keeps_threads_witness :
  let s' := snd (AskMeSystem.DeleteUser test_system 2) in
  UserManager.users (AskMeSystem.user_manager s') !! 2 = None
  /\ size (QuestionManager.questions (AskMeSystem.question_manager s')) = 3%nat
  /\ AskMeSystem.question_manager s' = AskMeSystem.question_manager test_system
  /\ files (AskMeSystem.disk s') !! "questions.txt"
     = files (AskMeSystem.disk test_system) !! "questions.txt".
Proof.
  split; [reflexivity|]. split; [reflexivity|].
  destruct (C9_DeleteUser_keeps_threads test_system 2) as [Hqm Hdisk].
  split; [exact Hqm|].
  apply Hdisk. discriminate.
Defined.

End AccountRemoval.



Section CascadeDelete.
  Import QuestionManager.

(** C2. Deleting an entry [P], top-level or not, as its author removes [P]
    and every direct reply that the actor wrote, or every direct reply when
    the actor is an admin; a direct reply written by someone else survives
    when the actor is not an admin; entries that are neither [P] nor a direct
    reply stay, nothing is added, and the file ends up written from the final
    collection.  Deleting an id that is absent fails and changes nothing. *)
Theorem C2_cascade_delete (qm : QuestionManager.t) (fs : FileSystem) (actor : User.t) :
  (forall question_id,
     questions qm !! question_id = None ->
     DeleteQuestion qm fs question_id actor = (false, qm, fs))
  /\
  (forall pid P,
     questions qm !! pid = Some P ->
     Question.from_user_id P = User.id actor ->
     exists questions',
       DeleteQuestion qm fs pid actor =
         (writable fs, mk questions' (file_manager qm),
          snd (FileManager.SaveQuestions (file_manager qm) fs questions'))
       /\ questions' !! pid = None
       /\ (forall r R,
             questions qm !! r = Some R -> Question.parent_id R = pid ->
             Question.from_user_id R = User.id actor \/ User.role actor = User.ADMIN ->
             questions' !! r = None)
       /\ (forall r R,
             questions qm !! r = Some R -> Question.parent_id R = pid ->
             Question.from_user_id R <> User.id actor ->
             User.role actor = User.REGULAR_USER ->
             questions' !! r = Some R)
       /\ (forall r R,
             questions qm !! r = Some R -> r <> pid ->
             Question.parent_id R <> pid ->
             questions' !! r = Some R)
       /\ (forall r R, questions' !! r = Some R -> questions qm !! r = Some R)).
Proof.
  split; [intros question_id H; by apply DeleteQuestion_absent|].
  intros pid P HP Hauthor.
  assert (denied P actor = false) as HD.
  { unfold denied. by rewrite Hauthor, Z.eqb_refl. }
  destruct (DeleteQuestion_allowed qm fs pid actor P HP HD) as (questions' & -> & Hl).
  exists questions'. split; [done|].
  repeat split.
  - rewrite Hl, HP. by rewrite decide_True.
  - intros r R HR Hparent Hown. rewrite Hl, HR.
    destruct (decide (r = pid)); [done|]. rewrite decide_True by done.
    assert (denied R actor = false) as ->; [|done].
    unfold denied. destruct Hown as [-> | ->].
    + by rewrite Z.eqb_refl.
    + apply andb_false_r.
  - intros r R HR Hparent Hother Hrole. rewrite Hl, HR.
    destruct (decide (r = pid)) as [->|_]; [congruence|].
    rewrite decide_True by done.
    assert (denied R actor = true) as ->; [|done].
    unfold denied. rewrite Hrole.
    destruct (Z.eqb_spec (Question.from_user_id R) (User.id actor)); done.
  - intros r R HR Hr Hparent. rewrite Hl, HR.
    rewrite decide_False by done. by rewrite decide_False.
  - intros r R. rewrite Hl. destruct (questions qm !! r) as [R'|]; [|done].
    destruct (decide (r = pid)); [done|].
    destruct (decide (Question.parent_id R' = pid)); [|done].
    destruct (denied R' actor); done.
Qed.

(** The scenario of the cascade on entries 1, 2, 3: account 2, a regular
    user, deletes its entry 1; its reply 3 goes with it, the reply 2 of
    account 3 survives, and a second deletion of 1 fails. *)
Lemma C2_cascade_delete_witness :
  exists questions',
    DeleteQuestion cascade_manager test_disk 1 test_regular =
      (true, mk questions' FileManager.default,
       snd (FileManager.SaveQuestions FileManager.default test_disk questions'))
    /\ questions' !! 1 = None
    /\ questions' !! 3 = None
    /\ questions' !! 2 = Some (Question.mk 2 1 3 1 false "R2" "")
    /\ questions' !! 4 = Some (Question.mk 4 (-1) 3 1 false "Q4" "")
    /\ DeleteQuestion (mk questions' FileManager.default) test_disk 1 test_regular
       = (false, mk questions' FileManager.default, test_disk).
Proof.
  destruct (C2_cascade_delete cascade_manager test_disk test_regular) as [_ H].
  destruct (H 1 (Question.mk 1 (-1) 2 1 false "Q1" ""))
    as (questions' & E & H1 & Hown & Hother & Hrest & _);
    [reflexivity | reflexivity |].
  exists questions'. split; [exact E|]. split; [exact H1|].
  split; [apply (Hown 3 (Question.mk 3 1 2 1 false "R3" ""));
          [reflexivity | reflexivity | left; reflexivity]|].
  split; [apply (Hother 2 (Question.mk 2 1 3 1 false "R2" ""));
          [reflexivity | reflexivity | simpl; lia | reflexivity]|].
  split; [apply (Hrest 4 (Question.mk 4 (-1) 3 1 false "Q4" ""));
          [reflexivity | lia | simpl; lia]|].
  destruct (C2_cascade_delete (mk questions' FileManager.default) test_disk test_regular)
    as [Habsent _].
  apply Habsent. exact H1.
Defined.

End CascadeDelete.

(** * Further properties of the code *)

Section StoreProperties.
Import FileManager.

Lemma map_forall_list {A} (m : gmap Z A) (P : Z -> A -> Prop) :
  Forall (fun p => P (fst p) (snd p)) (map_to_list m) ->
  forall k a, m !! k = Some a -> P k a.
Proof.
  intros Hall k a Hk. apply elem_of_map_to_list in Hk.
  by apply (proj1 (Forall_forall _ _) Hall (k, a)).
Qed.

(** Writing lines that hold no newline and reading the file again gives
    the non-empty ones of these lines, in order, and leaves every other file
    as it reads; on a disk that cannot be written the call returns [false]
    and changes nothing. *)
Theorem StoreInformationOnFile_then_read
    (fs : FileSystem) (file_path : string) (lines : list string) :
  Forall (fun line => contains newline line = false) lines ->
  (writable fs = true ->
   fst (StoreInformationOnFile fs file_path lines) = true
   /\ ReadInformationFromFile (snd (StoreInformationOnFile fs file_path lines)) file_path
      = filter (fun line => line <> EmptyString) lines
   /\ forall other, other <> file_path ->
        ReadInformationFromFile (snd (StoreInformationOnFile fs file_path lines)) other
        = ReadInformationFromFile fs other)
  /\ (writable fs = false -> StoreInformationOnFile fs file_path lines = (false, fs)).
Proof.
  intros Hlines. unfold StoreInformationOnFile. split; intros Hw; rewrite Hw; [|done].
  split; [done|]. unfold ReadInformationFromFile. cbn [snd files]. split.
  - rewrite lookup_insert_eq. by rewrite getline_loop_write_lines.
  - intros other Hne. by rewrite lookup_insert_ne.
Qed.

(** The write test of the black-box tests: three lines, and an empty one
    added, which is not read back. *)
Lemma StoreInformationOnFile_then_read_witness :
  fst (StoreInformationOnFile test_disk "test_write.txt" ["line1"; "line2"; ""; "line3"])
    = true
  /\ ReadInformationFromFile
       (snd (StoreInformationOnFile test_disk "test_write.txt"
               ["line1"; "line2"; ""; "line3"])) "test_write.txt"
     = ["line1"; "line2"; "line3"]
  /\ ReadInformationFromFile
       (snd (StoreInformationOnFile test_disk "test_write.txt"
               ["line1"; "line2"; ""; "line3"])) "users.txt"
     = test_users_lines.
Proof.
  destruct (StoreInformationOnFile_then_read test_disk "test_write.txt"
              ["line1"; "line2"; ""; "line3"]) as [Hok _].
  - repeat constructor.
  - destruct Hok as (H1 & H2 & H3); [reflexivity|].
    split; [exact H1|]. split; [exact H2|].
    rewrite H3 by discriminate. reflexivity.
Defined.

(** A file that does not exist reads as no line at all, and whatever the
    content of a file, no line read from it is empty or holds a newline. *)
Theorem ReadInformationFromFile_lines (fs : FileSystem) (file_path : string) :
  (files fs !! file_path = None -> ReadInformationFromFile fs file_path = [])
  /\ forall line, line ∈ ReadInformationFromFile fs file_path ->
       line <> EmptyString /\ contains newline line = false.
Proof.
  unfold ReadInformationFromFile. split; [by intros ->|].
  intros line. destruct (files fs !! file_path) as [content|].
  - intros Hin. apply getline_loop_lines in Hin as [Hin|Hin]; [|done|done].
    by apply elem_of_nil in Hin.
  - intros Hin. by apply elem_of_nil in Hin.
Qed.

Lemma ReadInformationFromFile_lines_witness :
  ReadInformationFromFile test_disk "nonexistent.txt" = []
  /\ ("3,1,1,2,0,Follow up question,This is a follow up" <> EmptyString
      /\ contains newline "3,1,1,2,0,Follow up question,This is a follow up" = false).
Proof.
  destruct (ReadInformationFromFile_lines test_disk "nonexistent.txt") as [Hnone _].
  split; [apply Hnone; reflexivity|].
  destruct (ReadInformationFromFile_lines test_disk "questions.txt") as [_ Hlines].
  apply Hlines. vm_compute. do 2 right. left.
Defined.

(** Saving a collection of thread entries and loading the file again gives
    the collection back, when the disk can be written and every entry sits
    under its own id, has [int] ids and a text and an answer without double
    quote or newline. *)
Theorem SaveQuestions_then_LoadQuestions
    (fm : FileManager.t) (fs : FileSystem) (questions : gmap Z Question.t) :
  writable fs = true ->
  keyed_questions questions ->
  (forall k q, questions !! k = Some q -> storable_question q) ->
  fst (SaveQuestions fm fs questions) = true
  /\ LoadQuestions fm (snd (SaveQuestions fm fs questions)) = questions.
Proof.
  intros Hw Hkey Hst. split.
  - by rewrite SaveQuestions_result.
  - by apply save_load_questions_lemma.
Qed.

Lemma SaveQuestions_then_LoadQuestions_witness :
  fst (SaveQuestions FileManager.default (mkFS ∅ true) cascade_questions) = true
  /\ LoadQuestions FileManager.default
       (snd (SaveQuestions FileManager.default (mkFS ∅ true) cascade_questions))
     = cascade_questions.
Proof.
  apply SaveQuestions_then_LoadQuestions; [reflexivity| |].
  - unfold keyed_questions.
    apply (map_forall_list cascade_questions (fun k q => Question.id q = k)).
    vm_compute. repeat constructor.
  - apply (map_forall_list cascade_questions (fun _ q => storable_question q)).
    let l := eval vm_compute in (map_to_list cascade_questions) in
    change (map_to_list cascade_questions) with l.
    repeat constructor; cbn; unfold INT_MIN, INT_MAX; lia.
Defined.

(** The same for accounts: the four text fields may hold no comma, no
    double quote and no newline. *)
Theorem SaveUsers_then_LoadUsers
    (fm : FileManager.t) (fs : FileSystem) (users : gmap Z User.t) :
  writable fs = true ->
  keyed_users users ->
  (forall k u, users !! k = Some u -> storable_user u) ->
  fst (SaveUsers fm fs users) = true
  /\ LoadUsers fm (snd (SaveUsers fm fs users)) = users.
Proof.
  intros Hw Hkey Hst. split.
  - by rewrite SaveUsers_result.
  - by apply save_load_users_lemma.
Qed.

Lemma SaveUsers_then_LoadUsers_witness :
  fst (SaveUsers FileManager.default (mkFS ∅ true)
         (LoadUsers FileManager.default test_disk)) = true
  /\ LoadUsers FileManager.default
       (snd (SaveUsers FileManager.default (mkFS ∅ true)
               (LoadUsers FileManager.default test_disk)))
     = LoadUsers FileManager.default test_disk.
Proof.
  apply SaveUsers_then_LoadUsers; [reflexivity| |].
  - unfold keyed_users.
    apply (map_forall_list (LoadUsers FileManager.default test_disk)
             (fun k u => User.id u = k)).
    vm_compute. repeat constructor.
  - apply (map_forall_list (LoadUsers FileManager.default test_disk)
             (fun _ u => storable_user u)).
    let l := eval vm_compute in (map_to_list (LoadUsers FileManager.default test_disk)) in
    change (map_to_list (LoadUsers FileManager.default test_disk)) with l.
    repeat constructor; cbn; unfold INT_MIN, INT_MAX; lia.
Defined.

(** The tokenizer always returns at least one token; on a line without
    double quotes it only cuts at the delimiter, so the tokens joined with
    the delimiter are the line; and fields without comma or double quote,
    joined with commas, are split into these fields again. *)
Theorem split_join (delimiter : ascii) :
  (forall str, split str delimiter <> [])
  /\ (forall str,
        contains dquote str = false ->
        join delimiter (split str delimiter) = str)
  /\ (forall tokens,
        tokens <> [] -> Forall plain tokens ->
        split (join comma tokens) comma = tokens).
Proof.
  split; [|split].
  - intros str. apply split_loop_nonempty.
  - intros str Hstr. unfold split. by rewrite join_split_loop.
  - intros tokens Hne Hplain. unfold split. by rewrite split_loop_join.
Qed.

Lemma split_join_witness :
  join comma (split "1,Admin User,,admin@test.com" comma) = "1,Admin User,,admin@test.com"
  /\ split (join comma ["3"; ""; "No Anon User"]) comma = ["3"; ""; "No Anon User"].
Proof.
  destruct (split_join comma) as (_ & Hjoin & Hsplit).
  split.
  - apply Hjoin. reflexivity.
  - apply Hsplit; [discriminate|]. repeat constructor.
Defined.

End StoreProperties.

Section AccountProperties.
Import UserManager.

(** An account added under an unused id can be fetched and authenticates
    with exactly its password; the other accounts are as before; and
    removing it again gives back the collection there was, in which the id
    no longer authenticates. *)
Theorem AddUser_then_use (um : UserManager.t) (fs : FileSystem) (user : User.t) :
  users um !! User.id user = None ->
  let r1 := AddUser um fs user in
  let um1 := snd (fst r1) in
  let r2 := DeleteUser um1 (snd r1) (User.id user) in
  let um2 := snd (fst r2) in
  GetUserByID um1 (User.id user) = Some user
  /\ (forall password, Authenticate um1 (User.id user) password = true
                       <-> password = User.password user)
  /\ (forall k, k <> User.id user -> users um1 !! k = users um !! k)
  /\ size (users um1) = S (size (users um))
  /\ users um2 = users um
  /\ GetUserByID um2 (User.id user) = None
  /\ (forall password, Authenticate um2 (User.id user) password = false).
Proof.
  intros Hfresh. cbv zeta. rewrite (AddUser_fresh um fs user Hfresh). cbn [fst snd].
  set (um1 := mk (<[User.id user := user]> (users um)) (file_manager um)).
  assert (users um1 !! User.id user = Some user) as H1 by apply lookup_insert_eq.
  rewrite (DeleteUser_present um1 _ (User.id user)) by eauto. cbn [fst snd users].
  assert (delete (User.id user) (users um1) = users um) as Hback.
  { unfold um1. cbn [users]. rewrite delete_insert_eq. by apply delete_id. }
  split; [exact H1|]. split.
  { intros password. rewrite Authenticate_true. split.
    - intros (u & Hu & <-). rewrite H1 in Hu. by injection Hu as <-.
    - intros ->. eauto. }
  split; [intros k Hk; unfold um1; cbn [users]; by rewrite lookup_insert_ne|].
  split; [unfold um1; cbn [users]; by apply map_size_insert_None|].
  split; [exact Hback|].
  unfold GetUserByID, Authenticate. cbn [users]. rewrite Hback, Hfresh. done.
Qed.

(** The new-account steps of the black-box tests on the test system. *)
Lemma AddUser_then_use_witness :
  let um := AskMeSystem.user_manager test_system in
  let user := User.mk 4 "New User" "newpass" "newuser" "new@test.com" true
                User.REGULAR_USER in
  let um1 := snd (fst (AddUser um test_disk user)) in
  GetUserByID um1 4 = Some user
  /\ Authenticate um1 4 "newpass" = true
  /\ Authenticate um1 4 "wrongpass" = false.
Proof.
  cbv zeta.
  destruct (AddUser_then_use (AskMeSystem.user_manager test_system) test_disk
              (User.mk 4 "New User" "newpass" "newuser" "new@test.com" true
                 User.REGULAR_USER)) as (Hget & Hauth & _); [reflexivity|].
  split; [exact Hget|]. split; [apply Hauth; reflexivity|reflexivity].
Defined.

(** [AddUser] never touches an account that is already there: with an id
    in use it returns [false] and changes nothing, and in every case each
    account present before is present, unchanged, after. *)
Theorem AddUser_keeps_existing (um : UserManager.t) (fs : FileSystem) (user : User.t) :
  (is_Some (users um !! User.id user) -> AddUser um fs user = (false, um, fs))
  /\ (forall k u, users um !! k = Some u ->
        users (snd (fst (AddUser um fs user))) !! k = Some u).
Proof.
  split; [apply AddUser_taken|].
  intros k u Hk. destruct (users um !! User.id user) as [u0|] eqn:Hid.
  - rewrite AddUser_taken by eauto. done.
  - rewrite AddUser_fresh by done. cbn [fst snd users].
    rewrite lookup_insert_ne; [done|]. intros E. rewrite E in Hid. congruence.
Qed.

(** The duplicate-id edge case of the black-box tests. *)
Lemma AddUser_keeps_existing_witness :
  let um := AskMeSystem.user_manager test_system in
  let user2 := User.mk 1 "User2" "pass2" "user2" "user2@test.com" false
                 User.REGULAR_USER in
  AddUser um test_disk user2 = (false, um, test_disk)
  /\ users (snd (fst (AddUser um test_disk user2))) !! 1 = Some test_admin.
Proof.
  cbv zeta.
  destruct (AddUser_keeps_existing (AskMeSystem.user_manager test_system) test_disk
              (User.mk 1 "User2" "pass2" "user2" "user2@test.com" false
                 User.REGULAR_USER)) as [Htaken Hkeep].
  split; [apply Htaken; by eexists|apply Hkeep; reflexivity].
Defined.

(** [UpdateUser] fails without any change when the id is absent; otherwise
    the record given replaces the stored one, the other accounts and the
    number of accounts stay, and a second update of the same id leaves what a
    single update with the second record leaves. *)
Theorem UpdateUser_replaces (um : UserManager.t) (fs : FileSystem) (user : User.t) :
  (users um !! User.id user = None -> UpdateUser um fs user = (false, um, fs))
  /\ (is_Some (users um !! User.id user) ->
      let r1 := UpdateUser um fs user in
      let um1 := snd (fst r1) in
      users um1 !! User.id user = Some user
      /\ (forall k, k <> User.id user -> users um1 !! k = users um !! k)
      /\ size (users um1) = size (users um)
      /\ forall user', User.id user' = User.id user ->
           UpdateUser um1 (snd r1) user' = UpdateUser um fs user').
Proof.
  split; [apply UpdateUser_absent|].
  intros Hin. cbv zeta. rewrite (UpdateUser_present um fs user Hin). cbn [fst snd users].
  split; [apply lookup_insert_eq|].
  split; [intros k Hk; by rewrite lookup_insert_ne|].
  split.
  { by rewrite map_size_insert_Some. }
  intros user' Hid.
  rewrite !UpdateUser_present; cbn [users file_manager]; rewrite ?Hid;
    [|done|rewrite lookup_insert_eq; eauto].
  rewrite insert_insert_eq.
  unfold FileManager.SaveUsers, FileManager.StoreInformationOnFile.
  destruct fs as [fl w]. cbn [writable files]. destruct w; cbn [snd writable files];
    [|done].
  by rewrite insert_insert_eq.
Qed.

Lemma UpdateUser_replaces_witness :
  let um := AskMeSystem.user_manager test_system in
  let updated := User.mk 3 "No Anon User" "pass123" "user2" "user2@test.com" true
                   User.REGULAR_USER in
  users (snd (fst (UpdateUser um test_disk updated))) !! 3 = Some updated
  /\ UpdateUser um test_disk
       (User.mk 9 "Nobody" "x" "nobody" "nobody@test.com" true User.REGULAR_USER)
     = (false, um, test_disk).
Proof.
  cbv zeta. split.
  - destruct (UpdateUser_replaces (AskMeSystem.user_manager test_system) test_disk
                (User.mk 3 "No Anon User" "pass123" "user2" "user2@test.com" true
                   User.REGULAR_USER)) as [_ H].
    destruct H as (H & _); [by eexists|exact H].
  - apply (proj1 (UpdateUser_replaces (AskMeSystem.user_manager test_system) test_disk
                    (User.mk 9 "Nobody" "x" "nobody" "nobody@test.com" true
                       User.REGULAR_USER))).
    reflexivity.
Defined.

(** [DeleteUser] fails without any change when the id is absent; otherwise
    exactly that account goes, and deleting the id a second time fails. *)
Theorem DeleteUser_removes_one (um : UserManager.t) (fs : FileSystem) (user_id : Z) :
  (users um !! user_id = None -> DeleteUser um fs user_id = (false, um, fs))
  /\ (is_Some (users um !! user_id) ->
      let r1 := DeleteUser um fs user_id in
      let um1 := snd (fst r1) in
      users um1 !! user_id = None
      /\ (forall k, k <> user_id -> users um1 !! k = users um !! k)
      /\ size (users um) = S (size (users um1))
      /\ DeleteUser um1 (snd r1) user_id = (false, um1, snd r1)).
Proof.
  split; [apply DeleteUser_absent|].
  intros Hin. cbv zeta. rewrite (DeleteUser_present um fs user_id Hin).
  cbn [fst snd users].
  split; [apply lookup_delete_eq|].
  split; [intros k Hk; by rewrite lookup_delete_ne|].
  split.
  { rewrite map_size_delete_Some by done.
    assert (size (users um) <> 0%nat)
      by (apply map_size_ne_0_lookup_2 with user_id; done).
    lia. }
  apply DeleteUser_absent. cbn [users]. apply lookup_delete_eq.
Qed.

Lemma DeleteUser_removes_one_witness :
  let um := AskMeSystem.user_manager test_system in
  DeleteUser um test_disk 66666 = (false, um, test_disk)
  /\ users (snd (fst (DeleteUser um test_disk 2))) !! 2 = None
  /\ size (users (snd (fst (DeleteUser um test_disk 2)))) = 2%nat.
Proof.
  cbv zeta.
  split.
  - apply (proj1 (DeleteUser_removes_one (AskMeSystem.user_manager test_system)
                    test_disk 66666)).
    reflexivity.
  - destruct (proj2 (DeleteUser_removes_one (AskMeSystem.user_manager test_system)
                       test_disk 2)) as (H1 & _); [by eexists|].
    split; [exact H1|reflexivity].
Defined.

(** When the disk cannot be written, the three mutating calls return
    [false] and leave the files alone, but the collection in memory is
    changed all the same. *)
Theorem UserManager_read_only_disk (um : UserManager.t) (fs : FileSystem) :
  writable fs = false ->
  (forall user, users um !! User.id user = None ->
     AddUser um fs user
     = (false, mk (<[User.id user := user]> (users um)) (file_manager um), fs))
  /\ (forall user, is_Some (users um !! User.id user) ->
        UpdateUser um fs user
        = (false, mk (<[User.id user := user]> (users um)) (file_manager um), fs))
  /\ (forall user_id, is_Some (users um !! user_id) ->
        DeleteUser um fs user_id
        = (false, mk (delete user_id (users um)) (file_manager um), fs)).
Proof.
  intros Hw. split; [|split].
  - intros user H. by rewrite AddUser_fresh, SaveUsers_readonly, Hw.
  - intros user H. by rewrite UpdateUser_present, SaveUsers_readonly, Hw.
  - intros user_id H. by rewrite DeleteUser_present, SaveUsers_readonly, Hw.
Qed.

Lemma UserManager_read_only_disk_witness :
  let um := AskMeSystem.user_manager test_system in
  let fs := mkFS (files test_disk) false in
  fst (fst (DeleteUser um fs 2)) = false
  /\ users (snd (fst (DeleteUser um fs 2))) !! 2 = None
  /\ snd (DeleteUser um fs 2) = fs.
Proof.
  cbv zeta.
  destruct (UserManager_read_only_disk (AskMeSystem.user_manager test_system)
              (mkFS (files test_disk) false)) as (_ & _ & Hdel); [reflexivity|].
  rewrite (Hdel 2) by (by eexists). repeat split.
Defined.

End AccountProperties.

Section ThreadProperties.
Import QuestionManager.

(** [AddQuestion] stores the entry exactly when its id is unused, its
    recipient exists and, for an anonymous entry, the recipient allows it:
    then the entry is found under its id, the other entries stay and the
    collection grows by one; otherwise the call returns [false] and changes
    nothing. *)
Theorem AddQuestion_outcome
    (um : UserManager.t) (qm : QuestionManager.t) (fs : FileSystem)
    (question : Question.t) :
  (accepted um qm question ->
   let r := AddQuestion um qm fs question in
   fst (fst r) = writable fs
   /\ questions (snd (fst r)) !! Question.id question = Some question
   /\ (forall k, k <> Question.id question ->
         questions (snd (fst r)) !! k = questions qm !! k)
   /\ size (questions (snd (fst r))) = S (size (questions qm)))
  /\ (~ accepted um qm question -> AddQuestion um qm fs question = (false, qm, fs)).
Proof.
  split; [|apply AddQuestion_refused].
  intros Hacc. cbv zeta. rewrite (AddQuestion_accepted um qm fs question Hacc).
  cbn [fst snd questions]. split; [done|].
  split; [apply lookup_insert_eq|].
  split; [intros k Hk; by rewrite lookup_insert_ne|].
  apply map_size_insert_None. apply Hacc.
Qed.

(** The question additions of the black-box tests: a plain question to
    account 1 is stored, a question to the unknown account 99999 is not. *)
Lemma AddQuestion_outcome_witness :
  let um := AskMeSystem.user_manager test_system in
  let qm := AskMeSystem.question_manager test_system in
  questions (snd (fst (AddQuestion um qm test_disk
                         (Question.mk 4 (-1) 2 1 false "Test question?" "")))) !! 4
    = Some (Question.mk 4 (-1) 2 1 false "Test question?" "")
  /\ AddQuestion um qm test_disk
       (Question.mk 9999 (-1) 1000 99999 false "Invalid question" "")
     = (false, qm, test_disk).
Proof.
  cbv zeta. split.
  - destruct (proj1 (AddQuestion_outcome (AskMeSystem.user_manager test_system)
                       (AskMeSystem.question_manager test_system) test_disk
                       (Question.mk 4 (-1) 2 1 false "Test question?" "")))
      as (_ & H & _); [|exact H].
    split; [reflexivity|]. exists test_admin. split; [reflexivity|done].
  - apply (proj2 (AddQuestion_outcome (AskMeSystem.user_manager test_system)
                    (AskMeSystem.question_manager test_system) test_disk
                    (Question.mk 9999 (-1) 1000 99999 false "Invalid question" ""))).
    intros (_ & recipient & Hrec & _). vm_compute in Hrec. discriminate.
Defined.

(** With a recipient that exists, [AskQuestion] adds exactly one entry,
    under the next id, which was unused: it is written by the current user,
    addressed to the recipient, unanswered, and anonymous only if the
    recipient allows it; every other entry stays.  With the recipient -1 or
    an unknown recipient nothing changes. *)
Theorem AskQuestion_adds_one_entry
    (um : UserManager.t) (qm : QuestionManager.t) (fs : FileSystem)
    (current_user : User.t) (input : AskInput) :
  (forall k, is_Some (questions qm !! k) -> INT_MIN <= k < INT_MAX) ->
  (forall recipient,
     in_to_user_id input <> -1 ->
     UserManager.users um !! in_to_user_id input = Some recipient ->
     exists q,
       questions (fst (AskQuestion um qm fs current_user input))
         = <[GetNextQuestionID qm := q]> (questions qm)
       /\ questions qm !! GetNextQuestionID qm = None
       /\ Question.id q = GetNextQuestionID qm
       /\ Question.from_user_id q = User.id current_user
       /\ Question.to_user_id q = in_to_user_id input
       /\ Question.answer q = EmptyString
       /\ (Question.is_anonymous q = true ->
           User.allow_anonymous_questions recipient = true))
  /\ (in_to_user_id input = -1 \/ UserManager.users um !! in_to_user_id input = None ->
      AskQuestion um qm fs current_user input = (qm, fs)).
Proof.
  intros Hids. split.
  - intros recipient Hto Hrec.
    destruct (AskQuestion_stores um qm fs current_user input recipient Hids Hto Hrec)
      as (q & -> & Hq).
    exists q. cbn [fst questions]. split; [done|].
    split; [by apply next_question_id_unused|done].
  - unfold AskQuestion, UserManager.GetUserByID. intros [-> | H]; [done|].
    destruct (_ =? _); [done|]. by rewrite H.
Qed.

(** The regular test user asks account 3, which accepts no anonymous
    questions, so the prompt for anonymity is not shown and the [y] held
    ready is not read: entry 4 is not anonymous.  A question to the unknown
    account 77 changes nothing. *)
Lemma AskQuestion_adds_one_entry_witness :
  let um := AskMeSystem.user_manager test_system in
  let qm := AskMeSystem.question_manager test_system in
  questions (fst (AskQuestion um qm test_disk test_regular
                    (mkAskInput 3 "n"%char None "May I?" "y"%char))) !! 4
    = Some (Question.mk 4 (-1) 2 3 false "May I?" "")
  /\ AskQuestion um qm test_disk test_regular
       (mkAskInput 77 "n"%char None "Anyone?" "n"%char) = (qm, test_disk).
Proof.
  cbv zeta. split; [reflexivity|].
  destruct (AskQuestion_adds_one_entry (AskMeSystem.user_manager test_system)
              (AskMeSystem.question_manager test_system) test_disk test_regular
              (mkAskInput 77 "n"%char None "Anyone?" "n"%char)) as [_ H].
  - intros k Hk.
    apply (elem_of_keys
             (QuestionManager.questions (AskMeSystem.question_manager test_system)))
      in Hk as Hin.
    vm_compute in Hin. unfold INT_MIN, INT_MAX.
    repeat (apply elem_of_cons in Hin as [->|Hin]; [lia|]).
    by apply elem_of_nil in Hin.
  - apply H. right. reflexivity.
Defined.

(** [AnswerQuestion] adds and removes no entry and changes nothing but an
    answer: an entry that differs afterwards is the one whose id was
    entered, it is addressed to the caller, its answer is the text entered,
    and if it was answered before, the caller confirmed with [y]. *)
Theorem AnswerQuestion_changes_only_answer
    (qm : QuestionManager.t) (fs : FileSystem) (current_user_id : Z)
    (input : AnswerInput) :
  keyed_questions (questions qm) ->
  let qm' := snd (fst (AnswerQuestion qm fs current_user_id input)) in
  (forall k, questions qm' !! k = None <-> questions qm !! k = None)
  /\ (forall k q q',
        questions qm !! k = Some q -> questions qm' !! k = Some q' ->
        q' = Question.setAnswer q (Question.answer q')
        /\ (q' <> q ->
            k = in_question_id input
            /\ Question.to_user_id q = current_user_id
            /\ Question.answer q' = in_answer input
            /\ (Question.isAnswered q = true -> is_yes (in_confirm input) = true))).
Proof.
  intros Hkey. cbv zeta.
  assert (Heta : forall q, q = Question.setAnswer q (Question.answer q))
    by (by intros []).
  destruct (Z.eq_dec (in_question_id input) (-1)) as [Hc|Hc].
  { destruct (AnswerQuestion_refuses qm fs current_user_id input) as [-> _];
      [by left|].
    split; [done|]. intros k q q' Hq Hq'. rewrite Hq in Hq'. injection Hq' as <-.
    split; [apply Heta|done]. }
  destruct (questions qm !! in_question_id input) as [q0|] eqn:Hq0.
  2:{ destruct (AnswerQuestion_refuses qm fs current_user_id input) as [-> _];
        [right; by left|].
      split; [done|]. intros k q q' Hq Hq'. rewrite Hq in Hq'. injection Hq' as <-.
      split; [apply Heta|done]. }
  destruct (Z.eq_dec (Question.to_user_id q0) current_user_id) as [Hto|Hto].
  2:{ destruct (AnswerQuestion_refuses qm fs current_user_id input) as [-> _];
        [right; right; exists q0; split; [done|by left]|].
      split; [done|]. intros k q q' Hq Hq'. rewrite Hq in Hq'. injection Hq' as <-.
      split; [apply Heta|done]. }
  destruct (Question.isAnswered q0 && negb (is_yes (in_confirm input))) eqn:Hconfirm.
  { destruct (AnswerQuestion_refuses qm fs current_user_id input) as [-> _];
      [right; right; exists q0; split; [done|by right]|].
    split; [done|]. intros k q q' Hq Hq'. rewrite Hq in Hq'. injection Hq' as <-.
    split; [apply Heta|done]. }
  rewrite (AnswerQuestion_stores qm fs current_user_id input q0)
    by (try done; by apply Hkey).
  cbn [fst snd questions]. split.
  - intros k. destruct (decide (in_question_id input = k)) as [<-|Hk].
    + rewrite lookup_insert_eq, Hq0. done.
    + by rewrite lookup_insert_ne.
  - intros k q q' Hq Hq'. destruct (decide (in_question_id input = k)) as [<-|Hk].
    + rewrite lookup_insert_eq in Hq'. injection Hq' as <-.
      rewrite Hq0 in Hq. injection Hq as <-. split; [done|]. intros _.
      split; [done|]. split; [done|]. split; [done|].
      intros Hans. rewrite Hans in Hconfirm. cbn [andb] in Hconfirm.
      by apply negb_false_iff.
    + rewrite lookup_insert_ne in Hq' by done. rewrite Hq in Hq'.
      injection Hq' as <-. split; [apply Heta|done].
Qed.

(** Account 2 answers question 2 of the test system, which is addressed to
    it and already answered, once declining and once confirming. *)
Lemma AnswerQuestion_changes_only_answer_witness :
  let qm := AskMeSystem.question_manager test_system in
  fst (fst (AnswerQuestion qm test_disk 2 (mkAnswerInput 2 "n"%char "Fine")))
    = UpdateCanceled
  /\ questions (snd (fst (AnswerQuestion qm test_disk 2
                            (mkAnswerInput 2 "y"%char "Fine")))) !! 2
     = Some (Question.mk 2 (-1) 1 2 true "How are you today?" "Fine")
  /\ (Question.mk 2 (-1) 1 2 true "How are you today?" "Fine"
      = Question.setAnswer
          (Question.mk 2 (-1) 1 2 true "How are you today?" "I'm doing great thanks!")
          "Fine").
Proof.
  cbv zeta. split; [reflexivity|]. split; [reflexivity|].
  destruct (AnswerQuestion_changes_only_answer
              (AskMeSystem.question_manager test_system) test_disk 2
              (mkAnswerInput 2 "y"%char "Fine")) as [_ H].
  - unfold keyed_questions.
    apply (map_forall_list _ (fun k q => Question.id q = k)).
    vm_compute. repeat constructor.
  - apply (H 2); reflexivity.
Defined.

(** A regular user never removes an entry written by someone else:
    whatever id is deleted, such an entry is still there afterwards. *)
Theorem regular_user_deletes_only_own
    (qm : QuestionManager.t) (fs : FileSystem) (question_id : Z) (actor : User.t) :
  User.role actor = User.REGULAR_USER ->
  forall k q,
    questions qm !! k = Some q ->
    Question.from_user_id q <> User.id actor ->
    questions (snd (fst (DeleteQuestion qm fs question_id actor))) !! k = Some q.
Proof.
  intros Hrole k q Hk Hother. rewrite DeleteQuestion_lookup.
  assert (denied q actor = true) as Hd by (by apply denied_true).
  destruct (questions qm !! question_id) as [question|] eqn:Hq; [|done].
  destruct (denied question actor) eqn:Hdq; [done|].
  rewrite Hk. destruct (decide (k = question_id)) as [->|Hne].
  - congruence.
  - destruct (decide (Question.parent_id q = question_id)); [|done]. by rewrite Hd.
Qed.

(** In the cascade scenario account 3, a regular user, tries to delete
    entry 1 of account 2 and then its own reply 2: entry 1 stays each time. *)
Lemma regular_user_deletes_only_own_witness :
  let actor := User.mk 3 "No Anon User" "pass123" "user2" "user2@test.com" false
                 User.REGULAR_USER in
  questions (snd (fst (DeleteQuestion cascade_manager test_disk 1 actor))) !! 1
    = Some (Question.mk 1 (-1) 2 1 false "Q1" "")
  /\ questions (snd (fst (DeleteQuestion cascade_manager test_disk 2 actor))) !! 1
     = Some (Question.mk 1 (-1) 2 1 false "Q1" "")
  /\ questions (snd (fst (DeleteQuestion cascade_manager test_disk 2 actor))) !! 2
     = None.
Proof.
  cbv zeta. split; [|split; [|reflexivity]];
    apply regular_user_deletes_only_own; try reflexivity; cbn; lia.
Defined.

(** An admin can delete any entry that exists, whoever wrote it: the entry
    and all its direct replies go, and every other entry stays, also a reply
    to one of the removed replies.  Nothing is added. *)
Theorem admin_deletes_entry_and_direct_replies
    (qm : QuestionManager.t) (fs : FileSystem) (question_id : Z) (actor : User.t) :
  User.role actor = User.ADMIN ->
  is_Some (questions qm !! question_id) ->
  forall k,
    questions (snd (fst (DeleteQuestion qm fs question_id actor))) !! k =
    match questions qm !! k with
    | Some q =>
        if decide (k = question_id \/ Question.parent_id q = question_id)
        then None else Some q
    | None => None
    end.
Proof.
  intros Hrole [question Hq] k. rewrite DeleteQuestion_lookup, Hq.
  assert (Hnever : forall q, denied q actor = false).
  { intros q. unfold denied. rewrite Hrole. apply andb_false_r. }
  rewrite Hnever. destruct (questions qm !! k) as [q|]; [|done].
  rewrite Hnever.
  destruct (decide (k = question_id)) as [->|Hk].
  - rewrite decide_True; [done|by left].
  - destruct (decide (Question.parent_id q = question_id)) as [Hp|Hp].
    + rewrite decide_True; [done|by right].
    + rewrite decide_False; [done|]. by intros [?|?].
Qed.

(** The admin deletes entry 1 of the test system: its reply 3 goes too,
    entry 2 stays. *)
Lemma admin_deletes_entry_and_direct_replies_witness :
  let qm := AskMeSystem.question_manager test_system in
  let qm' := snd (fst (DeleteQuestion qm test_disk 1 test_admin)) in
  questions qm' !! 1 = None /\ questions qm' !! 3 = None
  /\ questions qm' !! 2
     = Some (Question.mk 2 (-1) 1 2 true "How are you today?" "I'm doing great thanks!").
Proof.
  cbv zeta.
  pose proof (admin_deletes_entry_and_direct_replies
                (AskMeSystem.question_manager test_system) test_disk 1 test_admin
                eq_refl) as H.
  split; [|split]; rewrite H by (by eexists); reflexivity.
Defined.

End ThreadProperties.

Section Views.
Import QuestionManager.

Lemma listing_elem (P : Z * Question.t -> Prop) `{!forall p, Decision (P p)}
    (m : gmap Z Question.t) (q : Question.t) (b : bool) :
  (q, b) ∈ (fun pair => (snd pair, negb (Question.parent_id (snd pair) =? -1)))
             <$> filter P (map_to_list m)
  <-> (exists k, m !! k = Some q /\ P (k, q))
      /\ b = negb (Question.parent_id q =? -1).
Proof.
  rewrite list_elem_of_fmap. split.
  - intros [[k q'] [[= -> ->] Hin]]. apply list_elem_of_filter in Hin as [HP Hin].
    apply elem_of_map_to_list in Hin. cbn [snd]. eauto.
  - intros [(k & Hk & HP) ->]. exists (k, q). split; [done|].
    apply list_elem_of_filter. split; [done|]. by apply elem_of_map_to_list.
Qed.

Lemma listing_permutation (P : Z * Question.t -> Prop) `{!forall p, Decision (P p)}
    (m : gmap Z Question.t) :
  Permutation
    ((fun pair => (snd pair, negb (Question.parent_id (snd pair) =? -1)))
       <$> filter P (map_to_list m))
    ((fun pair => (snd pair, negb (Question.parent_id (snd pair) =? -1)))
       <$> map_to_list (filter P m)).
Proof.
  apply fmap_Permutation. rewrite map_filter_alt.
  symmetry. apply map_to_list_to_map.
  eapply NoDup_fmap_fst.
  - intros k q1 q2 H1 H2.
    apply list_elem_of_filter in H1 as [_ H1].
    apply list_elem_of_filter in H2 as [_ H2].
    apply elem_of_map_to_list in H1. apply elem_of_map_to_list in H2. congruence.
  - apply NoDup_filter. apply NoDup_map_to_list.
Qed.

(** What [PrintQuestionsToUser] writes is its heading followed by the
    text of one [PrintQuestion] call for each entry addressed to the
    account, each entry once and as a thread entry exactly when it has a
    parent, and by the notice when there is no such entry;
    [PrintQuestionsFromUser] does the same with the entries the account
    wrote.  Neither checks that the account exists. *)
Theorem questions_to_and_from_user (qm : QuestionManager.t) (user_id : Z) :
  (exists calls,
     PrintQuestionsToUser qm user_id
     = (nl ++ "─── Questions To You ───" ++ nl ++ print_all calls
        ++ match calls with
           | [] => "No questions found addressed to you." ++ nl
           | _ :: _ => ""
           end)%string
     /\ Permutation calls
          ((fun pair => (snd pair, negb (Question.parent_id (snd pair) =? -1)))
             <$> map_to_list
                   (filter (fun pair => Question.to_user_id (snd pair) = user_id)
                      (questions qm)))
     /\ forall q is_thread,
          (q, is_thread) ∈ calls
          <-> (exists k, questions qm !! k = Some q /\ Question.to_user_id q = user_id)
              /\ is_thread = negb (Question.parent_id q =? -1))
  /\ (exists calls,
        PrintQuestionsFromUser qm user_id
        = (nl ++ "─── Questions From You ───" ++ nl ++ print_all calls
           ++ match calls with
              | [] => "You haven't asked any questions yet." ++ nl
              | _ :: _ => ""
              end)%string
        /\ Permutation calls
             ((fun pair => (snd pair, negb (Question.parent_id (snd pair) =? -1)))
                <$> map_to_list
                      (filter (fun pair => Question.from_user_id (snd pair) = user_id)
                         (questions qm)))
        /\ forall q is_thread,
             (q, is_thread) ∈ calls
             <-> (exists k, questions qm !! k = Some q
                            /\ Question.from_user_id q = user_id)
                 /\ is_thread = negb (Question.parent_id q =? -1))
  /\ ((forall k q, questions qm !! k = Some q -> Question.to_user_id q <> user_id) ->
      PrintQuestionsToUser qm user_id
      = (nl ++ "─── Questions To You ───" ++ nl
         ++ "No questions found addressed to you." ++ nl)%string)
  /\ ((forall k q, questions qm !! k = Some q -> Question.from_user_id q <> user_id) ->
      PrintQuestionsFromUser qm user_id
      = (nl ++ "─── Questions From You ───" ++ nl
         ++ "You haven't asked any questions yet." ++ nl)%string).
Proof.
  split; [|split; [|split]].
  - exists (questions_to_user qm user_id). split; [reflexivity|]. split.
    + apply (listing_permutation
               (fun pair => Question.to_user_id (snd pair) = user_id)).
    + intros q b. unfold questions_to_user.
      rewrite (listing_elem (fun pair => Question.to_user_id (snd pair) = user_id)).
      done.
  - exists (questions_from_user qm user_id). split; [reflexivity|]. split.
    + apply (listing_permutation
               (fun pair => Question.from_user_id (snd pair) = user_id)).
    + intros q b. unfold questions_from_user.
      rewrite (listing_elem (fun pair => Question.from_user_id (snd pair) = user_id)).
      done.
  - intros Hnone. unfold PrintQuestionsToUser.
    assert (questions_to_user qm user_id = []) as ->; [|done].
    unfold questions_to_user.
    assert (filter (fun pair : Z * Question.t => Question.to_user_id (snd pair) = user_id)
              (map_to_list (questions qm)) = []) as ->; [|done].
    apply elem_of_nil_inv. intros [k q] [Hto Hin]%list_elem_of_filter.
    apply elem_of_map_to_list in Hin. by apply (Hnone k q).
  - intros Hnone. unfold PrintQuestionsFromUser.
    assert (questions_from_user qm user_id = []) as ->; [|done].
    unfold questions_from_user.
    assert (filter (fun pair : Z * Question.t =>
                      Question.from_user_id (snd pair) = user_id)
              (map_to_list (questions qm)) = []) as ->; [|done].
    apply elem_of_nil_inv. intros [k q] [Hto Hin]%list_elem_of_filter.
    apply elem_of_map_to_list in Hin. by apply (Hnone k q).
Qed.

(** In the test system the listing of the questions to account 2 is the
    heading and two [PrintQuestion] calls, entry 2 as a question and entry 3
    as a thread entry, and account 3 has asked nothing. *)
Lemma questions_to_and_from_user_witness :
  (exists calls,
     PrintQuestionsToUser (AskMeSystem.question_manager test_system) 2
     = (nl ++ "─── Questions To You ───" ++ nl ++ print_all calls ++ EmptyString)%string
     /\ length calls = 2%nat
     /\ (Question.mk 2 (-1) 1 2 true "How are you today?" "I'm doing great thanks!",
         false) ∈ calls
     /\ (Question.mk 3 1 1 2 false "Follow up question" "This is a follow up",
         true) ∈ calls)
  /\ PrintQuestionsFromUser (AskMeSystem.question_manager test_system) 3
     = (nl ++ "─── Questions From You ───" ++ nl
        ++ "You haven't asked any questions yet." ++ nl)%string.
Proof.
  destruct (questions_to_and_from_user (AskMeSystem.question_manager test_system) 2)
    as ((calls & Hout & Hperm & Hin) & _).
  split.
  - exists calls.
    assert (length calls = 2%nat) as Hlen
      by (rewrite (Permutation_length Hperm); reflexivity).
    split; [|split; [exact Hlen|split]].
    + rewrite Hout. by destruct calls.
    + apply Hin. split; [exists 2; split; reflexivity|reflexivity].
    + apply Hin. split; [exists 3; split; reflexivity|reflexivity].
  - apply (proj2 (proj2 (proj2 (questions_to_and_from_user
                                  (AskMeSystem.question_manager test_system) 3)))).
    apply (map_forall_list _ (fun _ q => Question.from_user_id q <> 3)).
    let l := eval vm_compute in
               (map_to_list (questions (AskMeSystem.question_manager test_system))) in
    change (map_to_list (questions (AskMeSystem.question_manager test_system))) with l.
    repeat constructor; cbn; lia.
Defined.

(** The feed is for admins only: a regular user is refused whatever the
    collection holds, and an admin gets the number of entries and every
    entry once, or the notice that there is none. *)
Theorem GetFeed_admin_only (qm : QuestionManager.t) (current_user : User.t) :
  (User.role current_user = User.REGULAR_USER -> GetFeed qm current_user = AccessDenied)
  /\ (User.role current_user = User.ADMIN ->
      (questions qm = ∅ -> GetFeed qm current_user = NoQuestions)
      /\ (questions qm <> ∅ ->
          exists calls,
            GetFeed qm current_user = Feed (size (questions qm)) calls
            /\ length calls = size (questions qm)
            /\ forall q is_thread,
                 (q, is_thread) ∈ calls
                 <-> (exists k, questions qm !! k = Some q)
                     /\ is_thread = negb (Question.parent_id q =? -1))).
Proof.
  unfold GetFeed. split; [by intros ->|]. intros ->. split.
  - intros ->. by rewrite map_to_list_empty.
  - intros Hne. destruct (map_to_list (questions qm)) as [|p l] eqn:E.
    { by apply map_to_list_empty_iff in E. }
    eexists. split; [done|]. rewrite <- E. split.
    + by rewrite length_fmap, length_map_to_list.
    + intros q b. rewrite list_elem_of_fmap. split.
      * intros [[k q'] [[= -> ->] H]]. apply elem_of_map_to_list in H.
        cbn [snd]. eauto.
      * intros [[k Hk] ->]. exists (k, q). split; [done|].
        by apply elem_of_map_to_list.
Qed.

Lemma GetFeed_admin_only_witness :
  GetFeed (AskMeSystem.question_manager test_system) test_regular = AccessDenied
  /\ exists calls,
       GetFeed (AskMeSystem.question_manager test_system) test_admin = Feed 3 calls
       /\ length calls = 3%nat.
Proof.
  destruct (GetFeed_admin_only (AskMeSystem.question_manager test_system) test_regular)
    as [Hregular _].
  destruct (GetFeed_admin_only (AskMeSystem.question_manager test_system) test_admin)
    as [_ Hadmin].
  split; [by apply Hregular|].
  destruct (proj2 (Hadmin eq_refl)) as (calls & E & Hlen & _); [discriminate|].
  exists calls. split; [exact E|exact Hlen].
Defined.

(** Nothing that is printed about an anonymous entry depends on who asked
    it: with other askers in the anonymous entries, every sequence of
    [PrintQuestion] calls prints the same text. *)
Theorem print_all_hides_anonymous_asker
    (other : Question.t -> Z) (calls : list (Question.t * bool)) :
  print_all (disguise other calls) = print_all calls.
Proof.
  induction calls as [|[q is_thread] calls IH]; [done|].
  unfold disguise in *. cbn [fmap list_fmap fst snd print_all].
  change (list_fmap _ _ ?f calls) with (f <$> calls). rewrite IH. f_equal.
  destruct (Question.is_anonymous q) eqn:Ha; [|done].
  unfold PrintQuestion, with_asker, Question.isAnswered.
  cbn [Question.id Question.to_user_id Question.is_anonymous Question.text
       Question.answer Question.from_user_id].
  by rewrite Ha.
Qed.

End Views.

Section Invariants.

Lemma AskQuestion_cases um qm fs current_user input :
  QuestionManager.questions (fst (QuestionManager.AskQuestion um qm fs current_user input))
    = QuestionManager.questions qm
  \/ exists q,
       QuestionManager.questions
         (fst (QuestionManager.AskQuestion um qm fs current_user input))
       = <[Question.id q := q]> (QuestionManager.questions qm).
Proof.
  unfold QuestionManager.AskQuestion.
  destruct (_ =? _); [by left|].
  destruct (UserManager.GetUserByID um _); [|by left].
  destruct (if QuestionManager.is_yes _ then _ else _) as [parent_id stream_good].
  match goal with
  | |- context [QuestionManager.AddQuestion um qm fs ?question] =>
      destruct (AddQuestion_cases um qm fs question) as [E|[_ E]];
      destruct (QuestionManager.AddQuestion um qm fs question) as [[ok qm'] fs'] eqn:EA
  end; cbn [fst snd] in *.
  - left. by injection E as _ -> _.
  - right. eauto.
Qed.

Lemma AnswerQuestion_cases qm fs current_user_id input :
  keyed_questions (QuestionManager.questions qm) ->
  (snd (fst (QuestionManager.AnswerQuestion qm fs current_user_id input)) = qm
   /\ snd (QuestionManager.AnswerQuestion qm fs current_user_id input) = fs)
  \/ exists q,
       QuestionManager.questions qm !! QuestionManager.in_question_id input = Some q
       /\ QuestionManager.AnswerQuestion qm fs current_user_id input =
            (QuestionManager.AnswerStored (writable fs),
             QuestionManager.mk
               (<[QuestionManager.in_question_id input :=
                    Question.setAnswer q (QuestionManager.in_answer input)]>
                  (QuestionManager.questions qm))
               (QuestionManager.file_manager qm),
             snd (FileManager.SaveQuestions (QuestionManager.file_manager qm) fs
                    (<[QuestionManager.in_question_id input :=
                         Question.setAnswer q (QuestionManager.in_answer input)]>
                       (QuestionManager.questions qm)))).
Proof.
  intros Hkey.
  destruct (Z.eq_dec (QuestionManager.in_question_id input) (-1)) as [Hc|Hc].
  { left. apply AnswerQuestion_refuses. by left. }
  destruct (QuestionManager.questions qm !! QuestionManager.in_question_id input)
    as [q0|] eqn:Hq0.
  2:{ left. apply AnswerQuestion_refuses. right. by left. }
  destruct (Z.eq_dec (Question.to_user_id q0) current_user_id) as [Hto|Hto].
  2:{ left. apply AnswerQuestion_refuses. right. right. exists q0.
      split; [done|by left]. }
  destruct (Question.isAnswered q0
            && negb (QuestionManager.is_yes (QuestionManager.in_confirm input)))
    eqn:Hconfirm.
  { left. apply AnswerQuestion_refuses. right. right. exists q0.
    split; [done|by right]. }
  right. exists q0. split; [done|].
  apply AnswerQuestion_stores; try done. by apply Hkey.
Qed.

Lemma keyed_insert_user (us : gmap Z User.t) (u : User.t) :
  keyed_users us -> keyed_users (<[User.id u := u]> us).
Proof.
  intros Hkey k u' Hk. destruct (decide (User.id u = k)) as [<-|Hne].
  - rewrite lookup_insert_eq in Hk. by injection Hk as <-.
  - rewrite lookup_insert_ne in Hk by done. by apply Hkey.
Qed.

Lemma keyed_insert_question (qs : gmap Z Question.t) (q : Question.t) :
  keyed_questions qs -> keyed_questions (<[Question.id q := q]> qs).
Proof.
  intros Hkey k q' Hk. destruct (decide (Question.id q = k)) as [<-|Hne].
  - rewrite lookup_insert_eq in Hk. by injection Hk as <-.
  - rewrite lookup_insert_ne in Hk by done. by apply Hkey.
Qed.

(** In both repositories the next id is unused, unless the successor of
    the largest id overflows, and the next account id is positive: an
    account or entry created under the next id can never collide. *)
Theorem next_id_is_unused :
  (forall um : UserManager.t,
     (forall k, is_Some (UserManager.users um !! k) -> k < INT_MAX) ->
     1 <= UserManager.GetNextUserID um <= INT_MAX
     /\ UserManager.users um !! UserManager.GetNextUserID um = None)
  /\ (forall qm : QuestionManager.t,
        (forall k, is_Some (QuestionManager.questions qm !! k) ->
                   INT_MIN <= k < INT_MAX) ->
        QuestionManager.questions qm !! QuestionManager.GetNextQuestionID qm = None).
Proof.
  split.
  - intros um Hids. split; [by apply GetNextUserID_above|by apply next_user_id_unused].
  - intros qm Hids. by apply next_question_id_unused.
Qed.

(** A collection whose only account has the negative id -5: the next id
    is 1, which is unused. *)
Lemma next_id_is_unused_witness :
  let um := UserManager.mk {[ -5 := User.default ]} FileManager.default in
  UserManager.GetNextUserID um = 1
  /\ UserManager.users um !! UserManager.GetNextUserID um = None
  /\ QuestionManager.questions cascade_manager
       !! QuestionManager.GetNextQuestionID cascade_manager = None.
Proof.
  cbv zeta. destruct next_id_is_unused as [Husers Hquestions].
  split; [reflexivity|]. split.
  - apply Husers. intros k [u Hk].
    destruct (decide (k = -5)) as [->|Hne]; [unfold INT_MAX; lia|].
    cbn [UserManager.users] in Hk. by rewrite lookup_singleton_ne in Hk.
  - apply Hquestions. intros k Hk.
    apply (elem_of_keys (QuestionManager.questions cascade_manager)) in Hk as Hin.
    vm_compute in Hin. unfold INT_MIN, INT_MAX.
    repeat (apply elem_of_cons in Hin as [->|Hin]; [lia|]).
    by apply elem_of_nil in Hin.
Defined.

(** Every account is stored under its own id: loading establishes this,
    and [AddUser], [UpdateUser] and [DeleteUser] keep it. *)
Theorem UserManager_records_under_own_id :
  (forall fm fs, keyed_users (UserManager.users (UserManager.create fm fs)))
  /\ (forall um fs,
        keyed_users (UserManager.users um) ->
        (forall user,
           keyed_users (UserManager.users (snd (fst (UserManager.AddUser um fs user))))
           /\ keyed_users
                (UserManager.users (snd (fst (UserManager.UpdateUser um fs user)))))
        /\ (forall user_id,
              keyed_users
                (UserManager.users (snd (fst (UserManager.DeleteUser um fs user_id)))))).
Proof.
  split.
  - intros fm fs k u. cbn [UserManager.create UserManager.users].
    unfold FileManager.LoadUsers. rewrite LoadUsers_lines_fold.
    apply (load_key FileManager.parse_user_line User.id).
  - intros um fs Hkey. split.
    + intros user. split.
      * destruct (UserManager.users um !! User.id user) eqn:E.
        -- rewrite AddUser_taken by eauto. done.
        -- rewrite AddUser_fresh by done. by apply keyed_insert_user.
      * destruct (UserManager.users um !! User.id user) eqn:E.
        -- rewrite UpdateUser_present by eauto. by apply keyed_insert_user.
        -- rewrite UpdateUser_absent by done. done.
    + intros user_id. rewrite DeleteUser_users. intros k u Hk.
      apply lookup_delete_Some in Hk as [_ Hk]. by apply Hkey.
Qed.

(** The accounts of the test files after a fourth account is added and
    after account 3 is deleted: accounts 4 and 2 carry their keys. *)
Lemma UserManager_records_under_own_id_witness :
  let um := UserManager.create FileManager.default test_disk in
  let fourth := User.mk 4 "Doe" "pw" "jdoe" "jdoe@test.com" true User.REGULAR_USER in
  User.id <$> UserManager.users (snd (fst (UserManager.AddUser um test_disk fourth))) !! 4
    = Some 4
  /\ User.id <$> UserManager.users (snd (fst (UserManager.DeleteUser um test_disk 3))) !! 2
     = Some 2.
Proof.
  cbv zeta. destruct UserManager_records_under_own_id as [Hload Hkeep].
  destruct (Hkeep (UserManager.create FileManager.default test_disk) test_disk
              (Hload FileManager.default test_disk)) as [Hput Hdel].
  split.
  - destruct (UserManager.users _ !! 4) as [u|] eqn:E; [|by vm_compute in E].
    cbn [fmap option_fmap option_map]. f_equal.
    exact (proj1 (Hput _) 4 u E).
  - destruct (UserManager.users _ !! 2) as [u|] eqn:E; [|by vm_compute in E].
    cbn [fmap option_fmap option_map]. f_equal.
    exact (Hdel 3 2 u E).
Defined.

(** Every thread entry is stored under its own id: loading establishes
    this, and [AddQuestion], [UpdateQuestion], [AskQuestion],
    [AnswerQuestion] and [DeleteQuestion] keep it. *)
Theorem QuestionManager_records_under_own_id :
  (forall fm fs,
     keyed_questions (QuestionManager.questions (QuestionManager.create_from fm fs)))
  /\ (forall um qm fs,
        keyed_questions (QuestionManager.questions qm) ->
        (forall question,
           keyed_questions
             (QuestionManager.questions
                (snd (fst (QuestionManager.AddQuestion um qm fs question))))
           /\ keyed_questions
                (QuestionManager.questions
                   (snd (fst (QuestionManager.UpdateQuestion qm fs question)))))
        /\ (forall current_user input,
              keyed_questions
                (QuestionManager.questions
                   (fst (QuestionManager.AskQuestion um qm fs current_user input))))
        /\ (forall current_user_id input,
              keyed_questions
                (QuestionManager.questions
                   (snd (fst (QuestionManager.AnswerQuestion qm fs current_user_id
                                input)))))
        /\ (forall question_id actor,
              keyed_questions
                (QuestionManager.questions
                   (snd (fst (QuestionManager.DeleteQuestion qm fs question_id
                                actor)))))).
Proof.
  split.
  - intros fm fs k q. cbn [QuestionManager.create_from QuestionManager.questions].
    unfold FileManager.LoadQuestions. rewrite LoadQuestions_lines_fold.
    apply (load_key FileManager.parse_question_line Question.id).
  - intros um qm fs Hkey. split; [|split; [|split]].
    + intros question. split.
      * destruct (AddQuestion_cases um qm fs question) as [-> | [_ ->]]; [done|].
        by apply keyed_insert_question.
      * destruct (QuestionManager.questions qm !! Question.id question) eqn:E.
        -- rewrite UpdateQuestion_present by eauto. by apply keyed_insert_question.
        -- rewrite UpdateQuestion_absent by done. done.
    + intros current_user input.
      destruct (AskQuestion_cases um qm fs current_user input) as [-> | [q ->]];
        [done|].
      by apply keyed_insert_question.
    + intros current_user_id input.
      destruct (AnswerQuestion_cases qm fs current_user_id input Hkey)
        as [[-> _] | (q & Hq & ->)]; [done|].
      cbn [fst snd QuestionManager.questions].
      rewrite <- (Hkey _ _ Hq) at 1.
      change (Question.id q) with (Question.id (Question.setAnswer q
                                                  (QuestionManager.in_answer input))).
      by apply keyed_insert_question.
    + intros question_id actor k q. rewrite DeleteQuestion_lookup.
      destruct (QuestionManager.questions qm !! question_id) as [question|];
        [|apply Hkey].
      destruct (QuestionManager.denied question actor); [apply Hkey|].
      destruct (QuestionManager.questions qm !! k) as [q'|] eqn:Hk; [|done].
      destruct (decide (k = question_id)); [done|].
      destruct (decide (Question.parent_id q' = question_id)).
      * destruct (QuestionManager.denied q' actor); [|done].
        intros [= <-]. by apply Hkey.
      * intros [= <-]. by apply Hkey.
Qed.

(** The entries of the test files after entry 1 is answered again by its
    recipient and after entry 3 is deleted by the administrator: entries 1
    and 2 carry their keys. *)
Lemma QuestionManager_records_under_own_id_witness :
  let qm := QuestionManager.create test_disk in
  let again := QuestionManager.mkAnswerInput 1 "y" "Green" in
  Question.id <$>
    QuestionManager.questions
      (snd (fst (QuestionManager.AnswerQuestion qm test_disk 1 again))) !! 1
    = Some 1
  /\ Question.id <$>
       QuestionManager.questions
         (snd (fst (QuestionManager.DeleteQuestion qm test_disk 3 test_admin))) !! 2
     = Some 2.
Proof.
  cbv zeta. destruct QuestionManager_records_under_own_id as [Hload Hkeep].
  destruct (Hkeep (UserManager.create FileManager.default test_disk)
              (QuestionManager.create test_disk) test_disk
              (Hload FileManager.default test_disk))
    as (_ & _ & Hanswer & Hdel).
  split.
  - destruct (QuestionManager.questions _ !! 1) as [q|] eqn:E; [|by vm_compute in E].
    cbn [fmap option_fmap option_map]. f_equal.
    exact (Hanswer _ _ 1 q E).
  - destruct (QuestionManager.questions _ !! 2) as [q|] eqn:E; [|by vm_compute in E].
    cbn [fmap option_fmap option_map]. f_equal.
    exact (Hdel 3 test_admin 2 q E).
Defined.

End Invariants.

Section Restart.

Lemma storable_insert_user (us : gmap Z User.t) (k0 : Z) (u : User.t) :
  (forall k u', us !! k = Some u' -> storable_user u') -> storable_user u ->
  forall k u', <[k0 := u]> us !! k = Some u' -> storable_user u'.
Proof.
  intros Hall Hu k u' Hk. destruct (decide (k0 = k)) as [<-|Hne].
  - rewrite lookup_insert_eq in Hk. by injection Hk as <-.
  - rewrite lookup_insert_ne in Hk by done. by apply (Hall k).
Qed.

Lemma storable_insert_question (qs : gmap Z Question.t) (k0 : Z) (q : Question.t) :
  (forall k q', qs !! k = Some q' -> storable_question q') -> storable_question q ->
  forall k q', <[k0 := q]> qs !! k = Some q' -> storable_question q'.
Proof.
  intros Hall Hq k q' Hk. destruct (decide (k0 = k)) as [<-|Hne].
  - rewrite lookup_insert_eq in Hk. by injection Hk as <-.
  - rewrite lookup_insert_ne in Hk by done. by apply (Hall k).
Qed.

(** A user manager built from the files that a successful [AddUser],
    [UpdateUser] or [DeleteUser] left is the manager in memory, provided
    the accounts sit under their own ids and the line format can carry
    them. *)
Theorem UserManager_reload_after_success (um : UserManager.t) (fs : FileSystem) :
  keyed_users (UserManager.users um) ->
  (forall k u, UserManager.users um !! k = Some u -> storable_user u) ->
  (forall user,
     storable_user user ->
     (fst (fst (UserManager.AddUser um fs user)) = true ->
      UserManager.create (UserManager.file_manager um)
        (snd (UserManager.AddUser um fs user))
      = snd (fst (UserManager.AddUser um fs user)))
     /\ (fst (fst (UserManager.UpdateUser um fs user)) = true ->
         UserManager.create (UserManager.file_manager um)
           (snd (UserManager.UpdateUser um fs user))
         = snd (fst (UserManager.UpdateUser um fs user))))
  /\ (forall user_id,
        fst (fst (UserManager.DeleteUser um fs user_id)) = true ->
        UserManager.create (UserManager.file_manager um)
          (snd (UserManager.DeleteUser um fs user_id))
        = snd (fst (UserManager.DeleteUser um fs user_id))).
Proof.
  intros Hkey Hst. split; [intros user Huser; split|intros user_id].
  - destruct (UserManager.users um !! User.id user) eqn:E.
    { rewrite AddUser_taken by eauto. done. }
    rewrite AddUser_fresh by done. cbn [fst snd]. intros Hw.
    unfold UserManager.create. f_equal.
    apply save_load_users_lemma; [done|by apply keyed_insert_user|].
    by apply storable_insert_user.
  - destruct (UserManager.users um !! User.id user) eqn:E.
    2:{ rewrite UpdateUser_absent by done. done. }
    rewrite UpdateUser_present by eauto. cbn [fst snd]. intros Hw.
    unfold UserManager.create. f_equal.
    apply save_load_users_lemma; [done|by apply keyed_insert_user|].
    by apply storable_insert_user.
  - destruct (UserManager.users um !! user_id) eqn:E.
    2:{ rewrite DeleteUser_absent by done. done. }
    rewrite DeleteUser_present by eauto. cbn [fst snd]. intros Hw.
    unfold UserManager.create. f_equal.
    apply save_load_users_lemma; [done| |].
    + intros k u' Hk. apply lookup_delete_Some in Hk as [_ Hk]. by apply Hkey.
    + intros k u' Hk. apply lookup_delete_Some in Hk as [_ Hk]. by apply (Hst k).
Qed.

(** The three accounts of the test files: a fourth account is added,
    account 2 is replaced and account 3 is deleted, each on the writable
    test disk, and each time a manager built from the files is the one in
    memory. *)
Lemma UserManager_reload_after_success_witness :
  let um := UserManager.create FileManager.default test_disk in
  let fourth := User.mk 4 "Doe" "pw" "jdoe" "jdoe@test.com" true User.REGULAR_USER in
  let second := User.mk 2 "Renamed" "pw2" "user1" "user1@test.com" false
                  User.REGULAR_USER in
  UserManager.create FileManager.default (snd (UserManager.AddUser um test_disk fourth))
    = snd (fst (UserManager.AddUser um test_disk fourth))
  /\ UserManager.create FileManager.default
       (snd (UserManager.UpdateUser um test_disk second))
     = snd (fst (UserManager.UpdateUser um test_disk second))
  /\ UserManager.create FileManager.default (snd (UserManager.DeleteUser um test_disk 3))
     = snd (fst (UserManager.DeleteUser um test_disk 3)).
Proof.
  cbv zeta.
  assert (Hkey : keyed_users
                   (UserManager.users (UserManager.create FileManager.default test_disk))).
  { unfold keyed_users.
    apply (map_forall_list _ (fun k u => User.id u = k)).
    vm_compute. repeat constructor. }
  assert (Hst : forall k u,
             UserManager.users (UserManager.create FileManager.default test_disk) !! k
               = Some u -> storable_user u).
  { apply (map_forall_list _ (fun _ u => storable_user u)).
    match goal with
    | |- Forall _ (map_to_list ?m) =>
        let l := eval vm_compute in (map_to_list m) in
        change (map_to_list m) with l
    end.
    repeat constructor; cbn; unfold INT_MIN, INT_MAX; lia. }
  destruct (UserManager_reload_after_success _ test_disk Hkey Hst) as [Hput Hdel].
  split; [|split].
  - refine (proj1 (Hput _ _) _); [|reflexivity].
    repeat split; cbn; unfold INT_MIN, INT_MAX; lia.
  - refine (proj2 (Hput _ _) _); [|reflexivity].
    repeat split; cbn; unfold INT_MIN, INT_MAX; lia.
  - apply Hdel. reflexivity.
Defined.

(** A question manager built from the files that a successful
    [AddQuestion], [UpdateQuestion], [AnswerQuestion] or [DeleteQuestion]
    left is the manager in memory, provided the entries sit under their own
    ids and the line format can carry them. *)
Theorem QuestionManager_reload_after_success
    (um : UserManager.t) (qm : QuestionManager.t) (fs : FileSystem) :
  keyed_questions (QuestionManager.questions qm) ->
  (forall k q, QuestionManager.questions qm !! k = Some q -> storable_question q) ->
  (forall question,
     storable_question question ->
     (fst (fst (QuestionManager.AddQuestion um qm fs question)) = true ->
      QuestionManager.create_from (QuestionManager.file_manager qm)
        (snd (QuestionManager.AddQuestion um qm fs question))
      = snd (fst (QuestionManager.AddQuestion um qm fs question)))
     /\ (fst (fst (QuestionManager.UpdateQuestion qm fs question)) = true ->
         QuestionManager.create_from (QuestionManager.file_manager qm)
           (snd (QuestionManager.UpdateQuestion qm fs question))
         = snd (fst (QuestionManager.UpdateQuestion qm fs question))))
  /\ (forall current_user_id input,
        contains dquote (QuestionManager.in_answer input) = false ->
        contains newline (QuestionManager.in_answer input) = false ->
        fst (fst (QuestionManager.AnswerQuestion qm fs current_user_id input))
          = QuestionManager.AnswerStored true ->
        QuestionManager.create_from (QuestionManager.file_manager qm)
          (snd (QuestionManager.AnswerQuestion qm fs current_user_id input))
        = snd (fst (QuestionManager.AnswerQuestion qm fs current_user_id input)))
  /\ (forall question_id actor,
        fst (fst (QuestionManager.DeleteQuestion qm fs question_id actor)) = true ->
        QuestionManager.create_from (QuestionManager.file_manager qm)
          (snd (QuestionManager.DeleteQuestion qm fs question_id actor))
        = snd (fst (QuestionManager.DeleteQuestion qm fs question_id actor))).
Proof.
  intros Hkey Hst. split; [intros question Hq; split|split].
  - destruct (AddQuestion_cases um qm fs question) as [E|[Hs E]].
    { rewrite E. done. }
    unfold QuestionManager.AddQuestion in *. revert Hs E.
    destruct (QuestionManager.questions qm !! Question.id question); [done|].
    destruct (UserManager.GetUserByID um _) as [recipient|]; [|done].
    destruct (_ && _); [done|].
    pose proof (SaveQuestions_result (QuestionManager.file_manager qm) fs
                  (<[Question.id question := question]>
                     (QuestionManager.questions qm))) as Hres.
    destruct (FileManager.SaveQuestions _ _ _) as [ok fs'] eqn:Es.
    cbn [fst snd QuestionManager.questions] in *. intros _ _ ->.
    unfold QuestionManager.create_from. f_equal.
    replace fs' with (snd (FileManager.SaveQuestions (QuestionManager.file_manager qm)
                             fs (<[Question.id question := question]>
                                   (QuestionManager.questions qm))))
      by (by rewrite Es).
    apply save_load_questions_lemma; [done|by apply keyed_insert_question|].
    by apply storable_insert_question.
  - destruct (QuestionManager.questions qm !! Question.id question) eqn:E.
    2:{ rewrite UpdateQuestion_absent by done. done. }
    rewrite UpdateQuestion_present by eauto. cbn [fst snd]. intros Hw.
    unfold QuestionManager.create_from. f_equal.
    apply save_load_questions_lemma; [done|by apply keyed_insert_question|].
    by apply storable_insert_question.
  - intros current_user_id input Hdq Hnl.
    unfold QuestionManager.AnswerQuestion.
    destruct (_ =? _); [done|].
    destruct (QuestionManager.questions qm !! _) as [q|] eqn:Hq; [|done].
    destruct (negb _); [done|]. destruct (_ && _); [done|].
    cbn zeta.
    match goal with
    | |- context [QuestionManager.UpdateQuestion ?m fs ?question] =>
        rewrite (UpdateQuestion_present m fs question)
    end.
    2:{ cbn [QuestionManager.questions Question.setAnswer Question.id].
        rewrite (Hkey _ _ Hq), lookup_insert_eq. eauto. }
    cbn [fst snd QuestionManager.questions QuestionManager.file_manager
           Question.setAnswer Question.id].
    rewrite (Hkey _ _ Hq), insert_insert_eq. intros [= Hw].
    unfold QuestionManager.create_from. f_equal.
    apply save_load_questions_lemma; [done| |].
    * rewrite <- (Hkey _ _ Hq) at 1.
      by apply (keyed_insert_question _
                  (Question.setAnswer q (QuestionManager.in_answer input))).
    * apply storable_insert_question; [done|].
      destruct (Hst _ _ Hq) as (? & ? & ? & ? & ? & ? & ? & ?).
      unfold storable_question, Question.setAnswer.
      cbn [Question.id Question.parent_id Question.from_user_id Question.to_user_id
             Question.text Question.answer].
      repeat (split; [assumption|]). assumption.
  - intros question_id actor.
    destruct (QuestionManager.questions qm !! question_id) as [question|] eqn:E.
    2:{ rewrite DeleteQuestion_absent by done. done. }
    destruct (QuestionManager.denied question actor) eqn:D.
    { rewrite (DeleteQuestion_denied _ _ _ _ _ E D). done. }
    destruct (DeleteQuestion_allowed qm fs question_id actor question E D)
      as (questions' & -> & Hl).
    cbn [fst snd]. intros Hw.
    unfold QuestionManager.create_from. f_equal.
    assert (Hsub : forall k q, questions' !! k = Some q ->
                               QuestionManager.questions qm !! k = Some q).
    { intros k q. rewrite Hl.
      destruct (QuestionManager.questions qm !! k) as [q'|]; [|done].
      destruct (decide _); [done|]. destruct (decide _); [|done].
      by destruct (QuestionManager.denied q' actor). }
    apply save_load_questions_lemma; [done| |].
    + intros k q Hk. by apply Hkey, Hsub.
    + intros k q Hk. by apply (Hst k), Hsub.
Qed.

(** The three entries of the test files: a fourth entry is added, entry 1
    is answered again by its recipient and entry 1 is deleted by the
    administrator, each on the writable test disk, and each time a manager
    built from the files is the one in memory. *)
Lemma QuestionManager_reload_after_success_witness :
  let um := UserManager.create FileManager.default test_disk in
  let qm := QuestionManager.create test_disk in
  let fourth := Question.mk 4 (-1) 2 1 false "Why?" EmptyString in
  let again := QuestionManager.mkAnswerInput 1 "y" "Green" in
  QuestionManager.create (snd (QuestionManager.AddQuestion um qm test_disk fourth))
    = snd (fst (QuestionManager.AddQuestion um qm test_disk fourth))
  /\ QuestionManager.create (snd (QuestionManager.AnswerQuestion qm test_disk 1 again))
     = snd (fst (QuestionManager.AnswerQuestion qm test_disk 1 again))
  /\ QuestionManager.create
       (snd (QuestionManager.DeleteQuestion qm test_disk 1 test_admin))
     = snd (fst (QuestionManager.DeleteQuestion qm test_disk 1 test_admin)).
Proof.
  cbv zeta.
  assert (Hkey : keyed_questions
                   (QuestionManager.questions (QuestionManager.create test_disk))).
  { unfold keyed_questions.
    apply (map_forall_list _ (fun k q => Question.id q = k)).
    vm_compute. repeat constructor. }
  assert (Hst : forall k q,
             QuestionManager.questions (QuestionManager.create test_disk) !! k = Some q ->
             storable_question q).
  { apply (map_forall_list _ (fun _ q => storable_question q)).
    match goal with
    | |- Forall _ (map_to_list ?m) =>
        let l := eval vm_compute in (map_to_list m) in
        change (map_to_list m) with l
    end.
    repeat constructor; cbn; unfold INT_MIN, INT_MAX; lia. }
  destruct (QuestionManager_reload_after_success
              (UserManager.create FileManager.default test_disk) _ test_disk Hkey Hst)
    as (Hput & Hanswer & Hdel).
  split; [|split].
  - refine (proj1 (Hput _ _) _); [|reflexivity].
    repeat split; cbn; unfold INT_MIN, INT_MAX; lia.
  - apply Hanswer; reflexivity.
  - apply Hdel. reflexivity.
Defined.

End Restart.

Section Auth.

(** [Login] succeeds exactly when the account exists and the typed
    password is its stored password; the account of the user manager is
    then the current user, and after [Logout] nobody is logged in.  When it
    throws, no account with this id has this password. *)
Theorem Login_outcome (auth : AuthService.t) (um : UserManager.t)
    (user_id : Z) (password : string) :
  match AuthService.Login auth um user_id password with
  | Some auth' =>
      exists u,
        UserManager.users um !! user_id = Some u
        /\ User.password u = password
        /\ AuthService.IsLoggedIn auth' = true
        /\ AuthService.GetCurrentUser auth' = Some u
        /\ AuthService.IsLoggedIn (AuthService.Logout auth') = false
        /\ AuthService.GetCurrentUser (AuthService.Logout auth') = None
  | None =>
      forall u, UserManager.users um !! user_id = Some u -> User.password u <> password
  end.
Proof.
  unfold AuthService.Login, UserManager.Authenticate, UserManager.GetUserByID,
    User.verifyPassword.
  destruct (UserManager.users um !! user_id) as [u|] eqn:Hu; [|done].
  destruct (String.eqb_spec (User.password u) password) as [Hp|Hp].
  - exists u. by repeat split.
  - by intros u' [= <-].
Qed.

(** On the test files account 2 logs in with its password and is then
    the current user. *)
Lemma Login_outcome_witness :
  let auth := AuthService.create test_disk in
  let um := UserManager.create FileManager.default test_disk in
  exists auth',
    AuthService.Login auth um 2 "user123" = Some auth'
    /\ AuthService.GetCurrentUser auth' = Some test_regular
    /\ AuthService.GetCurrentUser (AuthService.Logout auth') = None.
Proof.
  cbv zeta.
  pose proof (Login_outcome (AuthService.create test_disk)
                (UserManager.create FileManager.default test_disk) 2 "user123") as H.
  destruct (AuthService.Login _ _ 2 "user123") as [auth'|].
  - destruct H as (u & Hu & _ & _ & Hcur & _ & Hout).
    exists auth'. split; [reflexivity|]. split; [|exact Hout].
    rewrite Hcur. vm_compute in Hu. by injection Hu as <-.
  - exfalso. apply (H test_regular); reflexivity.
Defined.

(** [SignUp] stores the new account in memory under the next id, which is
    positive and was unused, with the role of a regular user, whatever the
    typed username is.  On a writable disk it succeeds, the new account is
    the current user, and after a logout the new id and the typed password
    log in again; on a read-only disk it throws and the files are as they
    were. *)
Theorem SignUp_outcome (auth : AuthService.t) (um : UserManager.t)
    (fs : FileSystem) (input : AuthService.SignUpInput) :
  (forall k, is_Some (UserManager.users um !! k) -> k < INT_MAX) ->
  exists new_user,
    UserManager.users (snd (fst (AuthService.SignUp auth um fs input)))
      = <[UserManager.GetNextUserID um := new_user]> (UserManager.users um)
    /\ UserManager.users um !! UserManager.GetNextUserID um = None
    /\ 1 <= UserManager.GetNextUserID um
    /\ User.id new_user = UserManager.GetNextUserID um
    /\ User.role new_user = User.REGULAR_USER
    /\ User.username new_user = AuthService.in_username input
    /\ (writable fs = true ->
        exists auth',
          fst (fst (AuthService.SignUp auth um fs input)) = Some auth'
          /\ AuthService.GetCurrentUser auth' = Some new_user
          /\ AuthService.Login (AuthService.Logout auth')
               (snd (fst (AuthService.SignUp auth um fs input)))
               (UserManager.GetNextUserID um) (AuthService.in_password input)
             = Some auth')
    /\ (writable fs = false ->
        fst (fst (AuthService.SignUp auth um fs input)) = None
        /\ snd (AuthService.SignUp auth um fs input) = fs).
Proof.
  intros Hids.
  pose proof (next_user_id_unused um Hids) as Hfree.
  destruct (GetNextUserID_above um Hids) as [[Hpos _] _].
  unfold AuthService.SignUp. cbv zeta.
  match goal with
  | |- context [UserManager.AddUser um fs ?user] => set (new_user := user)
  end.
  exists new_user. rewrite (AddUser_fresh um fs new_user) by done.
  destruct (writable fs) eqn:Hw; cbn [fst snd UserManager.users].
  - repeat split; try done.
    eexists. split; [reflexivity|]. split; [reflexivity|].
    unfold AuthService.Login, AuthService.Logout, UserManager.Authenticate,
      UserManager.GetUserByID, User.verifyPassword.
    cbn [UserManager.users AuthService.users AuthService.file_manager].
    change (User.id new_user) with (UserManager.GetNextUserID um).
    rewrite lookup_insert_eq. cbn [User.password new_user].
    unfold new_user at 1. cbn [User.password]. by rewrite String.eqb_refl.
  - repeat split; try done. by apply SaveUsers_readonly.
Qed.

(** On the test files, a new user who types the username of account 2
    is registered as account 4 and can log in again with the typed
    password. *)
Lemma SignUp_outcome_witness :
  let auth := AuthService.create test_disk in
  let um := UserManager.create FileManager.default test_disk in
  let input := AuthService.mkSignUpInput "user1" "secret" "Second User1" "u@test.com" 0 in
  exists new_user,
    UserManager.users (snd (fst (AuthService.SignUp auth um test_disk input)))
      = <[4 := new_user]> (UserManager.users um)
    /\ User.username new_user = "user1"
    /\ exists auth',
         fst (fst (AuthService.SignUp auth um test_disk input)) = Some auth'
         /\ AuthService.GetCurrentUser auth' = Some new_user
         /\ AuthService.Login (AuthService.Logout auth')
              (snd (fst (AuthService.SignUp auth um test_disk input))) 4 "secret"
            = Some auth'.
Proof.
  cbv zeta.
  destruct (SignUp_outcome (AuthService.create test_disk)
              (UserManager.create FileManager.default test_disk) test_disk
              (AuthService.mkSignUpInput "user1" "secret" "Second User1" "u@test.com" 0))
    as (new_user & Hstored & _ & _ & _ & _ & Hname & Hok & _).
  { intros k Hk.
    apply (elem_of_keys
             (UserManager.users (UserManager.create FileManager.default test_disk)))
      in Hk as Hin.
    vm_compute in Hin. unfold INT_MAX.
    repeat (apply elem_of_cons in Hin as [->|Hin]; [lia|]).
    by apply elem_of_nil in Hin. }
  exists new_user. split; [exact Hstored|]. split; [exact Hname|].
  apply Hok. reflexivity.
Defined.

End Auth.

